(** * The IMDb scraping client of imdb-trakt-sync (pkg/client/imdb.go)

    A shallow embedding of the Go client: the slug derivation
    [FormatTraktListName], the export parser [readResponse], the
    resource fetcher [doRequest] and the operations built on them
    ([ListItemsGet], [WatchlistGet], [RatingsGet], [ListsScrape],
    [UserIdScrape], [WatchlistIdScrape], [Hydrate], [NewImdbClient]).

    Go strings are byte strings ([string]); an [int] is a [Z]; a nil-able
    pointer is an [option]; a function returning [(T, error)] returns a
    pair whose second component is an [option error]; [log.Fatalf] and
    run-time panics are outcomes of their own. The receiver [c], the
    network and the log of requests sent are threaded as a state. *)

From Stdlib Require Import ZArith NArith String Ascii List Lia Bool.
From stdpp Require Import base option list strings gmap pretty.

Local Open Scope string_scope.
Local Open Scope N_scope.

(** ** Runes and UTF-8 (Go's unicode/utf8, as the string functions use it) *)

Module Utf8.

Definition RuneError : N := 0xFFFD.

(** The entries of utf8's [first] table: the size of the sequence a lead
    byte announces and the range its second byte has to be in. *)
Inductive lead : Type :=
| LeadASCII
| LeadInvalid
| LeadMulti (sz : nat) (lo hi : N).

Definition locb : N := 0x80.
Definition hicb : N := 0xBF.

Definition first (b : N) : lead :=
  if b <? 0x80 then LeadASCII
  else if b <? 0xC2 then LeadInvalid
  else if b <? 0xE0 then LeadMulti 2 locb hicb
  else if b =? 0xE0 then LeadMulti 3 0xA0 hicb
  else if b <? 0xED then LeadMulti 3 locb hicb
  else if b =? 0xED then LeadMulti 3 locb 0x9F
  else if b <? 0xF0 then LeadMulti 3 locb hicb
  else if b =? 0xF0 then LeadMulti 4 0x90 hicb
  else if b <? 0xF4 then LeadMulti 4 locb hicb
  else if b =? 0xF4 then LeadMulti 4 locb 0x8F
  else LeadInvalid.

Definition out_of (lo hi b : N) : bool := (b <? lo) || (hi <? b).

(** [for _, r := range s]: the runes of a byte string, an invalid byte
    read as [RuneError] of width one (utf8.DecodeRuneInString). *)
Fixpoint decode (s : list N) : list N :=
  match s with
  | [] => []
  | s0 :: t0 =>
    match first s0 with
    | LeadASCII => s0 :: decode t0
    | LeadInvalid => RuneError :: decode t0
    | LeadMulti sz lo hi =>
      if (length s <? sz)%nat then RuneError :: decode t0 else
      match t0 with
      | [] => RuneError :: decode t0
      | s1 :: t1 =>
        if out_of lo hi s1 then RuneError :: decode t0 else
        if (sz <=? 2)%nat
        then N.lor (N.shiftl (N.land s0 0x1F) 6) (N.land s1 0x3F) :: decode t1
        else
        match t1 with
        | [] => RuneError :: decode t0
        | s2 :: t2 =>
          if out_of locb hicb s2 then RuneError :: decode t0 else
          if (sz <=? 3)%nat
          then N.lor (N.lor (N.shiftl (N.land s0 0x0F) 12)
                            (N.shiftl (N.land s1 0x3F) 6))
                     (N.land s2 0x3F) :: decode t2
          else
          match t2 with
          | [] => RuneError :: decode t0
          | s3 :: t3 =>
            if out_of locb hicb s3 then RuneError :: decode t0 else
            N.lor (N.lor (N.lor (N.shiftl (N.land s0 0x07) 18)
                                (N.shiftl (N.land s1 0x3F) 12))
                         (N.shiftl (N.land s2 0x3F) 6))
                  (N.land s3 0x3F) :: decode t3
          end
        end
      end
    end
  end.

Definition bytes_of_string (s : string) : list N :=
  map N_of_ascii (list_ascii_of_string s).

Definition runes_of_string (s : string) : list N :=
  decode (bytes_of_string s).

(** A string whose runes are all ASCII has one byte per rune. *)
Definition string_of_ascii_runes (rs : list N) : string :=
  string_of_list_ascii (map ascii_of_N rs).

End Utf8.

(** ** strings.Fields, strings.Join, strings.ToLower and the regexp *)

Module Strings.

(** unicode.IsSpace: the Latin-1 switch, then the White_Space table. *)
Definition IsSpace (r : N) : bool :=
  if r <=? 0xFF then
    (r =? 0x09) || (r =? 0x0A) || (r =? 0x0B) || (r =? 0x0C) || (r =? 0x0D)
    || (r =? 0x20) || (r =? 0x85) || (r =? 0xA0)
  else
    (r =? 0x1680) || ((0x2000 <=? r) && (r <=? 0x200A))
    || (r =? 0x2028) || (r =? 0x2029) || (r =? 0x202F) || (r =? 0x205F)
    || (r =? 0x3000).

(** strings.Fields: the maximal runs of non-space runes, in order.
    [cur] holds the run being read, last rune first. *)
Fixpoint Fields_from (cur : list N) (rs : list N) : list (list N) :=
  match rs with
  | [] => match cur with [] => [] | _ => [rev cur] end
  | r :: rs' =>
    if IsSpace r
    then match cur with
         | [] => Fields_from [] rs'
         | _ => rev cur :: Fields_from [] rs'
         end
    else Fields_from (r :: cur) rs'
  end.

Definition Fields (rs : list N) : list (list N) := Fields_from [] rs.

(** strings.Join *)
Fixpoint Join (elems : list (list N)) (sep : list N) : list N :=
  match elems with
  | [] => []
  | [e] => e
  | e :: rest => e ++ sep ++ Join rest sep
  end.

Section Lower.

(** [unicode.To(unicode.LowerCase, r)] for the runes above ASCII: the
    Unicode case tables are the Go library's, not this repository's. *)
Variable unicode_LowerCase : N -> N.

(** unicode.ToLower *)
Definition unicode_ToLower (r : N) : N :=
  if r <=? 0x7F then
    if (0x41 <=? r) && (r <=? 0x5A) then r + 0x20 else r
  else unicode_LowerCase r.

(** strings.ToLower *)
Definition ToLower (rs : list N) : list N := map unicode_ToLower rs.

End Lower.

(** The character class [-a-z0-9] of the pattern. *)
Definition slug_rune (r : N) : bool :=
  (r =? 0x2D) || ((0x61 <=? r) && (r <=? 0x7A)) || ((0x30 <=? r) && (r <=? 0x39)).

(** [regexp.MustCompile(`[^-a-z0-9]+`).ReplaceAllString(s, "")]: every
    maximal run of runes outside the class is replaced by nothing. *)
Definition strip_non_slug (rs : list N) : list N := filter (fun r => slug_rune r = true) rs.

End Strings.

Section Slug.

Variable unicode_LowerCase : N -> N.

Definition hyphen : list N := [0x2D].

(** func FormatTraktListName(imdbListName string) string.
    The intermediate strings are kept as the runes each library call
    reads; the result, all ASCII, is a byte string again. *)
Definition FormatTraktListName (imdbListName : string) : string :=
  let formatted :=
    Strings.ToLower unicode_LowerCase
      (Strings.Join (Strings.Fields (Utf8.runes_of_string imdbListName)) hyphen) in
  Utf8.string_of_ascii_runes (Strings.strip_non_slug formatted).

End Slug.

(** A byte of the set [a-z0-9-]. *)
Definition slug_char (c : ascii) : Prop :=
  c = "-"%char \/ (97 <= N_of_ascii c <= 122) \/ (48 <= N_of_ascii c <= 57).

(** ** Library values: strconv.Atoi, time.Parse, strings.Split *)

Local Open Scope Z_scope.

(** Modelled from the spec: the resource kinds (list, rating, watchlist)
    and the error types ImdbError and ResourceNotFoundError, declared in
    a file of the package that is not among the sources; their fields are
    those the composite literals of imdb.go set.

    The values of Go's [error] interface the client builds or passes on.
    [Errorf msg] is [fmt.Errorf] without a wrapping verb; [Wrapf msg w] is
    [fmt.Errorf] with one: [msg] is the formatted text up to ": %w", [w]
    the error the verb wraps. [LibError] stands for the error values of
    the Go libraries (net/http, net/url, encoding/csv, mime, ...). *)
Inductive resourceType : Type :=
| resourceTypeList
| resourceTypeRating
| resourceTypeWatchlist.

Inductive error : Type :=
| ImdbError (httpMethod url : string) (statusCode : Z) (details : string)
| ResourceNotFoundError (resType : resourceType) (resourceId : option string)
| Errorf (msg : string)
| Wrapf (msg : string) (wrapped : error)
| LibError (msg : string).

(** errors.As with a target of type ResourceNotFoundError *)
Fixpoint errors_As_ResourceNotFoundError (err : error) : option (resourceType * option string) :=
  match err with
  | ResourceNotFoundError t i => Some (t, i)
  | Wrapf _ w => errors_As_ResourceNotFoundError w
  | _ => None
  end.

(** errors.As with a target of type ImdbError *)
Fixpoint errors_As_ImdbError (err : error) : option (string * string * Z * string) :=
  match err with
  | ImdbError m u c d => Some (m, u, c, d)
  | Wrapf _ w => errors_As_ImdbError w
  | _ => None
  end.

(** [errors.As(err, target)] as a test, for an [err] that may be nil. *)
Definition is_ResourceNotFound (err : option error) : bool :=
  match err with
  | Some e =>
    match errors_As_ResourceNotFoundError e with
    | Some _ => true
    | None => false
    end
  | None => false
  end.

(** The chain errors.Unwrap walks: the error, then what it wraps. *)
Fixpoint chain (err : error) : list error :=
  err :: match err with
         | Wrapf _ w => chain w
         | _ => []
         end.

Module Strconv.

Definition digit (c : ascii) : option Z :=
  let n := Z.of_N (N_of_ascii c) in
  if (48 <=? n) && (n <=? 57) then Some (n - 48) else None.

Fixpoint digits (acc : Z) (cs : list ascii) : option Z :=
  match cs with
  | [] => Some acc
  | c :: cs' =>
    match digit c with
    | Some d => digits (acc * 10 + d) cs'
    | None => None
    end
  end.

Definition ErrSyntax : error := LibError "strconv.Atoi: invalid syntax".
Definition ErrRange : error := LibError "strconv.Atoi: value out of range".

(** strconv.Atoi on a 64-bit [int]: an optional sign, then decimal digits. *)
Definition Atoi (s : string) : Z * option error :=
  let cs := list_ascii_of_string s in
  let '(neg, ds) :=
    match cs with
    | "-"%char :: ds => (true, ds)
    | "+"%char :: ds => (false, ds)
    | _ => (false, cs)
    end in
  match ds with
  | [] => (0, Some ErrSyntax)
  | _ =>
    match digits 0 ds with
    | None => (0, Some ErrSyntax)
    | Some n =>
      let v := if neg then - n else n in
      if v <? - 2 ^ 63 then (- 2 ^ 63, Some ErrRange)
      else if 2 ^ 63 - 1 <? v then (2 ^ 63 - 1, Some ErrRange)
      else (v, None)
    end
  end.

End Strconv.

Module Time.

(** A [time.Time] at midnight UTC, as [time.Parse] gives for a layout
    with a date only. *)
Record Time : Type := Date { Year : Z; Month : Z; Day : Z }.

Definition zero : Time := Date 1 1 1.

Definition isLeap (year : Z) : bool :=
  (year mod 4 =? 0) && (negb (year mod 100 =? 0) || (year mod 400 =? 0)).

Definition daysIn (m year : Z) : Z :=
  if (m =? 2) && isLeap year then 29
  else if m =? 2 then 28
  else if (m =? 4) || (m =? 6) || (m =? 9) || (m =? 11) then 30
  else 31.

Definition errBad : error := LibError "parsing time: cannot parse".
Definition errRange (what : string) : error :=
  LibError ("parsing time: " ++ what ++ " out of range").
Definition errExtra : error := LibError "parsing time: extra text".

(** time.Parse("2006-01-02", value): a four-digit year, "-", a two-digit
    month, "-", a two-digit day, nothing after; the month is checked when
    it is read, the day once the whole value is. *)
Definition Parse_2006_01_02 (value : string) : Time * option error :=
  match list_ascii_of_string value with
  | y1 :: y2 :: y3 :: y4 :: rest =>
    match Strconv.digits 0 [y1; y2; y3; y4] with
    | None => (zero, Some errBad)
    | Some year =>
      match rest with
      | "-"%char :: m1 :: m2 :: rest =>
        match Strconv.digits 0 [m1; m2] with
        | None => (zero, Some errBad)
        | Some month =>
          if (month <=? 0) || (12 <? month) then (zero, Some (errRange "month")) else
          match rest with
          | "-"%char :: d1 :: d2 :: rest =>
            match Strconv.digits 0 [d1; d2] with
            | None => (zero, Some errBad)
            | Some day =>
              match rest with
              | [] =>
                if (day <? 1) || (daysIn month year <? day)
                then (zero, Some (errRange "day"))
                else (Date year month day, None)
              | _ => (zero, Some errExtra)
              end
            end
          | _ => (zero, Some errBad)
          end
        end
      | _ => (zero, Some errBad)
      end
    end
  | _ => (zero, Some errBad)
  end.

End Time.

(** strings.Split(s, sep) for a separator of one byte: never empty. *)
Fixpoint strings_Split (s : string) (sep : ascii) : list string :=
  match s with
  | EmptyString => [EmptyString]
  | String c s' =>
    if Ascii.eqb c sep then EmptyString :: strings_Split s' sep
    else match strings_Split s' sep with
         | x :: xs => String c x :: xs
         | [] => [String c EmptyString]
         end
  end.


(** fmt.Sprintf with a format holding one "%s" verb. *)
Fixpoint Sprintf_s (format arg : string) : string :=
  match format with
  | EmptyString => EmptyString
  | String "%"%char (String "s"%char rest) => arg ++ rest
  | String c rest => String c (Sprintf_s rest arg)
  end.

(** ** The data model *)

Definition imdbCookieNameAtMain : string := "at-main".
Definition imdbCookieNameUbidMain : string := "ubid-main".
Definition imdbHeaderKeyContentDisposition : string := "Content-Disposition".
Definition imdbPathBase : string := "https://www.imdb.com".
Definition imdbPathListExport : string := "/list/%s/export".
Definition imdbPathLists : string := "/user/%s/lists".
Definition imdbPathProfile : string := "/profile".
Definition imdbPathRatingsExport : string := "/user/%s/ratings/export".
Definition imdbPathWatchlist : string := "/watchlist".

Definition http_MethodGet : string := "GET".
Definition http_StatusOK : Z := 200.
Definition http_StatusForbidden : Z := 403.
Definition http_StatusNotFound : Z := 404.

Record ImdbConfig : Type := {
  CookieAtMain : string;
  CookieUbidMain : string;
  UserId : string;
  WatchlistId : string
}.

(** Modelled from the spec: entities.ImdbItem (the Catalog Item), declared
    in a package that is not among the sources, with the fields the
    client fills; [Rating] and [RatingDate] are pointers. *)
Record ImdbItem : Type := {
  Id : string;
  TitleType : string;
  Rating : option Z;
  RatingDate : option Time.Time
}.

(** Modelled from the spec: entities.DataPair (the Collection Pair),
    declared in a package that is not among the sources, with the fields
    the client fills. *)
Record DataPair : Type := {
  ImdbList : list ImdbItem;
  ImdbListId : string;
  ImdbListName : string;
  TraktListId : string
}.

Record Cookie : Type := { Name : string; Value : string }.

(** An [http.Request]: its method, [URL.String()] and body. *)
Record request : Type := {
  req_Method : string;
  req_URL : string;
  req_Body : option string
}.

(** Modelled from the spec: requestParams (method, relative path,
    optional body object), declared in a file of the package that is not
    among the sources; [O] is the type of body objects. *)
Record requestParams (O : Type) : Type := {
  Method : string;
  Path : string;
  Body_ : option O
}.
Arguments Method {O} _.
Arguments Path {O} _.
Arguments Body_ {O} _.

(** An [http.Response]; [B] is the type of body streams. *)
Record response (B : Type) : Type := {
  StatusCode : Z;
  Header : gmap string (list string);
  Body : B;
  Request : request
}.
Arguments StatusCode {B} _.
Arguments Header {B} _.
Arguments Body {B} _.
Arguments Request {B} _.

(** http.Header.Get *)
Definition Header_Get (h : gmap string (list string)) (key : string) : string :=
  match h !! key with
  | Some (v :: _) => v
  | _ => EmptyString
  end.

Record http_Client (J : Type) : Type := { Jar : option J }.
Arguments Jar {J} _.

Record ImdbClient (J : Type) : Type := {
  endpoint : string;
  client : http_Client J;
  config : ImdbConfig
}.
Arguments endpoint {J} _.
Arguments client {J} _.
Arguments config {J} _.

(** A library call that gives a value or an error, never both. *)
Inductive goresult (A : Type) : Type :=
| Ok (a : A)
| Err (e : error).
Arguments Ok {A} _.
Arguments Err {A} _.

(** How a call ends: it returns, the process exits in [log.Fatalf]
    ([format] with its operand), or the goroutine panics. *)
Inductive outcome (A : Type) : Type :=
| Returns (a : A)
| Fatal (format : string) (operand : option error)
| Panics (msg : string).
Arguments Returns {A} _.
Arguments Fatal {A} _ _.
Arguments Panics {A} _.

(** [err != nil] *)
Definition is_err (err : option error) : bool :=
  match err with
  | Some _ => true
  | None => false
  end.

Definition nil_dereference : string :=
  "runtime error: invalid memory address or nil pointer dereference".
Definition index_out_of_range : string :=
  "runtime error: index out of range".

(** ** The libraries and the network

    What the client reaches through net/http, net/url, encoding/json,
    encoding/csv, mime, goquery and the Unicode tables is taken as given:
    an instance of [Platform] fixes the site's answers. *)
Class Platform : Type := {
  World : Type;
  BodyT : Type;
  Document : Type;
  Node : Type;
  BodyObj : Type;
  URL : Type;
  CookieJar : Type;
  url_Parse : string -> goresult URL;
  cookiejar_New : goresult CookieJar;
  jar_SetCookies : CookieJar -> URL -> list Cookie -> CookieJar;
  http_NewRequest : string -> string -> goresult request;
  json_Marshal : BodyObj -> goresult string;
  (** [c.client.Do(req)]: a response, an error, or (a redirect policy
      failing) both *)
  client_Do : http_Client CookieJar -> request -> World ->
              (option (response BodyT) * option error) * World;
  body_Close : BodyT -> World -> option error * World;
  goquery_NewDocumentFromReader : BodyT -> goresult Document;
  (** [doc.Find(selector)]: the matching nodes in document order *)
  goquery_Find : Document -> string -> list Node;
  goquery_Attr : Node -> string -> option string;
  csv_ReadAll : BodyT -> goresult (list (list string));
  mime_ParseMediaType : string -> string * gmap string string * option error;
  unicode_LowerCase : N -> N
}.

(** ** The export parser *)

Section Parser.

Context `{Platform}.

(** The list-mode loop of [readResponse]: [i] is the index of the row at
    the head of [csvData], [imdbList] the items appended so far. *)
Fixpoint readListRows (i : nat) (csvData : list (list string)) (imdbList : list ImdbItem)
  : outcome (list ImdbItem) :=
  match csvData with
  | [] => Returns imdbList
  | record :: rest =>
    if (0 <? i)%nat then
      match record !! 1%nat with
      | None => Panics index_out_of_range
      | Some id =>
        match record !! 7%nat with
        | None => Panics index_out_of_range
        | Some titleType =>
          readListRows (S i) rest
            (imdbList ++ [ {| Id := id; TitleType := titleType;
                              Rating := None; RatingDate := None |} ])
        end
      end
    else readListRows (S i) rest imdbList
  end.

(** The rating-mode loop of [readResponse]. *)
Fixpoint readRatingRows (i : nat) (csvData : list (list string)) (imdbList : list ImdbItem)
  : outcome (list ImdbItem) :=
  match csvData with
  | [] => Returns imdbList
  | record :: rest =>
    if (0 <? i)%nat then
      match record !! 1%nat with
      | None => Panics index_out_of_range
      | Some field1 =>
        match Strconv.Atoi field1 with
        | (_, Some err) => Fatal "error parsing imdb rating value: %v" (Some err)
        | (rating, None) =>
          match record !! 2%nat with
          | None => Panics index_out_of_range
          | Some field2 =>
            match Time.Parse_2006_01_02 field2 with
            | (_, Some err) => Fatal "error parsing imdb rating date: %v" (Some err)
            | (ratingDate, None) =>
              match record !! 0%nat with
              | None => Panics index_out_of_range
              | Some id =>
                match record !! 5%nat with
                | None => Panics index_out_of_range
                | Some titleType =>
                  readRatingRows (S i) rest
                    (imdbList ++ [ {| Id := id; TitleType := titleType;
                                      Rating := Some rating;
                                      RatingDate := Some ratingDate |} ])
                end
              end
            end
          end
        end
      end
    else readRatingRows (S i) rest imdbList
  end.

(** The list name [readResponse] takes from the Content-Disposition
    header, after the rows have been read. *)
Definition readListName (res : response BodyT) : outcome (option string) :=
  let contentDispositionHeader := Header_Get (Header res) imdbHeaderKeyContentDisposition in
  if String.eqb contentDispositionHeader EmptyString then
    Fatal "error reading header Content-Disposition from imdb response" None
  else
    let '(_, params, err) := mime_ParseMediaType contentDispositionHeader in
    if is_err err || (size params =? 0)%nat then
      Fatal "error parsing media type from header: %v" err
    else
      match strings_Split (default EmptyString (params !! "filename")) "."%char !! 0%nat with
      | None => Panics index_out_of_range
      | Some name => Returns (Some name)
      end.

(** func readResponse(res *http.Response, resType string)
      (imdbListName *string, imdbList []entities.ImdbItem).
    The reader is the CSV reader with LazyQuotes set and FieldsPerRecord
    negative; [resourceTypeWatchlist] falls to the default case. *)
Definition readResponse (res : response BodyT) (resType : resourceType)
  : outcome (option string * list ImdbItem) :=
  match csv_ReadAll (Body res) with
  | Err err => Fatal "error reading imdb response: %v" (Some err)
  | Ok csvData =>
    match resType with
    | resourceTypeList =>
      match readListRows 0 csvData [] with
      | Returns imdbList =>
        match readListName res with
        | Returns imdbListName => Returns (imdbListName, imdbList)
        | Fatal f e => Fatal f e
        | Panics m => Panics m
        end
      | Fatal f e => Fatal f e
      | Panics m => Panics m
      end
    | resourceTypeRating =>
      match readRatingRows 0 csvData [] with
      | Returns imdbList => Returns (None, imdbList)
      | Fatal f e => Fatal f e
      | Panics m => Panics m
      end
    | resourceTypeWatchlist => Fatal "unknown imdb response type" None
    end
  end.

End Parser.

(** What the specification says of one data row and the item it yields,
    in list mode and in rating mode, and a row whose rating or date does
    not parse. *)
Definition list_row (record : list string) (item : ImdbItem) : Prop :=
  record !! 1%nat = Some (Id item) /\
  record !! 7%nat = Some (TitleType item) /\
  Rating item = None /\ RatingDate item = None.

Definition rating_row (record : list string) (item : ImdbItem) : Prop :=
  record !! 0%nat = Some (Id item) /\
  record !! 5%nat = Some (TitleType item) /\
  (exists field rating, record !! 1%nat = Some field /\
     Strconv.Atoi field = (rating, None) /\ Rating item = Some rating) /\
  (exists field date, record !! 2%nat = Some field /\
     Time.Parse_2006_01_02 field = (date, None) /\ RatingDate item = Some date).

(** An item with neither a rating nor a rating date, and one with both. *)
Definition unrated (item : ImdbItem) : Prop :=
  Rating item = None /\ RatingDate item = None.

Definition rated (item : ImdbItem) : Prop :=
  is_Some (Rating item) /\ is_Some (RatingDate item).

Definition unparsable_rating_row (record : list string) : Prop :=
  (exists field, record !! 1%nat = Some field /\ (Strconv.Atoi field).2 <> None) \/
  (exists field1 field2, record !! 1%nat = Some field1 /\ record !! 2%nat = Some field2 /\
     (Time.Parse_2006_01_02 field2).2 <> None).

(** ** The client *)

Section Client.

Context `{Platform}.

(** The client behind the receiver pointer, the state of the network,
    and the requests handed to the transport so far (oldest first). *)
Record state : Type := {
  st_client : ImdbClient CookieJar;
  st_world : World;
  st_sent : list request
}.

Definition M (A : Type) : Type := state -> outcome A * state.

Definition ret {A} (a : A) : M A := fun st => (Returns a, st).

Definition bind {A B} (m : M A) (k : A -> M B) : M B := fun st =>
  match m st with
  | (Returns a, st') => k a st'
  | (Fatal f e, st') => (Fatal f e, st')
  | (Panics msg, st') => (Panics msg, st')
  end.

Definition panic {A} (msg : string) : M A := fun st => (Panics msg, st).

Definition lift {A} (o : outcome A) : M A := fun st => (o, st).

Definition get_client : M (ImdbClient CookieJar) := fun st => (Returns (st_client st), st).

Definition set_config (cfg : ImdbConfig) : M unit := fun st =>
  (Returns tt,
   {| st_client := {| endpoint := endpoint (st_client st);
                      client := client (st_client st);
                      config := cfg |};
      st_world := st_world st;
      st_sent := st_sent st |}).

(** The state once the transport has taken [req] and left the network
    in [w], and once a body has been closed leaving it in [w]. *)
Definition after_Do (st : state) (req : request) (w : World) : state :=
  {| st_client := st_client st; st_world := w; st_sent := st_sent st ++ [req] |}.

Definition after_Close (st : state) (w : World) : state :=
  {| st_client := st_client st; st_world := w; st_sent := st_sent st |}.

(** [c.client.Do(req)] *)
Definition Do (req : request) : M (option (response BodyT) * option error) := fun st =>
  let '(r, w) := client_Do (client (st_client st)) req (st_world st) in
  (Returns r, after_Do st req w).

(** func DrainBody(body io.ReadCloser) *)
Definition DrainBody (body : BodyT) : M unit := fun st =>
  let '(err, w) := body_Close body (st_world st) in
  match err with
  | Some err => (Fatal "error closing response body: %v" (Some err), after_Close st w)
  | None => (Returns tt, after_Close st w)
  end.

(** [defer d] before [m]: [d] runs when [m] returns and when it panics,
    not when the process exits in [log.Fatalf]. *)
Definition defer {A} (d : M unit) (m : M A) : M A := fun st =>
  match m st with
  | (Fatal f e, st') => (Fatal f e, st')
  | (Returns a, st') =>
    match d st' with
    | (Returns _, st'') => (Returns a, st'')
    | (Fatal f e, st'') => (Fatal f e, st'')
    | (Panics msg, st'') => (Panics msg, st'')
    end
  | (Panics msg, st') =>
    match d st' with
    | (Returns _, st'') => (Panics msg, st'')
    | (Fatal f e, st'') => (Fatal f e, st'')
    | (Panics msg', st'') => (Panics msg', st'')
    end
  end.

End Client.

Declare Scope go_scope.
Delimit Scope go_scope with go.
Notation "'let*' x ':=' m 'in' k" := (bind m (fun x => k))
  (at level 10, x pattern, m at level 100, k at level 200, only parsing) : go_scope.
Local Open Scope go_scope.

Section Operations.

Context `{Platform}.

(** func (c *ImdbClient) doRequest(params requestParams): the response and the error *)
Definition doRequest (params : requestParams BodyObj)
  : M (option (response BodyT) * option error) :=
  let* c := get_client in
  match http_NewRequest (Method params) (endpoint c ++ Path params) with
  | Err err =>
    ret (None, Some (Wrapf ("failure creating http request " ++ Method params ++ " "
                            ++ endpoint c ++ Path params) err))
  | Ok req =>
    let marshalled :=
      match Body_ params with
      | Some b =>
        match json_Marshal b with
        | Err err =>
          Err (Wrapf ("failure marshalling http request body for " ++ Method params
                      ++ " " ++ req_URL req) err)
        | Ok body =>
          Ok {| req_Method := req_Method req; req_URL := req_URL req;
                req_Body := Some body |}
        end
      | None => Ok req
      end in
    match marshalled with
    | Err e => ret (None, Some e)
    | Ok req =>
      let* (res, err) := Do req in
      match err with
      | Some err =>
        match res with
        | None => panic nil_dereference
        | Some res =>
          ret (None, Some (Wrapf ("failure sending http request " ++ Method params ++ " "
                                  ++ req_URL (Request res)) err))
        end
      | None =>
        match res with
        | None => panic nil_dereference
        | Some res =>
          if StatusCode res =? http_StatusOK then ret (Some res, None)
          else if StatusCode res =? http_StatusForbidden then
            ret (None, Some (ImdbError (req_Method req) (req_URL req) (StatusCode res)
                   "imdb authorization failure - update the imdb cookie values"))
          else if StatusCode res =? http_StatusNotFound then ret (Some res, None)
          else
            ret (None, Some (ImdbError (req_Method req) (req_URL req) (StatusCode res)
                   ("unexpected status code " ++ pretty (StatusCode res))))
        end
      end
    end
  end.

(** func (c *ImdbClient) ListItemsGet(listId string): the list name, the
    items and the error *)
Definition ListItemsGet (listId : string)
  : M (option string * list ImdbItem * option error) :=
  let path := Sprintf_s imdbPathListExport listId in
  let* (res, err) := doRequest {| Method := http_MethodGet; Path := path; Body_ := None |} in
  match err with
  | Some err =>
    ret (None, [], Some (Wrapf ("failure trying to retrieve imdb list " ++ listId) err))
  | None =>
    match res with
    | None => panic nil_dereference
    | Some res =>
      defer (DrainBody (Body res))
        (if StatusCode res =? http_StatusNotFound then
           ret (None, [], Some (ResourceNotFoundError resourceTypeList (Some listId)))
         else
           let* (listName, list) := lift (readResponse res resourceTypeList) in
           ret (listName, list, None))
    end
  end.

(** func (c *ImdbClient) WatchlistGet() *)
Definition WatchlistGet : M (option string * list ImdbItem * option error) :=
  let* c := get_client in
  let path := Sprintf_s imdbPathListExport (WatchlistId (config c)) in
  let* (res, err) := doRequest {| Method := http_MethodGet; Path := path; Body_ := None |} in
  match err with
  | Some err =>
    ret (None, [], Some (Wrapf ("failure trying to retrieve imdb watchlist "
                                ++ WatchlistId (config c)) err))
  | None =>
    match res with
    | None => panic nil_dereference
    | Some res =>
      defer (DrainBody (Body res))
        (if StatusCode res =? http_StatusNotFound then
           ret (None, [], Some (ResourceNotFoundError resourceTypeWatchlist
                                  (Some (WatchlistId (config c)))))
         else
           let* (_, list) := lift (readResponse res resourceTypeList) in
           ret (Some (WatchlistId (config c)), list, None))
    end
  end.

(** The body of the closure [ListsScrape] hands to [Each], run over the
    selected nodes in order; [dps] is the named result it appends to. *)
Fixpoint ListsScrape_each (selections : list Node) (dps : list DataPair)
  : M (list DataPair) :=
  match selections with
  | [] => ret dps
  | selection :: rest =>
    match goquery_Attr selection "id" with
    | None => ListsScrape_each rest dps
    | Some imdbListId =>
      let* (imdbListName, imdbList, err) := ListItemsGet imdbListId in
      if is_ResourceNotFound err then ListsScrape_each rest dps
      else
        match imdbListName with
        | None => panic nil_dereference
        | Some name =>
          ListsScrape_each rest
            (dps ++ [ {| ImdbList := imdbList;
                         ImdbListId := imdbListId;
                         ImdbListName := name;
                         TraktListId := FormatTraktListName unicode_LowerCase name |} ])
        end
    end
  end.

(** func (c *ImdbClient) ListsScrape() (dps []entities.DataPair, err error) *)
Definition ListsScrape : M (list DataPair * option error) :=
  let* c := get_client in
  let* (res, err) := doRequest {| Method := http_MethodGet;
                                  Path := Sprintf_s imdbPathLists (UserId (config c));
                                  Body_ := None |} in
  match err with
  | Some err => ret ([], Some (Wrapf "failure trying to scrape imdb lists" err))
  | None =>
    match res with
    | None => panic nil_dereference
    | Some res =>
      defer (DrainBody (Body res))
        (match goquery_NewDocumentFromReader (Body res) with
         | Err err =>
           ret ([], Some (Wrapf "failure creating goquery document from imdb response" err))
         | Ok doc =>
           let* dps := ListsScrape_each (goquery_Find doc ".user-list") [] in
           ret (dps, None)
         end)
    end
  end.

(** [Selection.Attr]: the attribute of the first selected node. *)
Definition Selection_Attr (selection : list Node) (name : string) : option string :=
  match selection with
  | [] => None
  | n :: _ => goquery_Attr n name
  end.

(** func (c *ImdbClient) UserIdScrape() error *)
Definition UserIdScrape : M (option error) :=
  let* (res, err) := doRequest {| Method := http_MethodGet; Path := imdbPathProfile;
                                  Body_ := None |} in
  match err with
  | Some err => ret (Some (Wrapf "failure trying to scrape imdb user id" err))
  | None =>
    match res with
    | None => panic nil_dereference
    | Some res =>
      defer (DrainBody (Body res))
        (match goquery_NewDocumentFromReader (Body res) with
         | Err err =>
           ret (Some (Wrapf "failure creating goquery document from imdb response" err))
         | Ok doc =>
           match Selection_Attr (goquery_Find doc ".user-profile.userId") "data-userid" with
           | None => ret (Some (Errorf "failure scraping imdb profile: user id not found"))
           | Some userId =>
             let* c := get_client in
             let* _ := set_config {| CookieAtMain := CookieAtMain (config c);
                                     CookieUbidMain := CookieUbidMain (config c);
                                     UserId := userId;
                                     WatchlistId := WatchlistId (config c) |} in
             ret None
           end
         end)
    end
  end.

(** func (c *ImdbClient) WatchlistIdScrape() error *)
Definition WatchlistIdScrape : M (option error) :=
  let* (res, err) := doRequest {| Method := http_MethodGet; Path := imdbPathWatchlist;
                                  Body_ := None |} in
  match err with
  | Some err => ret (Some (Wrapf "failure trying to scrape imdb watchlist id" err))
  | None =>
    match res with
    | None => panic nil_dereference
    | Some res =>
      defer (DrainBody (Body res))
        (match goquery_NewDocumentFromReader (Body res) with
         | Err err =>
           ret (Some (Wrapf "failure creating goquery document from imdb response" err))
         | Ok doc =>
           match Selection_Attr (goquery_Find doc "meta[property='pageId']") "content" with
           | None => ret (Some (Errorf "failure scraping imdb profile: watchlist id not found"))
           | Some watchlistId =>
             let* c := get_client in
             let* _ := set_config {| CookieAtMain := CookieAtMain (config c);
                                     CookieUbidMain := CookieUbidMain (config c);
                                     UserId := UserId (config c);
                                     WatchlistId := watchlistId |} in
             ret None
           end
         end)
    end
  end.

(** func (c *ImdbClient) RatingsGet() ([]entities.ImdbItem, error) *)
Definition RatingsGet : M (list ImdbItem * option error) :=
  let* c := get_client in
  let* (res, err) := doRequest {| Method := http_MethodGet;
                                  Path := Sprintf_s imdbPathRatingsExport (UserId (config c));
                                  Body_ := None |} in
  match err with
  | Some err => ret ([], Some (Wrapf "failure trying to retrieve imdb ratings" err))
  | None =>
    match res with
    | None => panic nil_dereference
    | Some res =>
      defer (DrainBody (Body res))
        (if StatusCode res =? http_StatusNotFound then
           ret ([], Some (ResourceNotFoundError resourceTypeRating None))
         else
           let* (_, ratings) := lift (readResponse res resourceTypeRating) in
           ret (ratings, None))
    end
  end.

(** func (c *ImdbClient) Hydrate() error *)
Definition Hydrate : M (option error) :=
  let* c := get_client in
  let* err :=
    if String.eqb (UserId (config c)) "" || String.eqb (UserId (config c)) "scrape" then
      let* err := UserIdScrape in
      match err with
      | Some err => ret (Some (Wrapf "failure scraping imdb user id" err))
      | None => ret None
      end
    else ret None in
  match err with
  | Some err => ret (Some err)
  | None =>
    let* err := WatchlistIdScrape in
    match err with
    | Some err => ret (Some (Wrapf "failure scraping imdb watchlist id" err))
    | None => ret None
    end
  end.

(** func setupCookieJar(config ImdbConfig) (http.CookieJar, error) *)
Definition setupCookieJar (config : ImdbConfig) : option CookieJar * option error :=
  match url_Parse imdbPathBase with
  | Err err => (None, Some (Wrapf ("failure parsing " ++ imdbPathBase ++ " as url") err))
  | Ok imdbUrl =>
    match cookiejar_New with
    | Err err => (None, Some (Wrapf "failure creating cookie jar" err))
    | Ok jar =>
      (Some (jar_SetCookies jar imdbUrl
               [ {| Name := imdbCookieNameAtMain; Value := CookieAtMain config |};
                 {| Name := imdbCookieNameUbidMain; Value := CookieUbidMain config |} ]),
       None)
    end
  end.

(** The client [NewImdbClient] builds around the cookie jar, before it is
    hydrated. *)
Definition new_client (jar : option CookieJar) (config : ImdbConfig) : ImdbClient CookieJar :=
  {| endpoint := imdbPathBase;
     client := {| Jar := jar |};
     config := config |}.

(** func NewImdbClient(config ImdbConfig, logger *zap.Logger): the client
    and the error, in the state of the network [w]; the last component
    is the state [Hydrate] left (none when it was not reached). *)
Definition NewImdbClient (config : ImdbConfig) (w : World)
  : outcome (option (ImdbClient CookieJar) * option error) * option state :=
  match setupCookieJar config with
  | (_, Some err) => (Returns (None, Some err), None)
  | (jar, None) =>
    match Hydrate {| st_client := new_client jar config; st_world := w; st_sent := [] |} with
    | (Returns (Some err), st) =>
      (Returns (None, Some (Wrapf "failure hydrating imdb client" err)), Some st)
    | (Returns None, st) => (Returns (Some (st_client st), None), Some st)
    | (Fatal f e, st) => (Fatal f e, Some st)
    | (Panics msg, st) => (Panics msg, Some st)
    end
  end.

(** Ways to describe the site a client talks to: in the network [w] the
    page at [path] answers the client [c] with the response [res] (and no
    error), leaving the network in [w']; a document exposes [value] as the
    attribute [attr] of the first element matching [selector]; the
    Content-Disposition header of an export is absent or does not parse. *)
Definition answers (c : ImdbClient CookieJar) (w : World) (path : string) (req : request)
    (res : response BodyT) (w' : World) : Prop :=
  http_NewRequest http_MethodGet (endpoint c ++ path) = Ok req /\
  client_Do (client c) req w = ((Some res, None), w').

Definition exposes (res : response BodyT) (selector attr value : string) : Prop :=
  exists doc, goquery_NewDocumentFromReader (Body res) = Ok doc /\
    Selection_Attr (goquery_Find doc selector) attr = Some value.

Definition Content_Disposition_unusable (res : response BodyT) : Prop :=
  Header_Get (Header res) imdbHeaderKeyContentDisposition = EmptyString \/
  (mime_ParseMediaType (Header_Get (Header res) imdbHeaderKeyContentDisposition)).2 <> None \/
  size (mime_ParseMediaType (Header_Get (Header res) imdbHeaderKeyContentDisposition)).1.2 = 0%nat.

(** The 403 error of [doRequest], wherever it sits in the chain. *)
Definition is_authorization_failure (err : error) : Prop :=
  exists method url,
    errors_As_ImdbError err =
      Some (method, url, http_StatusForbidden,
            "imdb authorization failure - update the imdb cookie values").

End Operations.

(** ** What an operation may do to the state *)

Section Effects.

Context `{Platform}.

(** From [st] to [st'] at most [n] requests were handed to the
    transport, and none was taken back. *)
Definition sends_at_most (n : nat) (st st' : state) : Prop :=
  exists reqs, st_sent st' = (st_sent st ++ reqs)%list /\ (length reqs <= n)%nat.

(** The session of a client: where it asks, with which transport and
    which tokens. *)
Definition same_session (c c' : ImdbClient CookieJar) : Prop :=
  endpoint c' = endpoint c /\
  client c' = client c /\
  CookieAtMain (config c') = CookieAtMain (config c) /\
  CookieUbidMain (config c') = CookieUbidMain (config c).

(** From [st] to [st'] the client is as it was and at most [n] requests
    were sent. *)
Definition keeps (n : nat) (st st' : state) : Prop :=
  st_client st' = st_client st /\ sends_at_most n st st'.

(** From [st] to [st'] the endpoint is as it was, and each request sent
    is one [http.NewRequest] built for the method GET and a URL under
    that endpoint, handed to the transport as it was built. *)
Definition only_gets (st st' : state) : Prop :=
  endpoint (st_client st') = endpoint (st_client st) /\
  exists reqs,
    st_sent st' = (st_sent st ++ reqs)%list /\
    Forall (fun req => exists path,
              http_NewRequest http_MethodGet (endpoint (st_client st) ++ path) = Ok req)
      reqs.

(** From [st] to [st'] the session is as it was and at most [n] requests
    were sent. *)
Definition keeps_session (n : nat) (st st' : state) : Prop :=
  same_session (st_client st) (st_client st') /\ sends_at_most n st st'.

End Effects.

(** ** A scripted site

    An instance of [Platform] for running the client: the network is a
    table from URLs to answers, a page is the list of its elements (each
    with the selector it matches and its attributes), an export is its
    rows. *)
Module Mock.

Record node : Type := {
  node_matches : string;
  node_attrs : list (string * string)
}.

Inductive body : Type :=
| Html (nodes : list node)
| Csv (rows : list (list string))
| Garbled.

Definition answer : Type := option (response body) * option error.

Definition site : Type := list (string * answer).

Fixpoint assoc {A} (k : string) (l : list (string * A)) : option A :=
  match l with
  | [] => None
  | (k', v) :: l' => if String.eqb k k' then Some v else assoc k l'
  end.

Definition respond (status : Z) (url : string) (hdr : gmap string (list string)) (b : body)
  : response body :=
  {| StatusCode := status; Header := hdr; Body := b;
     Request := {| req_Method := "GET"; req_URL := url; req_Body := None |} |}.


Definition connection_refused : error := LibError "dial tcp: connection refused".
Definition too_many_redirects : error := LibError "stopped after 10 redirects".
Definition invalid_method : error := LibError "net/http: invalid method".

(** An unknown URL is not found; a URL mapped to an error fails to send. *)
Definition Do (c : http_Client (list (string * list Cookie))) (req : request) (w : site)
  : answer * site :=
  match assoc (req_URL req) w with
  | Some a => (a, w)
  | None => ((Some (respond 404 (req_URL req) ∅ (Html [])), None), w)
  end.

Fixpoint strip_prefix (p s : string) : option string :=
  match p with
  | EmptyString => Some s
  | String c p' =>
    match s with
    | String d s' => if Ascii.eqb c d then strip_prefix p' s' else None
    | EmptyString => None
    end
  end.

Definition ParseMediaType (v : string) : string * gmap string string * option error :=
  match strip_prefix "attachment; filename=" v with
  | Some name => ("attachment", {[ "filename" := name ]}, None)
  | None => (EmptyString, ∅, Some (LibError "mime: invalid media parameter"))
  end.

#[export] Instance platform : Platform := {|
  World := site;
  BodyT := body;
  Document := list node;
  Node := node;
  BodyObj := string;
  URL := string;
  CookieJar := list (string * list Cookie);
  url_Parse := fun s => Ok s;
  cookiejar_New := Ok [];
  jar_SetCookies := fun jar u cookies => (u, cookies) :: jar;
  http_NewRequest := fun method url =>
    if String.eqb method "GET"
    then Ok {| req_Method := method; req_URL := url; req_Body := None |}
    else Err invalid_method;
  json_Marshal := fun b => Ok b;
  client_Do := Do;
  body_Close := fun _ w => (None, w);
  goquery_NewDocumentFromReader := fun b =>
    match b with
    | Html nodes => Ok nodes
    | _ => Err (LibError "html: not a document")
    end;
  goquery_Find := fun doc selector =>
    filter (fun n => node_matches n = selector) doc;
  goquery_Attr := fun n name => assoc name (node_attrs n);
  csv_ReadAll := fun b =>
    match b with
    | Csv rows => Ok rows
    | _ => Err (LibError "csv: not an export")
    end;
  mime_ParseMediaType := ParseMediaType;
  unicode_LowerCase := fun r => r
|}.

Definition tokens (userId : string) : ImdbConfig :=
  {| CookieAtMain := "at-token"; CookieUbidMain := "ubid-token";
     UserId := userId; WatchlistId := "" |}.

Definition attachment (filename : string) : gmap string (list string) :=
  {[ "Content-Disposition" := [ "attachment; filename=" ++ filename ] ]}.

(** The pages and exports of the site. The profile page exposes
    data-userid = ur12345, the watchlist page a pageId meta with
    content = ls99999. *)
Definition profile_page : response body :=
  respond 200 "https://www.imdb.com/profile" ∅
    (Html [ {| node_matches := ".user-profile.userId";
               node_attrs := [("data-userid", "ur12345")] |} ]).

Definition watchlist_page : response body :=
  respond 200 "https://www.imdb.com/watchlist" ∅
    (Html [ {| node_matches := "meta[property='pageId']";
               node_attrs := [("property", "pageId"); ("content", "ls99999")] |} ]).

Definition list_header : list string :=
  ["Position"; "Const"; "Created"; "Modified"; "Description"; "Title"; "URL"; "Title Type"].

Definition shawshank : list string :=
  ["1"; "tt0111161"; "2020-05-01"; "2020-05-01"; ""; "The Shawshank Redemption";
   "https://www.imdb.com/title/tt0111161/"; "movie"].

Definition thrones : list string :=
  ["2"; "tt0944947"; "2020-05-02"; "2020-05-02"; ""; "Game of Thrones";
   "https://www.imdb.com/title/tt0944947/"; "tvSeries"].

Definition list1_export : response body :=
  respond 200 "https://www.imdb.com/list/ls1/export" (attachment "Sci-Fi Favourites!.csv")
    (Csv [list_header; shawshank; thrones]).

Definition watchlist_export : response body :=
  respond 200 "https://www.imdb.com/list/ls99999/export" (attachment "WATCHLIST.csv")
    (Csv [list_header; shawshank]).

(** An export that lost its Content-Disposition header. *)
Definition bare_export : response body :=
  respond 200 "https://www.imdb.com/list/ls5/export" ∅ (Csv [list_header; shawshank]).

Definition forbidden (url : string) : response body := respond 403 url ∅ (Html []).

Definition not_found (url : string) : response body := respond 404 url ∅ (Html []).

Definition rating_header : list string :=
  ["Const"; "Your Rating"; "Date Rated"; "Title"; "URL"; "Title Type"].

Definition ratings_export : response body :=
  respond 200 "https://www.imdb.com/user/ur12345/ratings/export" (attachment "ratings.csv")
    (Csv [rating_header; ["tt0111161"; "9"; "2020-05-01"; ""; ""; "movie"]]).

(** A ratings export whose second data row has no number for a rating. *)
Definition odd_ratings_export : response body :=
  respond 200 "https://www.imdb.com/user/ur7/ratings/export" (attachment "ratings.csv")
    (Csv [rating_header; ["tt0111161"; "9"; "2020-05-01"; ""; ""; "movie"];
          ["tt0944947"; "nine"; "2020-05-02"; ""; ""; "tvSeries"]]).

Definition user_list (id : string) : node :=
  {| node_matches := ".user-list"; node_attrs := [("id", id)] |}.

(** The lists of ur12345 are ls2 (deleted since: its export is not
    found) and ls1; those of ur3 are ls1 and ls3 (forbidden); the lists
    page of ur4 cannot be reached, that of ur5 redirects for ever. *)
Definition lists_page_ur12345 : response body :=
  respond 200 "https://www.imdb.com/user/ur12345/lists" ∅
    (Html [user_list "ls2"; user_list "ls1"]).

Definition lists_page_ur3 : response body :=
  respond 200 "https://www.imdb.com/user/ur3/lists" ∅
    (Html [user_list "ls1"; user_list "ls3"]).

Definition imdb : site :=
  [ ("https://www.imdb.com/profile", (Some profile_page, None));
    ("https://www.imdb.com/watchlist", (Some watchlist_page, None));
    ("https://www.imdb.com/list/ls1/export", (Some list1_export, None));
    ("https://www.imdb.com/list/ls99999/export", (Some watchlist_export, None));
    ("https://www.imdb.com/list/ls5/export", (Some bare_export, None));
    ("https://www.imdb.com/list/ls3/export",
     (Some (forbidden "https://www.imdb.com/list/ls3/export"), None));
    ("https://www.imdb.com/user/ur12345/ratings/export", (Some ratings_export, None));
    ("https://www.imdb.com/user/ur7/ratings/export", (Some odd_ratings_export, None));
    ("https://www.imdb.com/user/ur12345/lists", (Some lists_page_ur12345, None));
    ("https://www.imdb.com/user/ur3/lists", (Some lists_page_ur3, None));
    ("https://www.imdb.com/user/ur4/lists", (None, Some connection_refused));
    ("https://www.imdb.com/user/ur5/lists",
     (Some (respond 302 "https://www.imdb.com/user/ur5/lists" ∅ (Html [])),
      Some too_many_redirects)) ].

Definition shawshank_item : ImdbItem :=
  {| Id := "tt0111161"; TitleType := "movie"; Rating := None; RatingDate := None |}.

Definition thrones_item : ImdbItem :=
  {| Id := "tt0944947"; TitleType := "tvSeries"; Rating := None; RatingDate := None |}.

Definition shawshank_rated : ImdbItem :=
  {| Id := "tt0111161"; TitleType := "movie"; Rating := Some 9;
     RatingDate := Some (Time.Date 2020 5 1) |}.

Definition get (url : string) : request :=
  {| req_Method := "GET"; req_URL := url; req_Body := None |}.

Definition jar (cfg : ImdbConfig) : list (string * list Cookie) :=
  [ ("https://www.imdb.com",
     [ {| Name := "at-main"; Value := CookieAtMain cfg |};
       {| Name := "ubid-main"; Value := CookieUbidMain cfg |} ]) ].

(** A hydrated client of the site, before any request. *)
Definition start (userId watchlistId : string) : state :=
  {| st_client := {| endpoint := imdbPathBase;
                     client := {| Jar := Some (jar (tokens userId)) |};
                     config := {| CookieAtMain := "at-token"; CookieUbidMain := "ubid-token";
                                  UserId := userId; WatchlistId := watchlistId |} |};
     st_world := imdb;
     st_sent := [] |}.

End Mock.

(** ** More of the site: outages, truncated exports, a signed-out session *)

Module Outage.

Definition server_error (url : string) : response Mock.body :=
  Mock.respond 500 url ∅ (Mock.Html []).

(** An export whose last row was cut after its second column. *)
Definition cut_export : response Mock.body :=
  Mock.respond 200 "https://www.imdb.com/list/ls6/export" (Mock.attachment "cut.csv")
    (Mock.Csv [Mock.list_header; Mock.shawshank; ["2"; "tt0944947"]]).

(** Ratings exports whose last row was cut after its first column, and
    after its third. *)
Definition cut_ratings_1 : response Mock.body :=
  Mock.respond 200 "https://www.imdb.com/user/ur6/ratings/export" (Mock.attachment "r.csv")
    (Mock.Csv [Mock.rating_header; ["tt0111161"; "9"; "2020-05-01"; ""; ""; "movie"];
               ["tt0944947"]]).

Definition cut_ratings_3 : response Mock.body :=
  Mock.respond 200 "https://www.imdb.com/user/ur7/ratings/export" (Mock.attachment "r.csv")
    (Mock.Csv [Mock.rating_header; ["tt0944947"; "8"; "2020-05-02"]]).

(** An export whose file name has no extension, and one whose
    Content-Disposition carries no file name parameter the parser keeps. *)
Definition plain_name_export : response Mock.body :=
  Mock.respond 200 "https://www.imdb.com/list/ls7/export" (Mock.attachment "Favourites")
    (Mock.Csv [Mock.list_header]).

(** The page a signed-out session gets for its profile: no user id. *)
Definition signed_out_profile : response Mock.body :=
  Mock.respond 200 "https://www.imdb.com/profile" ∅
    (Mock.Html [ {| Mock.node_matches := ".sign-in"; Mock.node_attrs := [] |} ]).

(** A lists page with an element that has no id, and the list ls1. *)
Definition lists_page_ur8 : response Mock.body :=
  Mock.respond 200 "https://www.imdb.com/user/ur8/lists" ∅
    (Mock.Html [ {| Mock.node_matches := ".user-list"; Mock.node_attrs := [("class", "x")] |};
                 Mock.user_list "ls1" ]).

Definition imdb : Mock.site :=
  [ ("https://www.imdb.com/profile", (Some signed_out_profile, None));
    ("https://www.imdb.com/watchlist", (Some Mock.watchlist_page, None));
    ("https://www.imdb.com/list/ls1/export", (Some Mock.list1_export, None));
    ("https://www.imdb.com/list/ls6/export", (Some cut_export, None));
    ("https://www.imdb.com/list/ls7/export", (Some plain_name_export, None));
    ("https://www.imdb.com/user/ur6/ratings/export", (Some cut_ratings_1, None));
    ("https://www.imdb.com/user/ur7/ratings/export", (Some cut_ratings_3, None));
    ("https://www.imdb.com/user/ur8/lists", (Some lists_page_ur8, None));
    ("https://www.imdb.com/user/ur6/lists",
     (Some (server_error "https://www.imdb.com/user/ur6/lists"), None)) ].

(** The site answering a session whose tokens are stale. *)
Definition stale : Mock.site :=
  [ ("https://www.imdb.com/profile",
     (Some (Mock.forbidden "https://www.imdb.com/profile"), None));
    ("https://www.imdb.com/watchlist",
     (Some (Mock.forbidden "https://www.imdb.com/watchlist"), None)) ].

Definition start (w : Mock.site) (userId watchlistId : string) : @state Mock.platform :=
  @Build_state Mock.platform (st_client (Mock.start userId watchlistId)) w [].

Definition reset : error := LibError "close: connection reset by peer".

(** The libraries of [Mock], but the body of a page that is not found
    cannot be closed, and the cookie jar cannot be made. *)
#[export] Instance flaky : Platform := {|
  World := Mock.site;
  BodyT := Mock.body;
  Document := list Mock.node;
  Node := Mock.node;
  BodyObj := string;
  URL := string;
  CookieJar := list (string * list Cookie);
  url_Parse := fun s => Ok s;
  cookiejar_New := Err (LibError "cookiejar: no public suffix list");
  jar_SetCookies := fun jar u cookies => (u, cookies) :: jar;
  http_NewRequest := @http_NewRequest Mock.platform;
  json_Marshal := fun b => Ok b;
  client_Do := Mock.Do;
  body_Close := fun b w =>
    match b with
    | Mock.Html [] => (Some reset, w)
    | _ => (None, w)
    end;
  goquery_NewDocumentFromReader := @goquery_NewDocumentFromReader Mock.platform;
  goquery_Find := @goquery_Find Mock.platform;
  goquery_Attr := @goquery_Attr Mock.platform;
  csv_ReadAll := @csv_ReadAll Mock.platform;
  mime_ParseMediaType := Mock.ParseMediaType;
  unicode_LowerCase := fun r => r
|}.

Definition flaky_start (userId watchlistId : string) : @state flaky :=
  @Build_state flaky
    (@Build_ImdbClient (list (string * list Cookie)) imdbPathBase {| Jar := None |}
       {| CookieAtMain := "at-token"; CookieUbidMain := "ubid-token";
          UserId := userId; WatchlistId := watchlistId |})
    Mock.imdb [].

End Outage.

(** * Properties *)

(** ** The slug derivation *)

Section SlugFacts.

Local Open Scope N_scope.

Ltac unbool :=
  repeat match goal with
  | H : (_ || _)%bool = true |- _ => apply orb_true_iff in H; destruct H
  | H : (_ && _)%bool = true |- _ => apply andb_true_iff in H; destruct H
  | H : (_ =? _) = true |- _ => apply N.eqb_eq in H
  | H : (_ <=? _) = true |- _ => apply N.leb_le in H
  | H : (_ <? _) = true |- _ => apply N.ltb_lt in H
  | H : (_ =? _) = false |- _ => apply N.eqb_neq in H
  | H : (_ <=? _) = false |- _ => apply N.leb_gt in H
  | H : (_ <? _) = false |- _ => apply N.ltb_ge in H
  end.

Lemma slug_rune_bounds r :
  Strings.slug_rune r = true ->
  r = 0x2D \/ (0x61 <= r <= 0x7A) \/ (0x30 <= r <= 0x39).
Proof. unfold Strings.slug_rune. intros Hr. unbool; lia. Qed.

Lemma slug_rune_ascii r : Strings.slug_rune r = true -> r < 0x80.
Proof. intros Hr. apply slug_rune_bounds in Hr. lia. Qed.

Lemma slug_rune_not_space r : Strings.slug_rune r = true -> Strings.IsSpace r = false.
Proof.
  intros Hr. apply slug_rune_bounds in Hr. unfold Strings.IsSpace.
  destruct (r <=? 0xFF) eqn:E; unbool; [|lia].
  repeat (apply orb_false_iff; split); apply N.eqb_neq; lia.
Qed.

Lemma slug_rune_lower f r : Strings.slug_rune r = true -> Strings.unicode_ToLower f r = r.
Proof.
  intros Hr. apply slug_rune_bounds in Hr. unfold Strings.unicode_ToLower.
  destruct (r <=? 0x7F) eqn:E; unbool; [|lia].
  destruct ((0x41 <=? r) && (r <=? 0x5A))%bool eqn:E'; unbool; [lia|done].
Qed.

Lemma strip_non_slug_Forall rs :
  Forall (fun r => Strings.slug_rune r = true) (Strings.strip_non_slug rs).
Proof.
  unfold Strings.strip_non_slug. induction rs as [|r rs IH]; [constructor|].
  rewrite filter_cons. case_decide; [constructor|]; done.
Qed.

Lemma strip_non_slug_id rs :
  Forall (fun r => Strings.slug_rune r = true) rs -> Strings.strip_non_slug rs = rs.
Proof.
  unfold Strings.strip_non_slug. induction 1 as [|r rs Hr _ IH]; [done|].
  rewrite filter_cons. case_decide; [by rewrite IH | done].
Qed.

Lemma ToLower_slug f rs :
  Forall (fun r => Strings.slug_rune r = true) rs -> Strings.ToLower f rs = rs.
Proof.
  unfold Strings.ToLower. induction 1 as [|r rs Hr _ IH]; [done|].
  cbn [map]. by rewrite slug_rune_lower, IH.
Qed.

Lemma Fields_from_no_space cur rs :
  Forall (fun r => Strings.slug_rune r = true) rs ->
  Strings.Fields_from cur rs =
    match (rev cur ++ rs)%list with
    | [] => []
    | field => [field]
    end.
Proof.
  intros Hrs. revert cur. induction Hrs as [|r rs Hr _ IH]; intros cur.
  - cbn. rewrite app_nil_r. destruct cur as [|c cur]; [done|].
    cbn. by destruct (rev cur ++ [c])%list eqn:E; [destruct (rev cur); discriminate|].
  - cbn [Strings.Fields_from]. rewrite (slug_rune_not_space r Hr), IH.
    cbn [rev]. by rewrite <- app_assoc.
Qed.

Lemma Join_Fields_slug rs :
  Forall (fun r => Strings.slug_rune r = true) rs ->
  Strings.Join (Strings.Fields rs) hyphen = rs.
Proof.
  intros Hrs. unfold Strings.Fields. rewrite Fields_from_no_space by done.
  cbn. by destruct rs.
Qed.

Lemma decode_ascii bs : Forall (fun b => b < 0x80) bs -> Utf8.decode bs = bs.
Proof.
  induction 1 as [|b bs Hb _ IH]; [done|].
  cbn [Utf8.decode]. unfold Utf8.first.
  apply N.ltb_lt in Hb. rewrite Hb. by rewrite IH.
Qed.

Lemma bytes_of_ascii_runes rs :
  Forall (fun r => r < 0x80) rs ->
  Utf8.bytes_of_string (Utf8.string_of_ascii_runes rs) = rs.
Proof.
  unfold Utf8.bytes_of_string, Utf8.string_of_ascii_runes.
  rewrite list_ascii_of_string_of_list_ascii.
  induction 1 as [|r rs Hr _ IH]; [done|].
  cbn [map]. rewrite IH. f_equal. apply N_ascii_embedding. lia.
Qed.

Lemma runes_of_slug rs :
  Forall (fun r => Strings.slug_rune r = true) rs ->
  Utf8.runes_of_string (Utf8.string_of_ascii_runes rs) = rs.
Proof.
  intros Hrs.
  assert (Forall (fun r => r < 0x80) rs) as Hlt
    by (eapply Forall_impl; [exact Hrs | apply slug_rune_ascii]).
  unfold Utf8.runes_of_string. rewrite bytes_of_ascii_runes by done.
  by apply decode_ascii.
Qed.

Lemma slug_char_of_rune r : Strings.slug_rune r = true -> slug_char (ascii_of_N r).
Proof.
  intros Hr. apply slug_rune_bounds in Hr. unfold slug_char.
  destruct Hr as [-> | Hr]; [by left | right].
  rewrite N_ascii_embedding by lia. lia.
Qed.

(** C7: the slug derivation is idempotent, and every byte of a slug is in
    the set [a-z0-9-], whatever the input string (and whatever the
    Unicode lower-case table says above ASCII). *)
Theorem FormatTraktListName_idempotent_charset (lower : N -> N) (x : string) :
  FormatTraktListName lower (FormatTraktListName lower x) = FormatTraktListName lower x
  /\ Forall slug_char (list_ascii_of_string (FormatTraktListName lower x)).
Proof.
  unfold FormatTraktListName. cbv zeta.
  set (kept := Strings.strip_non_slug
                 (Strings.ToLower lower
                    (Strings.Join (Strings.Fields (Utf8.runes_of_string x)) hyphen))).
  assert (Forall (fun r => Strings.slug_rune r = true) kept) as Hkept
    by apply strip_non_slug_Forall.
  split.
  - rewrite runes_of_slug, Join_Fields_slug, ToLower_slug, strip_non_slug_id by done.
    reflexivity.
  - unfold Utf8.string_of_ascii_runes. rewrite list_ascii_of_string_of_list_ascii.
    apply Forall_map. eapply Forall_impl; [exact Hkept|]. apply slug_char_of_rune.
Qed.

(** C9: the two slugs the specification gives. *)
Theorem FormatTraktListName_examples (lower : N -> N) :
  FormatTraktListName lower "Sci-Fi Favourites!" = "sci-fi-favourites"
  /\ FormatTraktListName lower "  My   List  " = "my-list".
Proof. split; reflexivity. Qed.

End SlugFacts.

(** ** The export parser *)

Section ParserFacts.

Context `{Platform}.

Lemma readListRows_data i rows acc items :
  (0 < i)%nat ->
  readListRows i rows acc = Returns items <->
  exists new, items = (acc ++ new)%list /\ Forall2 list_row rows new.
Proof.
  revert i acc. induction rows as [|r rows IH]; intros i acc Hi.
  - cbn. split.
    + intros [= <-]. exists []. by rewrite app_nil_r.
    + intros (new & -> & Hnew). inversion Hnew. by rewrite app_nil_r.
  - cbn [readListRows]. apply Nat.ltb_lt in Hi as ->.
    destruct (r !! 1%nat) as [id|] eqn:E1; [destruct (r !! 7%nat) as [ty|] eqn:E7|].
    + rewrite IH by lia. split.
      * intros (new & -> & Hnew). eexists (_ :: new). rewrite <- app_assoc.
        split; [reflexivity|]. constructor; [|done]. by repeat split.
      * intros (new & -> & Hnew).
        inversion Hnew as [|? it ? new' (H1 & H7 & Hr & Hd) Hnew']; subst.
        exists new'. split; [|done]. rewrite <- app_assoc. cbn. do 2 f_equal.
        destruct it; cbn in *. congruence.
    + split; [done|]. intros (new & -> & Hnew).
      inversion Hnew as [|? it ? new' (H1 & H7 & _) Hnew']; subst. congruence.
    + split; [done|]. intros (new & -> & Hnew).
      inversion Hnew as [|? it ? new' (H1 & H7 & _) Hnew']; subst. congruence.
Qed.

Lemma readRatingRows_data i rows acc items :
  (0 < i)%nat ->
  readRatingRows i rows acc = Returns items <->
  exists new, items = (acc ++ new)%list /\ Forall2 rating_row rows new.
Proof.
  revert i acc. induction rows as [|r rows IH]; intros i acc Hi.
  - cbn. split.
    + intros [= <-]. exists []. by rewrite app_nil_r.
    + intros (new & -> & Hnew). inversion Hnew. by rewrite app_nil_r.
  - cbn [readRatingRows]. apply Nat.ltb_lt in Hi as ->.
    split.
    + destruct (r !! 1%nat) as [f1|] eqn:E1; [|done].
      destruct (Strconv.Atoi f1) as [n [e|]] eqn:Ea; [done|].
      destruct (r !! 2%nat) as [f2|] eqn:E2; [|done].
      destruct (Time.Parse_2006_01_02 f2) as [d [e|]] eqn:Ed; [done|].
      destruct (r !! 0%nat) as [id|] eqn:E0; [|done].
      destruct (r !! 5%nat) as [ty|] eqn:E5; [|done].
      rewrite IH by lia. intros (new & -> & Hnew). eexists (_ :: new).
      rewrite <- app_assoc. split; [reflexivity|]. constructor; [|done].
      repeat split; cbn; eauto.
    + intros (new & -> & Hnew).
      inversion Hnew as [|? it ? new' Hrow Hnew']; subst.
      destruct Hrow as (H0 & H5 & (f1 & n & H1 & Ha & Hr) & (f2 & d & H2 & Hp & Hd)).
      rewrite H1, Ha, H2, Hp, H0, H5. apply IH; [lia|].
      exists new'. split; [|done]. rewrite <- app_assoc. cbn. do 2 f_equal.
      destruct it; cbn in *. congruence.
Qed.

Lemma readRatingRows_unparsable i good items bad rest acc :
  (0 < i)%nat ->
  Forall2 rating_row good items ->
  unparsable_rating_row bad ->
  exists f e, readRatingRows i (good ++ bad :: rest) acc = Fatal f e.
Proof.
  intros Hi Hgood Hbad. revert i acc Hi.
  induction Hgood as [|r it good items Hrow _ IH]; intros i acc Hi.
  - cbn [app readRatingRows]. apply Nat.ltb_lt in Hi as ->.
    destruct Hbad as [(f1 & H1 & Ha) | (f1 & f2 & H1 & H2 & Hp)]; rewrite H1.
    + destruct (Strconv.Atoi f1) as [n [e|]]; [eauto | done].
    + destruct (Strconv.Atoi f1) as [n [e|]]; [eauto |].
      rewrite H2. destruct (Time.Parse_2006_01_02 f2) as [d [e|]]; [eauto | done].
  - cbn [app readRatingRows]. apply Nat.ltb_lt in Hi as ->.
    destruct Hrow as (H0 & H5 & (f1 & n & H1 & Ha & Hr) & (f2 & d & H2 & Hp & Hd)).
    rewrite H1, Ha, H2, Hp, H0, H5. apply IH. lia.
Qed.

Lemma readListRows_header csvData :
  readListRows 0 csvData [] = readListRows 1 (tail csvData) [].
Proof. by destruct csvData. Qed.

Lemma readRatingRows_header csvData :
  readRatingRows 0 csvData [] = readRatingRows 1 (tail csvData) [].
Proof. by destruct csvData. Qed.

(** C4: in rating mode every data row gives the item whose id is column
    0, rating the integer of column 1, date the calendar date of column 2
    and title type column 5; a row whose rating or date does not parse is
    fatal; and the row tt0111161, 9, 2020-05-01, movie gives the item the
    specification names. *)
Theorem readResponse_rating_mode (res : response BodyT) (csvData : list (list string)) :
  csv_ReadAll (Body res) = Ok csvData ->
  (forall items, Forall2 rating_row (tail csvData) items ->
     readResponse res resourceTypeRating = Returns (None, items))
  /\ (forall good items bad rest,
        tail csvData = (good ++ bad :: rest)%list ->
        Forall2 rating_row good items ->
        unparsable_rating_row bad ->
        exists f e, readResponse res resourceTypeRating = Fatal f e)
  /\ (forall header,
        csvData = [header; ["tt0111161"; "9"; "2020-05-01"; ""; ""; "movie"]] ->
        readResponse res resourceTypeRating =
          Returns (None, [ {| Id := "tt0111161"; TitleType := "movie";
                              Rating := Some 9;
                              RatingDate := Some (Time.Date 2020 5 1) |} ])).
Proof.
  intros Hcsv. unfold readResponse. rewrite Hcsv, readRatingRows_header.
  assert (forall rows items, Forall2 rating_row rows items ->
            readRatingRows 1 rows [] = Returns items) as Hall.
  { intros rows items Hrows. apply readRatingRows_data; [lia|]. by exists items. }
  split; [|split].
  - intros items Hrows. by rewrite (Hall _ items).
  - intros good items bad rest -> Hgood Hbad.
    destruct (readRatingRows_unparsable 1 good items bad rest [] ltac:(lia) Hgood Hbad)
      as (f & e & ->).
    eauto.
  - intros header ->. cbn [tail]. erewrite Hall; [reflexivity|].
    constructor; [|constructor]. repeat split; cbn; eauto.
Qed.

Lemma readResponse_items (res : response BodyT) (resType : resourceType)
    (name : option string) (items : list ImdbItem) :
  readResponse res resType = Returns (name, items) ->
  Forall (fun item => is_Some (Rating item) <-> is_Some (RatingDate item)) items
  /\ (resType = resourceTypeList -> Forall unrated items)
  /\ (resType = resourceTypeRating -> Forall rated items).
Proof.
  unfold readResponse. destruct (csv_ReadAll (Body res)) as [csvData|]; [|done].
  destruct resType; [| |done].
  - destruct (readListRows 0 csvData []) as [imdbList| |] eqn:Hrows; [|done..].
    destruct (readListName res) as [n| |]; [|done..]. intros [= <- <-].
    assert (Forall unrated imdbList) as Hnone.
    { rewrite readListRows_header in Hrows.
      apply readListRows_data in Hrows as (new & -> & Hnew); [|lia].
      cbn. clear -Hnew.
      induction Hnew as [|r it rows new (_ & _ & Hr & Hd) _ IH]; [done|].
      by constructor. }
    split; [|split]; [|done|done].
    eapply Forall_impl; [exact Hnone|]. intros item [-> ->]. done.
  - destruct (readRatingRows 0 csvData []) as [imdbList| |] eqn:Hrows; [|done..].
    intros [= <- <-].
    assert (Forall rated imdbList) as Hboth.
    { rewrite readRatingRows_header in Hrows.
      apply readRatingRows_data in Hrows as (new & -> & Hnew); [|lia].
      cbn. clear -Hnew.
      induction Hnew as [|r it rows new (_ & _ & (? & ? & _ & _ & Hr) & (? & ? & _ & _ & Hd)) _ IH];
        [done|].
      constructor; [|done]. unfold rated. rewrite Hr, Hd. eauto. }
    split; [|split]; [|done|done].
    eapply Forall_impl; [exact Hboth|]. intros item [? ?]. done.
Qed.

(** C8: in list mode the row at index 0 is left out whatever it holds,
    and the items are those of the rows after it, one each and in order:
    the id from column 1, the title type from column 7, no rating and no
    date. *)
Theorem readResponse_list_mode (res : response BodyT) (csvData : list (list string)) :
  csv_ReadAll (Body res) = Ok csvData ->
  (forall name items,
     Forall2 list_row (tail csvData) items ->
     readListName res = Returns name ->
     readResponse res resourceTypeList = Returns (name, items))
  /\ (forall name items,
        readResponse res resourceTypeList = Returns (name, items) ->
        Forall2 list_row (tail csvData) items).
Proof.
  intros Hcsv. unfold readResponse. rewrite Hcsv, readListRows_header.
  split.
  - intros name items Hrows Hname.
    assert (readListRows 1 (tail csvData) [] = Returns items) as ->
      by (apply readListRows_data; [lia|]; by exists items).
    by rewrite Hname.
  - intros name items.
    destruct (readListRows 1 (tail csvData) []) as [imdbList| |] eqn:Hrows; [|done..].
    destruct (readListName res) as [n| |]; [|done..]. intros [= <- <-].
    apply readListRows_data in Hrows as (new & -> & Hnew); [done|lia].
Qed.

End ParserFacts.

(** ** The resource fetcher and the operations *)

Section ClientFacts.

Context `{Platform}.

Lemma doRequest_answered st path req res w' :
  answers (st_client st) (st_world st) path req res w' ->
  doRequest {| Method := http_MethodGet; Path := path; Body_ := None |} st =
    (Returns
       (if StatusCode res =? http_StatusOK then (Some res, None)
        else if StatusCode res =? http_StatusForbidden then
          (None, Some (ImdbError (req_Method req) (req_URL req) (StatusCode res)
                         "imdb authorization failure - update the imdb cookie values"))
        else if StatusCode res =? http_StatusNotFound then (Some res, None)
        else
          (None, Some (ImdbError (req_Method req) (req_URL req) (StatusCode res)
                         ("unexpected status code " ++ pretty (StatusCode res))))),
     after_Do st req w').
Proof.
  intros [Hreq HDo]. unfold doRequest, bind, get_client, Do, ret. cbn.
  rewrite Hreq. cbn. rewrite HDo.
  by repeat case_match.
Qed.

Lemma defer_DrainBody_returns {A} (m : M A) body st a st1 w :
  m st = (Returns a, st1) ->
  body_Close body (st_world st1) = (None, w) ->
  defer (DrainBody body) m st = (Returns a, after_Close st1 w).
Proof. intros Hm Hclose. unfold defer, DrainBody. by rewrite Hm, Hclose. Qed.

Lemma defer_fatal {A} (m : M A) d st f e st1 :
  m st = (Fatal f e, st1) ->
  defer d m st = (Fatal f e, st1).
Proof. intros Hm. unfold defer. by rewrite Hm. Qed.

Lemma defer_not_returns {A} (m : M A) d st :
  (forall a st1, m st <> (Returns a, st1)) ->
  forall a st1, defer d m st <> (Returns a, st1).
Proof.
  intros Hm a st1. unfold defer.
  destruct (m st) as [[a'|f e|msg] st'] eqn:E; [by destruct (Hm a' st') | done |].
  by destruct (d st') as [[[]|f e|msg'] st''].
Qed.

Lemma ListItemsGet_not_found_returns st listId req res w' w'' :
  answers (st_client st) (st_world st) (Sprintf_s imdbPathListExport listId) req res w' ->
  StatusCode res = http_StatusNotFound ->
  body_Close (Body res) w' = (None, w'') ->
  ListItemsGet listId st =
    (Returns (None, [], Some (ResourceNotFoundError resourceTypeList (Some listId))),
     after_Close (after_Do st req w') w'').
Proof.
  intros Hans Hstatus Hclose. unfold ListItemsGet, bind at 1.
  rewrite (doRequest_answered _ _ _ _ _ Hans), Hstatus. cbn.
  apply defer_DrainBody_returns; [|done].
  by rewrite Hstatus.
Qed.

(** C2: a list whose export answers 404 makes [ListItemsGet] return the
    ResourceNotFoundError of that list id; met while the lists of the
    user are enumerated, the error is dropped: the enumeration goes on
    with the elements that follow and the pairs collected so far, none
    added for that id. *)
Theorem ListItemsGet_not_found_skipped (st : state) (listId : string) (req : request)
    (res : response BodyT) (w' w'' : World) :
  answers (st_client st) (st_world st) (Sprintf_s imdbPathListExport listId) req res w' ->
  StatusCode res = http_StatusNotFound ->
  body_Close (Body res) w' = (None, w'') ->
  ListItemsGet listId st =
    (Returns (None, [], Some (ResourceNotFoundError resourceTypeList (Some listId))),
     after_Close (after_Do st req w') w'')
  /\ (forall selection rest dps,
        goquery_Attr selection "id" = Some listId ->
        ListsScrape_each (selection :: rest) dps st =
          ListsScrape_each rest dps (after_Close (after_Do st req w') w'')).
Proof.
  intros Hans Hstatus Hclose.
  pose proof (ListItemsGet_not_found_returns _ _ _ _ _ _ Hans Hstatus Hclose) as Hget.
  split; [done|].
  intros selection rest dps Hid. cbn [ListsScrape_each]. rewrite Hid.
  unfold bind at 1. by rewrite Hget.
Qed.

Lemma ListItemsGet_forbidden st listId req res w' :
  answers (st_client st) (st_world st) (Sprintf_s imdbPathListExport listId) req res w' ->
  StatusCode res = http_StatusForbidden ->
  ListItemsGet listId st =
    (Returns (None, [],
              Some (Wrapf ("failure trying to retrieve imdb list " ++ listId)
                      (ImdbError (req_Method req) (req_URL req) http_StatusForbidden
                         "imdb authorization failure - update the imdb cookie values"))),
     after_Do st req w').
Proof.
  intros Hans Hstatus. unfold ListItemsGet, bind at 1.
  by rewrite (doRequest_answered _ _ _ _ _ Hans), Hstatus.
Qed.

(** C1, where the code departs from it: while the lists of the user are
    enumerated, an export that answers 403 makes [ListItemsGet] return
    the authorization failure, and the enumeration, which looks at no
    error but "not found", dereferences the nil list name and panics. *)
Theorem ListsScrape_each_forbidden_panics (st : state) (selection : Node)
    (rest : list Node) (dps : list DataPair) (listId : string) (req : request)
    (res : response BodyT) (w' : World) :
  goquery_Attr selection "id" = Some listId ->
  answers (st_client st) (st_world st) (Sprintf_s imdbPathListExport listId) req res w' ->
  StatusCode res = http_StatusForbidden ->
  (exists err, ListItemsGet listId st = (Returns (None, [], Some err), after_Do st req w')
               /\ is_authorization_failure err)
  /\ ListsScrape_each (selection :: rest) dps st = (Panics nil_dereference, after_Do st req w').
Proof.
  intros Hid Hans Hstatus.
  pose proof (ListItemsGet_forbidden _ _ _ _ _ Hans Hstatus) as Hget.
  split.
  - eexists. split; [exact Hget|]. by eexists _, _.
  - cbn [ListsScrape_each]. rewrite Hid. unfold bind at 1. by rewrite Hget.
Qed.

(** C6, where the code departs from it: when the transport fails to send
    the request and gives no response, [doRequest] reads the URL of the
    request off the nil response to build its error, and panics. *)
Theorem doRequest_send_failure_panics (st : state) (params : requestParams BodyObj)
    (req : request) (cause : error) (w' : World) :
  Body_ params = None ->
  http_NewRequest (Method params) (endpoint (st_client st) ++ Path params) = Ok req ->
  client_Do (client (st_client st)) req (st_world st) = ((None, Some cause), w') ->
  doRequest params st = (Panics nil_dereference, after_Do st req w').
Proof.
  intros Hbody Hreq HDo. unfold doRequest, bind, get_client, Do, ret, panic. cbn.
  rewrite Hreq, Hbody. cbn. by rewrite HDo.
Qed.

Lemma chain_self err : err ∈ chain err.
Proof. destruct err; cbn; apply list_elem_of_here. Qed.

Lemma chain_Wrapf msg cause : cause ∈ chain (Wrapf msg cause).
Proof. cbn [chain]. apply list_elem_of_further, chain_self. Qed.

Lemma doRequest_construction_failure st params cause :
  http_NewRequest (Method params) (endpoint (st_client st) ++ Path params) = Err cause ->
  exists err, doRequest params st = (Returns (None, Some err), st) /\ cause ∈ chain err.
Proof.
  intros Hreq. unfold doRequest, bind, get_client, ret. cbn. rewrite Hreq.
  eexists. split; [reflexivity|]. apply chain_Wrapf.
Qed.

Lemma doRequest_redirect_failure st params req res cause w' :
  Body_ params = None ->
  http_NewRequest (Method params) (endpoint (st_client st) ++ Path params) = Ok req ->
  client_Do (client (st_client st)) req (st_world st) = ((Some res, Some cause), w') ->
  exists err, doRequest params st = (Returns (None, Some err), after_Do st req w')
              /\ cause ∈ chain err.
Proof.
  intros Hbody Hreq HDo. unfold doRequest, bind, get_client, Do, ret. cbn.
  rewrite Hreq, Hbody. cbn. rewrite HDo.
  eexists. split; [reflexivity|]. apply chain_Wrapf.
Qed.

Lemma readListName_unusable res :
  Content_Disposition_unusable res ->
  exists f e, readListName res = Fatal f e.
Proof.
  unfold Content_Disposition_unusable, readListName.
  destruct (String.eqb _ EmptyString) eqn:Hempty; [eauto|].
  intros [Habsent | Hparse].
  - rewrite Habsent in Hempty. done.
  - destruct (mime_ParseMediaType _) as [[mediatype params] err]. cbn in Hparse.
    destruct Hparse as [Herr | Hsize].
    + destruct err; [cbn; eauto | done].
    + rewrite Hsize. rewrite orb_true_r. eauto.
Qed.

Lemma readResponse_list_unusable res :
  Content_Disposition_unusable res ->
  forall r, readResponse res resourceTypeList <> Returns r.
Proof.
  intros Hcd r. unfold readResponse.
  destruct (csv_ReadAll (Body res)) as [csvData|]; [|done].
  destruct (readListRows 0 csvData []); [|done..].
  by destruct (readListName_unusable res Hcd) as (f & e & ->).
Qed.

(** C10: [WatchlistGet] names the collection by the watchlist id of the
    configuration, whatever name the export carries; it reads the export
    in list mode all the same, so that it does not return when the
    Content-Disposition header is absent or does not parse, and exits in
    [log.Fatalf] once the rows have been read. *)
Theorem WatchlistGet_name_and_header (st : state) (req : request) (res : response BodyT)
    (w' : World) :
  answers (st_client st) (st_world st)
    (Sprintf_s imdbPathListExport (WatchlistId (config (st_client st)))) req res w' ->
  StatusCode res = http_StatusOK ->
  (forall name items w'',
     readResponse res resourceTypeList = Returns (name, items) ->
     body_Close (Body res) w' = (None, w'') ->
     WatchlistGet st =
       (Returns (Some (WatchlistId (config (st_client st))), items, None),
        after_Close (after_Do st req w') w''))
  /\ (Content_Disposition_unusable res ->
      (forall r st', WatchlistGet st <> (Returns r, st'))
      /\ (forall csvData items,
            csv_ReadAll (Body res) = Ok csvData ->
            Forall2 list_row (tail csvData) items ->
            exists f e, WatchlistGet st = (Fatal f e, after_Do st req w'))).
Proof.
  intros Hans Hstatus.
  assert (forall A (k : _ -> M A),
            bind (doRequest {| Method := http_MethodGet;
                               Path := Sprintf_s imdbPathListExport
                                         (WatchlistId (config (st_client st)));
                               Body_ := None |}) k st
            = k (Some res, None) (after_Do st req w')) as Hfetch.
  { intros A k. unfold bind. by rewrite (doRequest_answered _ _ _ _ _ Hans), Hstatus. }
  assert (exists m : M (option string * list ImdbItem * option error),
            WatchlistGet st = defer (DrainBody (Body res)) m (after_Do st req w')
            /\ forall st2, m st2 =
                 match readResponse res resourceTypeList with
                 | Returns (_, list) =>
                   (Returns (Some (WatchlistId (config (st_client st))), list, None), st2)
                 | Fatal f e => (Fatal f e, st2)
                 | Panics msg => (Panics msg, st2)
                 end) as (m & -> & Hm).
  { eexists. split.
    - unfold WatchlistGet. unfold bind at 1, get_client.
      rewrite Hfetch. cbn beta iota. rewrite Hstatus.
      cbn [Z.eqb http_StatusOK http_StatusNotFound Pos.eqb]. reflexivity.
    - intros st2. unfold bind, lift.
      by destruct (readResponse res resourceTypeList) as [[n l]| |]. }
  split; [|intros Hcd; split].
  - intros name items w'' Hread Hclose.
    apply defer_DrainBody_returns; [|done].
    by rewrite Hm, Hread.
  - apply defer_not_returns. intros a st1. rewrite Hm.
    destruct (readResponse res resourceTypeList) as [[n l]| |] eqn:Hread; [|done..].
    by destruct (readResponse_list_unusable res Hcd (n, l)).
  - intros csvData items Hcsv Hrows.
    destruct (readListName_unusable res Hcd) as (f & e & Hname).
    exists f, e. apply defer_fatal. rewrite Hm. unfold readResponse.
    rewrite Hcsv, readListRows_header.
    assert (readListRows 1 (tail csvData) [] = Returns items) as ->
      by (apply readListRows_data; [lia|]; by exists items).
    by rewrite Hname.
Qed.

(** A 403 is returned by every operation for the request it makes
    itself, as the authorization failure of [doRequest] wrapped once,
    after that one request and no other. *)
Theorem forbidden_is_returned_once (st : state) (req : request) (res : response BodyT)
    (w' : World) :
  StatusCode res = http_StatusForbidden ->
  (forall listId,
     answers (st_client st) (st_world st) (Sprintf_s imdbPathListExport listId) req res w' ->
     exists err, ListItemsGet listId st = (Returns (None, [], Some err), after_Do st req w')
                 /\ is_authorization_failure err)
  /\ (answers (st_client st) (st_world st)
        (Sprintf_s imdbPathListExport (WatchlistId (config (st_client st)))) req res w' ->
      exists err, WatchlistGet st = (Returns (None, [], Some err), after_Do st req w')
                  /\ is_authorization_failure err)
  /\ (answers (st_client st) (st_world st)
        (Sprintf_s imdbPathRatingsExport (UserId (config (st_client st)))) req res w' ->
      exists err, RatingsGet st = (Returns ([], Some err), after_Do st req w')
                  /\ is_authorization_failure err)
  /\ (answers (st_client st) (st_world st)
        (Sprintf_s imdbPathLists (UserId (config (st_client st)))) req res w' ->
      exists err, ListsScrape st = (Returns ([], Some err), after_Do st req w')
                  /\ is_authorization_failure err)
  /\ (answers (st_client st) (st_world st) imdbPathProfile req res w' ->
      exists err, UserIdScrape st = (Returns (Some err), after_Do st req w')
                  /\ is_authorization_failure err)
  /\ (answers (st_client st) (st_world st) imdbPathWatchlist req res w' ->
      exists err, WatchlistIdScrape st = (Returns (Some err), after_Do st req w')
                  /\ is_authorization_failure err).
Proof.
  intros Hstatus.
  repeat split; [intros listId Hans | intros Hans ..].
  - eexists. split; [exact (ListItemsGet_forbidden _ _ _ _ _ Hans Hstatus) | by eexists _, _].
  - unfold WatchlistGet. unfold bind at 1, get_client. unfold bind at 1.
    rewrite (doRequest_answered _ _ _ _ _ Hans), Hstatus. cbn.
    eexists. split; [reflexivity | by eexists _, _].
  - unfold RatingsGet. unfold bind at 1, get_client. unfold bind at 1.
    rewrite (doRequest_answered _ _ _ _ _ Hans), Hstatus. cbn.
    eexists. split; [reflexivity | by eexists _, _].
  - unfold ListsScrape. unfold bind at 1, get_client. unfold bind at 1.
    rewrite (doRequest_answered _ _ _ _ _ Hans), Hstatus. cbn.
    eexists. split; [reflexivity | by eexists _, _].
  - unfold UserIdScrape. unfold bind at 1.
    rewrite (doRequest_answered _ _ _ _ _ Hans), Hstatus. cbn.
    eexists. split; [reflexivity | by eexists _, _].
  - unfold WatchlistIdScrape. unfold bind at 1.
    rewrite (doRequest_answered _ _ _ _ _ Hans), Hstatus. cbn.
    eexists. split; [reflexivity | by eexists _, _].
Qed.

(** [doRequest] returns an error wrapping the cause, and no response,
    when the request cannot be built (nothing is sent), when its body
    cannot be marshalled (nothing is sent), and when the transport gives
    an error together with a response. *)
Theorem doRequest_wraps_cause (st : state) (params : requestParams BodyObj) (cause : error) :
  (http_NewRequest (Method params) (endpoint (st_client st) ++ Path params) = Err cause ->
   exists err, doRequest params st = (Returns (None, Some err), st) /\ cause ∈ chain err)
  /\ (forall req b,
        http_NewRequest (Method params) (endpoint (st_client st) ++ Path params) = Ok req ->
        Body_ params = Some b ->
        json_Marshal b = Err cause ->
        exists err, doRequest params st = (Returns (None, Some err), st) /\ cause ∈ chain err)
  /\ (forall req res w',
        http_NewRequest (Method params) (endpoint (st_client st) ++ Path params) = Ok req ->
        Body_ params = None ->
        client_Do (client (st_client st)) req (st_world st) = ((Some res, Some cause), w') ->
        exists err, doRequest params st = (Returns (None, Some err), after_Do st req w')
                    /\ cause ∈ chain err).
Proof.
  split; [|split].
  - apply doRequest_construction_failure.
  - intros req b Hreq Hbody Hjson. unfold doRequest, bind, get_client, ret. cbn.
    rewrite Hreq, Hbody, Hjson.
    eexists. split; [reflexivity|]. apply chain_Wrapf.
  - intros req res w' Hreq Hbody HDo.
    exact (doRequest_redirect_failure st params req res cause w' Hbody Hreq HDo).
Qed.

(** *** What the operations return *)

Lemma defer_returns_inv {A} (d : M unit) (m : M A) st a st' :
  defer d m st = (Returns a, st') ->
  exists st1, m st = (Returns a, st1).
Proof.
  unfold defer. destruct (m st) as [[a'|f e|msg] st1].
  - destruct (d st1) as [[[]|f e|msg] st2]; [|done..]. intros [= <- <-]. eauto.
  - done.
  - by destruct (d st1) as [[[]|f e|msg'] st2].
Qed.

Lemma ListItemsGet_items listId st name items err st' :
  ListItemsGet listId st = (Returns (name, items, err), st') ->
  Forall unrated items.
Proof.
  unfold ListItemsGet. cbv zeta. unfold bind at 1.
  destruct (doRequest _ st) as [[[res e]|f e|msg] st1]; [|done..].
  destruct e as [e|]; [by intros [= <- <- <- <-]|].
  destruct res as [res|]; [|done].
  intros (st2 & Hrun)%defer_returns_inv. revert Hrun.
  destruct (StatusCode res =? http_StatusNotFound); [by intros [= <- <- <- <-]|].
  unfold bind, lift.
  destruct (readResponse res resourceTypeList) as [[n l]|f e|msg] eqn:Hread; [|done..].
  intros [= <- <- <- <-]. by apply (readResponse_items res resourceTypeList n l Hread).
Qed.

Lemma WatchlistGet_items st name items err st' :
  WatchlistGet st = (Returns (name, items, err), st') ->
  Forall unrated items.
Proof.
  unfold WatchlistGet. unfold bind at 1, get_client. cbv zeta. unfold bind at 1.
  destruct (doRequest _ st) as [[[res e]|f e|msg] st1]; [|done..].
  destruct e as [e|]; [by intros [= <- <- <- <-]|].
  destruct res as [res|]; [|done].
  intros (st2 & Hrun)%defer_returns_inv. revert Hrun.
  destruct (StatusCode res =? http_StatusNotFound); [by intros [= <- <- <- <-]|].
  unfold bind, lift.
  destruct (readResponse res resourceTypeList) as [[n l]|f e|msg] eqn:Hread; [|done..].
  intros [= <- <- <- <-]. by apply (readResponse_items res resourceTypeList n l Hread).
Qed.

Lemma RatingsGet_items st items err st' :
  RatingsGet st = (Returns (items, err), st') ->
  Forall rated items.
Proof.
  unfold RatingsGet. unfold bind at 1, get_client. unfold bind at 1.
  destruct (doRequest _ st) as [[[res e]|f e|msg] st1]; [|done..].
  destruct e as [e|]; [by intros [= <- <- <-]|].
  destruct res as [res|]; [|done].
  intros (st2 & Hrun)%defer_returns_inv. revert Hrun.
  destruct (StatusCode res =? http_StatusNotFound); [by intros [= <- <- <-]|].
  unfold bind, lift.
  destruct (readResponse res resourceTypeRating) as [[n l]|f e|msg] eqn:Hread; [|done..].
  intros [= <- <- <-]. by apply (readResponse_items res resourceTypeRating n l Hread).
Qed.

Lemma ListsScrape_each_items selections dps st dps' st' :
  Forall (fun pair => Forall unrated (ImdbList pair)) dps ->
  ListsScrape_each selections dps st = (Returns dps', st') ->
  Forall (fun pair => Forall unrated (ImdbList pair)) dps'.
Proof.
  revert dps st. induction selections as [|selection rest IH]; intros dps st Hdps.
  - by intros [= <- <-].
  - cbn [ListsScrape_each]. destruct (goquery_Attr selection "id") as [imdbListId|]; [|eauto].
    unfold bind at 1.
    destruct (ListItemsGet imdbListId st) as [[[[name items] err]|f e|msg] st1] eqn:Hget;
      [|done..].
    destruct (is_ResourceNotFound err); [eauto|].
    destruct name as [name|]; [|done].
    apply IH. apply Forall_app. split; [done|].
    constructor; [|done]. cbn. by eapply ListItemsGet_items.
Qed.

Lemma ListsScrape_items st dps err st' :
  ListsScrape st = (Returns (dps, err), st') ->
  Forall (fun pair => Forall unrated (ImdbList pair)) dps.
Proof.
  unfold ListsScrape. unfold bind at 1, get_client. unfold bind at 1.
  destruct (doRequest _ st) as [[[res e]|f e|msg] st1]; [|done..].
  destruct e as [e|]; [by intros [= <- <- <-]|].
  destruct res as [res|]; [|done].
  intros (st2 & Hrun)%defer_returns_inv. revert Hrun.
  destruct (goquery_NewDocumentFromReader (Body res)) as [doc|e]; [|by intros [= <- <- <-]].
  unfold bind at 1.
  destruct (ListsScrape_each _ [] st1) as [[dps'|f e|msg] st3] eqn:Heach; [|done..].
  intros [= <- <- <-]. by eapply ListsScrape_each_items.
Qed.

(** C5: an item has a rating and a rating date, or neither. The parser
    returns items with neither in list mode and with both in rating
    mode; so the items of [ListItemsGet], of [WatchlistGet] and of the
    pairs of [ListsScrape] have neither, those of [RatingsGet] both. *)
Theorem rating_and_date_together :
  (forall (res : response BodyT) (resType : resourceType) (name : option string)
          (items : list ImdbItem),
     readResponse res resType = Returns (name, items) ->
     Forall (fun item => is_Some (Rating item) <-> is_Some (RatingDate item)) items
     /\ (resType = resourceTypeList -> Forall unrated items)
     /\ (resType = resourceTypeRating -> Forall rated items))
  /\ (forall listId st name items err st',
        ListItemsGet listId st = (Returns (name, items, err), st') -> Forall unrated items)
  /\ (forall st name items err st',
        WatchlistGet st = (Returns (name, items, err), st') -> Forall unrated items)
  /\ (forall st items err st',
        RatingsGet st = (Returns (items, err), st') -> Forall rated items)
  /\ (forall st dps err st',
        ListsScrape st = (Returns (dps, err), st') ->
        Forall (fun pair => Forall unrated (ImdbList pair)) dps).
Proof.
  split; [exact readResponse_items|].
  split; [exact ListItemsGet_items|].
  split; [exact WatchlistGet_items|].
  split; [exact RatingsGet_items | exact ListsScrape_items].
Qed.

(** *** Hydration *)

Ltac run_scrape Hreq :=
  unfold UserIdScrape, WatchlistIdScrape, doRequest, bind, get_client, set_config, Do,
    ret, panic, defer, DrainBody;
  cbn; rewrite Hreq; cbn.

Lemma UserIdScrape_frame st reqP :
  http_NewRequest http_MethodGet (endpoint (st_client st) ++ imdbPathProfile) = Ok reqP ->
  st_sent (UserIdScrape st).2 = (st_sent st ++ [reqP])%list
  /\ endpoint (st_client (UserIdScrape st).2) = endpoint (st_client st)
  /\ client (st_client (UserIdScrape st).2) = client (st_client st).
Proof.
  intros Hreq. run_scrape Hreq.
  destruct (client_Do _ reqP _) as [[[res|] [err|]] w]; cbn; try done.
  repeat case_match; simplify_eq; cbn; try done;
    repeat match goal with
    | E : (let '(_, _) := ?x in _) = _ |- _ => destruct x as [[?|] ?]; simplify_eq
    end; done.
Qed.

Lemma WatchlistIdScrape_frame st reqW :
  http_NewRequest http_MethodGet (endpoint (st_client st) ++ imdbPathWatchlist) = Ok reqW ->
  st_sent (WatchlistIdScrape st).2 = (st_sent st ++ [reqW])%list
  /\ UserId (config (st_client (WatchlistIdScrape st).2)) = UserId (config (st_client st)).
Proof.
  intros Hreq. run_scrape Hreq.
  destruct (client_Do _ reqW _) as [[[res|] [err|]] w]; cbn; try done.
  repeat case_match; simplify_eq; cbn; try done;
    repeat match goal with
    | E : (let '(_, _) := ?x in _) = _ |- _ => destruct x as [[?|] ?]; simplify_eq
    end; done.
Qed.

Lemma UserIdScrape_exposed st reqP resP w1 w2 userId :
  answers (st_client st) (st_world st) imdbPathProfile reqP resP w1 ->
  StatusCode resP = http_StatusOK ->
  exposes resP ".user-profile.userId" "data-userid" userId ->
  body_Close (Body resP) w1 = (None, w2) ->
  exists st1,
    UserIdScrape st = (Returns None, st1)
    /\ endpoint (st_client st1) = endpoint (st_client st)
    /\ client (st_client st1) = client (st_client st)
    /\ UserId (config (st_client st1)) = userId
    /\ st_world st1 = w2
    /\ st_sent st1 = (st_sent st ++ [reqP])%list.
Proof.
  intros Hans Hstatus (doc & Hdoc & Hattr) Hclose.
  unfold UserIdScrape. unfold bind at 1.
  rewrite (doRequest_answered _ _ _ _ _ Hans), Hstatus. cbn beta iota.
  cbn [Z.eqb http_StatusOK Pos.eqb]. rewrite Hdoc, Hattr.
  eexists. split.
  - apply defer_DrainBody_returns; [reflexivity | exact Hclose].
  - done.
Qed.

Lemma WatchlistIdScrape_exposed st reqW resW w1 w2 watchlistId :
  answers (st_client st) (st_world st) imdbPathWatchlist reqW resW w1 ->
  StatusCode resW = http_StatusOK ->
  exposes resW "meta[property='pageId']" "content" watchlistId ->
  body_Close (Body resW) w1 = (None, w2) ->
  exists st1,
    WatchlistIdScrape st = (Returns None, st1)
    /\ UserId (config (st_client st1)) = UserId (config (st_client st))
    /\ WatchlistId (config (st_client st1)) = watchlistId
    /\ st_sent st1 = (st_sent st ++ [reqW])%list.
Proof.
  intros Hans Hstatus (doc & Hdoc & Hattr) Hclose.
  unfold WatchlistIdScrape. unfold bind at 1.
  rewrite (doRequest_answered _ _ _ _ _ Hans), Hstatus. cbn beta iota.
  cbn [Z.eqb http_StatusOK Pos.eqb]. rewrite Hdoc, Hattr.
  eexists. split.
  - apply defer_DrainBody_returns; [reflexivity | exact Hclose].
  - done.
Qed.

Lemma Hydrate_concrete_id st :
  UserId (config (st_client st)) <> "" ->
  UserId (config (st_client st)) <> "scrape" ->
  (Hydrate st).2 = (WatchlistIdScrape st).2.
Proof.
  intros Hempty Hscrape. unfold Hydrate. unfold bind at 1, get_client.
  apply String.eqb_neq in Hempty, Hscrape. rewrite Hempty, Hscrape. cbn [orb].
  unfold bind, ret.
  by destruct (WatchlistIdScrape st) as [[[e|]| |] st'].
Qed.

Lemma Hydrate_sentinel st :
  UserId (config (st_client st)) = "" \/ UserId (config (st_client st)) = "scrape" ->
  Hydrate st =
    match UserIdScrape st with
    | (Returns None, st1) =>
      match WatchlistIdScrape st1 with
      | (Returns (Some err), st2) =>
        (Returns (Some (Wrapf "failure scraping imdb watchlist id" err)), st2)
      | r => r
      end
    | (Returns (Some err), st1) =>
      (Returns (Some (Wrapf "failure scraping imdb user id" err)), st1)
    | r => r
    end.
Proof.
  intros Hid. unfold Hydrate. unfold bind at 1, get_client.
  assert (String.eqb (UserId (config (st_client st))) ""
          || String.eqb (UserId (config (st_client st))) "scrape" = true) as ->.
  { destruct Hid as [-> | ->]; reflexivity. }
  unfold bind, ret.
  destruct (UserIdScrape st) as [[[e|]| |] st1]; try done.
  by destruct (WatchlistIdScrape st1) as [[[e|]| |] st2].
Qed.

(** C3, as the code has it: the sentinel is "scrape". At construction
    the client asks for the profile page exactly when the configured user
    id is empty or "scrape"; with any other id the only request is the one
    for the watchlist page and the id is kept; the watchlist page is asked
    for whatever the id, once the user id step (if any) has succeeded; and
    with the sentinel, against a profile page exposing [userId] and a
    watchlist page exposing [watchlistId], the client built has that
    identity. *)
Theorem Hydrate_scrapes_by_sentinel :
  (forall (st : state) (reqW : request),
     http_NewRequest http_MethodGet (endpoint (st_client st) ++ imdbPathWatchlist) = Ok reqW ->
     UserId (config (st_client st)) <> "" ->
     UserId (config (st_client st)) <> "scrape" ->
     st_sent (Hydrate st).2 = (st_sent st ++ [reqW])%list
     /\ UserId (config (st_client (Hydrate st).2)) = UserId (config (st_client st)))
  /\ (forall (st : state) (reqP reqW : request),
        http_NewRequest http_MethodGet (endpoint (st_client st) ++ imdbPathProfile) = Ok reqP ->
        http_NewRequest http_MethodGet (endpoint (st_client st) ++ imdbPathWatchlist) = Ok reqW ->
        UserId (config (st_client st)) = "" \/ UserId (config (st_client st)) = "scrape" ->
        ((UserIdScrape st).1 = Returns None /\
         st_sent (Hydrate st).2 = (st_sent st ++ [reqP; reqW])%list)
        \/ ((UserIdScrape st).1 <> Returns None /\
            st_sent (Hydrate st).2 = (st_sent st ++ [reqP])%list))
  /\ (forall (cfg : ImdbConfig) (w w1 w2 w3 w4 : World) (jar : option CookieJar)
             (reqP reqW : request) (resP resW : response BodyT)
             (userId watchlistId : string),
        setupCookieJar cfg = (jar, None) ->
        UserId cfg = "" \/ UserId cfg = "scrape" ->
        answers (new_client jar cfg) w imdbPathProfile reqP resP w1 ->
        StatusCode resP = http_StatusOK ->
        exposes resP ".user-profile.userId" "data-userid" userId ->
        body_Close (Body resP) w1 = (None, w2) ->
        answers (new_client jar cfg) w2 imdbPathWatchlist reqW resW w3 ->
        StatusCode resW = http_StatusOK ->
        exposes resW "meta[property='pageId']" "content" watchlistId ->
        body_Close (Body resW) w3 = (None, w4) ->
        exists c st,
          NewImdbClient cfg w = (Returns (Some c, None), Some st)
          /\ UserId (config c) = userId
          /\ WatchlistId (config c) = watchlistId
          /\ st_sent st = [reqP; reqW]).
Proof.
  split; [|split].
  - intros st reqW HreqW Hempty Hscrape.
    rewrite (Hydrate_concrete_id st Hempty Hscrape).
    apply (WatchlistIdScrape_frame st reqW HreqW).
  - intros st reqP reqW HreqP HreqW Hid.
    rewrite (Hydrate_sentinel st Hid).
    destruct (UserIdScrape_frame st reqP HreqP) as (Hsent & Hendpoint & _).
    destruct (UserIdScrape st) as [[[e|]| |] st1] eqn:Hscrape; cbn in *;
      try (right; split; [done|]; done).
    left. split; [done|].
    rewrite <- Hendpoint in HreqW.
    destruct (WatchlistIdScrape_frame st1 reqW HreqW) as (Hsent' & _).
    assert (st_sent (WatchlistIdScrape st1).2 = (st_sent st ++ [reqP; reqW])%list) as Hall
      by (rewrite Hsent', Hsent, <- app_assoc; done).
    by destruct (WatchlistIdScrape st1) as [[[e|]| |] st2].
  - intros cfg w w1 w2 w3 w4 jar reqP reqW resP resW userId watchlistId
      Hjar Hid HansP HstatusP HexpP HcloseP HansW HstatusW HexpW HcloseW.
    unfold NewImdbClient. rewrite Hjar.
    set (st0 := {| st_client := new_client jar cfg; st_world := w; st_sent := [] |}).
    rewrite (Hydrate_sentinel st0 Hid).
    destruct (UserIdScrape_exposed st0 reqP resP w1 w2 userId HansP HstatusP HexpP HcloseP)
      as (st1 & -> & Hendpoint & Hclient & Huser & Hworld & Hsent).
    assert (answers (st_client st1) (st_world st1) imdbPathWatchlist reqW resW w3) as HansW'.
    { destruct HansW as [Hreq HDo]. split.
      - by rewrite Hendpoint.
      - by rewrite Hclient, Hworld. }
    destruct (WatchlistIdScrape_exposed st1 reqW resW w3 w4 watchlistId
                HansW' HstatusW HexpW HcloseW)
      as (st2 & -> & Huser' & Hwatch & Hsent').
    exists (st_client st2), st2. repeat split; [congruence | done |].
    by rewrite Hsent', Hsent.
Qed.

End ClientFacts.

(** ** The client on the scripted site *)

(** The ratings export of the site is read as the one rated title; the
    export with "nine" for a rating is fatal. *)
Lemma readResponse_rating_mode_on_site :
  @readResponse Mock.platform Mock.ratings_export resourceTypeRating
    = Returns (None, [Mock.shawshank_rated])
  /\ exists f e,
       @readResponse Mock.platform Mock.odd_ratings_export resourceTypeRating = Fatal f e.
Proof.
  split.
  - apply (proj2 (proj2 (@readResponse_rating_mode Mock.platform Mock.ratings_export
                           _ eq_refl)) Mock.rating_header).
    reflexivity.
  - apply (proj1 (proj2 (@readResponse_rating_mode Mock.platform Mock.odd_ratings_export
                           _ eq_refl))
             [["tt0111161"; "9"; "2020-05-01"; ""; ""; "movie"]] [Mock.shawshank_rated]
             ["tt0944947"; "nine"; "2020-05-02"; ""; ""; "tvSeries"] [] eq_refl).
    + constructor; [|constructor]. repeat split; cbn; eauto.
    + left. eexists. split; [reflexivity|]. cbn. discriminate.
Defined.

(** The items of the list export carry no rating and no date, those of
    the ratings export carry both, as read and as [RatingsGet] returns
    them. *)
Lemma rating_and_date_together_on_site :
  Forall unrated [Mock.shawshank_item; Mock.thrones_item]
  /\ Forall rated [Mock.shawshank_rated]
  /\ (@RatingsGet Mock.platform (Mock.start "ur12345" "ls99999")
        = (Returns ([Mock.shawshank_rated], None),
           after_Close
             (after_Do (Mock.start "ur12345" "ls99999")
                (Mock.get "https://www.imdb.com/user/ur12345/ratings/export") Mock.imdb)
             Mock.imdb)
      /\ Forall rated [Mock.shawshank_rated]).
Proof.
  split; [|split; [|split; [reflexivity|]]].
  - apply (proj1 (proj2 (proj1 (@rating_and_date_together Mock.platform)
                           Mock.list1_export resourceTypeList (Some "Sci-Fi Favourites!")
                           [Mock.shawshank_item; Mock.thrones_item] eq_refl))).
    reflexivity.
  - apply (proj2 (proj2 (proj1 (@rating_and_date_together Mock.platform)
                           Mock.ratings_export resourceTypeRating None
                           [Mock.shawshank_rated] eq_refl))).
    reflexivity.
  - exact (proj1 (proj2 (proj2 (proj2 (@rating_and_date_together Mock.platform))))
             (Mock.start "ur12345" "ls99999") [Mock.shawshank_rated] None _ eq_refl).
Defined.

(** The list export of the site is read as its two titles, the header
    row left out. *)
Lemma readResponse_list_mode_on_site :
  @readResponse Mock.platform Mock.list1_export resourceTypeList
    = Returns (Some "Sci-Fi Favourites!", [Mock.shawshank_item; Mock.thrones_item]).
Proof.
  apply (proj1 (@readResponse_list_mode Mock.platform Mock.list1_export
                  [Mock.list_header; Mock.shawshank; Mock.thrones] eq_refl)).
  - constructor; [|constructor; [|constructor]]; by repeat split.
  - reflexivity.
Defined.

(** The list ls2 is gone: asked for directly it is reported not found;
    met in the enumeration of the lists of ur12345 it is passed over. *)
Lemma ListItemsGet_not_found_on_site :
  @ListItemsGet Mock.platform "ls2" (Mock.start "ur12345" "ls99999")
    = (Returns (None, [], Some (ResourceNotFoundError resourceTypeList (Some "ls2"))),
       after_Close
         (after_Do (Mock.start "ur12345" "ls99999")
            (Mock.get "https://www.imdb.com/list/ls2/export") Mock.imdb)
         Mock.imdb)
  /\ @ListsScrape_each Mock.platform [Mock.user_list "ls2"; Mock.user_list "ls1"] []
       (Mock.start "ur12345" "ls99999")
     = @ListsScrape_each Mock.platform [Mock.user_list "ls1"] []
         (after_Close
            (after_Do (Mock.start "ur12345" "ls99999")
               (Mock.get "https://www.imdb.com/list/ls2/export") Mock.imdb)
            Mock.imdb).
Proof.
  pose proof (@ListItemsGet_not_found_skipped Mock.platform
                (Mock.start "ur12345" "ls99999") "ls2"
                (Mock.get "https://www.imdb.com/list/ls2/export")
                (Mock.not_found "https://www.imdb.com/list/ls2/export")
                Mock.imdb Mock.imdb
                (conj eq_refl eq_refl) eq_refl eq_refl) as [Hget Heach].
  split; [exact Hget|].
  exact (Heach (Mock.user_list "ls2") [Mock.user_list "ls1"] [] eq_refl).
Defined.

(** The watchlist export is named WATCHLIST by its header and ls99999 by
    [WatchlistGet]; the export without the header stops the process. *)
Lemma WatchlistGet_name_and_header_on_site :
  (@readResponse Mock.platform Mock.watchlist_export resourceTypeList
     = Returns (Some "WATCHLIST", [Mock.shawshank_item])
   /\ (@WatchlistGet Mock.platform (Mock.start "ur12345" "ls99999")).1
      = Returns (Some "ls99999", [Mock.shawshank_item], None))
  /\ exists f e, (@WatchlistGet Mock.platform (Mock.start "ur12345" "ls5")).1 = Fatal f e.
Proof.
  split.
  - split; [reflexivity|].
    rewrite (proj1 (@WatchlistGet_name_and_header Mock.platform
                      (Mock.start "ur12345" "ls99999")
                      (Mock.get "https://www.imdb.com/list/ls99999/export")
                      Mock.watchlist_export Mock.imdb (conj eq_refl eq_refl) eq_refl)
               (Some "WATCHLIST") [Mock.shawshank_item] Mock.imdb eq_refl eq_refl).
    reflexivity.
  - destruct (proj2 (proj2 (@WatchlistGet_name_and_header Mock.platform
                              (Mock.start "ur12345" "ls5")
                              (Mock.get "https://www.imdb.com/list/ls5/export")
                              Mock.bare_export Mock.imdb (conj eq_refl eq_refl) eq_refl)
                             (or_introl eq_refl))
                      [Mock.list_header; Mock.shawshank] [Mock.shawshank_item] eq_refl
                      ltac:(constructor; [by repeat split | constructor]))
      as (f & e & Hfatal).
    exists f, e. by rewrite Hfatal.
Defined.

(** With the user id "scrape" the client built on the site has the
    identity the two pages expose; with a concrete id only the watchlist
    page is asked for. *)
Lemma Hydrate_scrapes_by_sentinel_on_site :
  (st_sent (@Hydrate Mock.platform (Mock.start "ur12345" "")).2
     = [Mock.get "https://www.imdb.com/watchlist"]
   /\ UserId (config (st_client (@Hydrate Mock.platform (Mock.start "ur12345" "")).2))
      = "ur12345")
  /\ exists c st,
       @NewImdbClient Mock.platform (Mock.tokens "scrape") Mock.imdb
         = (Returns (Some c, None), Some st)
       /\ UserId (config c) = "ur12345"
       /\ WatchlistId (config c) = "ls99999"
       /\ st_sent st = [Mock.get "https://www.imdb.com/profile";
                       Mock.get "https://www.imdb.com/watchlist"].
Proof.
  split.
  - apply (proj1 (@Hydrate_scrapes_by_sentinel Mock.platform)
             (Mock.start "ur12345" "") (Mock.get "https://www.imdb.com/watchlist")
             eq_refl); discriminate.
  - apply (proj2 (proj2 (@Hydrate_scrapes_by_sentinel Mock.platform))
             (Mock.tokens "scrape") Mock.imdb Mock.imdb Mock.imdb Mock.imdb Mock.imdb
             (Some (Mock.jar (Mock.tokens "scrape")))
             (Mock.get "https://www.imdb.com/profile")
             (Mock.get "https://www.imdb.com/watchlist")
             Mock.profile_page Mock.watchlist_page "ur12345" "ls99999"
             eq_refl (or_intror eq_refl)
             (conj eq_refl eq_refl) eq_refl
             (ex_intro _ _ (conj eq_refl eq_refl)) eq_refl
             (conj eq_refl eq_refl) eq_refl
             (ex_intro _ _ (conj eq_refl eq_refl)) eq_refl).
Defined.

(** "auto-detect" is a user id like any other: the profile page is not
    asked for and the client keeps "auto-detect" as its user id. *)
Lemma NewImdbClient_auto_detect_is_kept :
  (@NewImdbClient Mock.platform (Mock.tokens "auto-detect") Mock.imdb).1
    = Returns (Some {| endpoint := "https://www.imdb.com";
                       client := {| Jar := Some (Mock.jar (Mock.tokens "auto-detect")) |};
                       config := {| CookieAtMain := "at-token";
                                    CookieUbidMain := "ubid-token";
                                    UserId := "auto-detect";
                                    WatchlistId := "ls99999" |} |},
               None)
  /\ st_sent <$> (@NewImdbClient Mock.platform (Mock.tokens "auto-detect") Mock.imdb).2
     = Some [Mock.get "https://www.imdb.com/watchlist"].
Proof. split; reflexivity. Qed.

(** The lists of ur3 are ls1 and ls3, and the export of ls3 is forbidden:
    the enumeration panics when it reaches ls3, and so does [ListsScrape]. *)
Lemma ListsScrape_each_forbidden_panics_on_site :
  (exists err,
     @ListItemsGet Mock.platform "ls3" (Mock.start "ur3" "ls99999")
       = (Returns (None, [], Some err),
          after_Do (Mock.start "ur3" "ls99999")
            (Mock.get "https://www.imdb.com/list/ls3/export") Mock.imdb)
     /\ is_authorization_failure err)
  /\ @ListsScrape_each Mock.platform [Mock.user_list "ls3"] [] (Mock.start "ur3" "ls99999")
     = (Panics nil_dereference,
        after_Do (Mock.start "ur3" "ls99999")
          (Mock.get "https://www.imdb.com/list/ls3/export") Mock.imdb).
Proof.
  exact (@ListsScrape_each_forbidden_panics Mock.platform (Mock.start "ur3" "ls99999")
           (Mock.user_list "ls3") [] [] "ls3"
           (Mock.get "https://www.imdb.com/list/ls3/export")
           (Mock.forbidden "https://www.imdb.com/list/ls3/export") Mock.imdb
           eq_refl (conj eq_refl eq_refl) eq_refl).
Defined.

Lemma ListsScrape_forbidden_list_panics :
  (@ListsScrape Mock.platform (Mock.start "ur3" "ls99999")).1 = Panics nil_dereference.
Proof. reflexivity. Qed.

(** The lists page of ur4 cannot be reached: [doRequest] panics. *)
Lemma doRequest_send_failure_panics_on_site :
  @doRequest Mock.platform
    {| Method := "GET"; Path := "/user/ur4/lists"; Body_ := None |}
    (Mock.start "ur4" "ls99999")
  = (Panics nil_dereference,
     after_Do (Mock.start "ur4" "ls99999")
       (Mock.get "https://www.imdb.com/user/ur4/lists") Mock.imdb).
Proof.
  exact (@doRequest_send_failure_panics Mock.platform (Mock.start "ur4" "ls99999")
           {| Method := "GET"; Path := "/user/ur4/lists"; Body_ := None |}
           (Mock.get "https://www.imdb.com/user/ur4/lists")
           Mock.connection_refused Mock.imdb eq_refl eq_refl eq_refl).
Defined.

(** The lists of ur12345 are collected as the one list that is still
    there, under its slug. *)
Lemma ListsScrape_passes_over_deleted_list :
  (@ListsScrape Mock.platform (Mock.start "ur12345" "ls99999")).1
    = Returns ([ {| ImdbList := [Mock.shawshank_item; Mock.thrones_item];
                    ImdbListId := "ls1";
                    ImdbListName := "Sci-Fi Favourites!";
                    TraktListId := "sci-fi-favourites" |} ], None).
Proof. reflexivity. Qed.

(** The forbidden export of ls3, asked for directly, is returned as the
    authorization failure. *)
Lemma forbidden_is_returned_once_on_site :
  exists err,
    @ListItemsGet Mock.platform "ls3" (Mock.start "ur3" "ls99999")
      = (Returns (None, [], Some err),
         after_Do (Mock.start "ur3" "ls99999")
           (Mock.get "https://www.imdb.com/list/ls3/export") Mock.imdb)
    /\ is_authorization_failure err.
Proof.
  exact (proj1 (@forbidden_is_returned_once Mock.platform (Mock.start "ur3" "ls99999")
                  (Mock.get "https://www.imdb.com/list/ls3/export")
                  (Mock.forbidden "https://www.imdb.com/list/ls3/export") Mock.imdb
                  eq_refl)
           "ls3" (conj eq_refl eq_refl)).
Defined.

(** A request with a method the library refuses is not sent; a lists
    page that redirects for ever gives the error of the redirect policy. *)
Lemma doRequest_wraps_cause_on_site :
  (exists err,
     @doRequest Mock.platform {| Method := "FETCH"; Path := "/profile"; Body_ := None |}
       (Mock.start "ur5" "ls99999")
       = (Returns (None, Some err), Mock.start "ur5" "ls99999")
     /\ Mock.invalid_method ∈ chain err)
  /\ (exists err,
        @doRequest Mock.platform {| Method := "GET"; Path := "/user/ur5/lists"; Body_ := None |}
          (Mock.start "ur5" "ls99999")
          = (Returns (None, Some err),
             after_Do (Mock.start "ur5" "ls99999")
               (Mock.get "https://www.imdb.com/user/ur5/lists") Mock.imdb)
        /\ Mock.too_many_redirects ∈ chain err).
Proof.
  split.
  - exact (proj1 (@doRequest_wraps_cause Mock.platform (Mock.start "ur5" "ls99999")
                    {| Method := "FETCH"; Path := "/profile"; Body_ := None |}
                    Mock.invalid_method) eq_refl).
  - exact (proj2 (proj2 (@doRequest_wraps_cause Mock.platform (Mock.start "ur5" "ls99999")
                           {| Method := "GET"; Path := "/user/ur5/lists"; Body_ := None |}
                           Mock.too_many_redirects))
             (Mock.get "https://www.imdb.com/user/ur5/lists")
             (Mock.respond 302 "https://www.imdb.com/user/ur5/lists" ∅ (Mock.Html []))
             Mock.imdb eq_refl eq_refl eq_refl).
Defined.

(** * Further properties *)

(** ** The slug derivation: fixed points and blank names *)

Section SlugEdges.

Local Open Scope N_scope.

Lemma slug_rune_of_char c : slug_char c -> Strings.slug_rune (N_of_ascii c) = true.
Proof.
  unfold slug_char, Strings.slug_rune. intros [-> | [[Hlo Hhi] | [Hlo Hhi]]].
  - reflexivity.
  - apply N.leb_le in Hlo, Hhi. rewrite Hlo, Hhi. by rewrite orb_true_r.
  - apply N.leb_le in Hlo, Hhi. rewrite Hlo, Hhi. by rewrite !orb_true_r.
Qed.

Lemma string_of_bytes_of_string x :
  Utf8.string_of_ascii_runes (Utf8.bytes_of_string x) = x.
Proof.
  unfold Utf8.string_of_ascii_runes, Utf8.bytes_of_string.
  rewrite map_map. rewrite (map_ext _ id); [|intros c; apply ascii_N_embedding].
  by rewrite map_id, string_of_list_ascii_of_string.
Qed.

Lemma FormatTraktListName_slug_chars lower x :
  Forall slug_char (list_ascii_of_string (FormatTraktListName lower x)).
Proof.
  unfold FormatTraktListName. cbv zeta. unfold Utf8.string_of_ascii_runes.
  rewrite list_ascii_of_string_of_list_ascii. apply Forall_map.
  eapply Forall_impl; [apply strip_non_slug_Forall | apply slug_char_of_rune].
Qed.

(** The names the slug derivation leaves as they are are exactly the
    strings over [a-z0-9-]. *)
Theorem FormatTraktListName_fixed_points (lower : N -> N) (x : string) :
  FormatTraktListName lower x = x <-> Forall slug_char (list_ascii_of_string x).
Proof.
  split.
  - intros <-. apply FormatTraktListName_slug_chars.
  - intros Hx.
    assert (Forall (fun r => Strings.slug_rune r = true) (Utf8.bytes_of_string x)) as Hbytes.
    { unfold Utf8.bytes_of_string. apply Forall_map.
      eapply Forall_impl; [exact Hx | apply slug_rune_of_char]. }
    unfold FormatTraktListName. cbv zeta. unfold Utf8.runes_of_string.
    rewrite decode_ascii
      by (eapply Forall_impl; [exact Hbytes | apply slug_rune_ascii]).
    rewrite Join_Fields_slug, ToLower_slug, strip_non_slug_id by done.
    apply string_of_bytes_of_string.
Qed.

Lemma Fields_from_blank rs :
  Forall (fun r => Strings.IsSpace r = true) rs -> Strings.Fields_from [] rs = [].
Proof.
  induction 1 as [|r rs Hr _ IH]; [done|].
  cbn [Strings.Fields_from]. by rewrite Hr.
Qed.

(** A name made of ASCII white space only (tab, line feed, vertical tab,
    form feed, carriage return, space), the empty name included, has the
    empty slug. *)
Theorem FormatTraktListName_blank (lower : N -> N) (x : string) :
  Forall (fun c => 9 <= N_of_ascii c <= 13 \/ N_of_ascii c = 32) (list_ascii_of_string x) ->
  FormatTraktListName lower x = "".
Proof.
  intros Hx.
  assert (Forall (fun b => b < 0x80 /\ Strings.IsSpace b = true) (Utf8.bytes_of_string x))
    as Hbytes.
  { unfold Utf8.bytes_of_string. apply Forall_map.
    eapply Forall_impl; [exact Hx|]. intros c Hc. cbn beta in Hc |- *. split; [lia|].
    unfold Strings.IsSpace.
    assert ((N_of_ascii c <=? 0xFF) = true) as -> by (apply N.leb_le; lia).
    assert (N_of_ascii c = 9 \/ N_of_ascii c = 10 \/ N_of_ascii c = 11 \/ N_of_ascii c = 12
            \/ N_of_ascii c = 13 \/ N_of_ascii c = 32) as Hcases by lia.
    destruct Hcases as [-> | [-> | [-> | [-> | [-> | ->]]]]]; reflexivity. }
  unfold FormatTraktListName. cbv zeta. unfold Utf8.runes_of_string.
  rewrite decode_ascii by (eapply Forall_impl; [exact Hbytes | by intros b [? _]]).
  unfold Strings.Fields.
  rewrite Fields_from_blank by (eapply Forall_impl; [exact Hbytes | by intros b [_ ?]]).
  reflexivity.
Qed.

End SlugEdges.

(** Three spaces have the empty slug. *)
Lemma FormatTraktListName_blank_example :
  FormatTraktListName (fun r => r) "   " = "".
Proof.
  apply FormatTraktListName_blank.
  repeat constructor; right; reflexivity.
Defined.

(** ** The export parser: truncated rows, the list name, what a rated item holds *)

Section ParserEdges.

Context `{Platform}.

Lemma readListRows_cut i good items short rest acc :
  (0 < i)%nat ->
  Forall2 list_row good items ->
  (length short < 8)%nat ->
  readListRows i (good ++ short :: rest) acc = Panics index_out_of_range.
Proof.
  intros Hi Hgood Hshort. revert i acc Hi.
  induction Hgood as [|r it good items (H1 & H7 & _) _ IH]; intros i acc Hi.
  - cbn [app readListRows]. apply Nat.ltb_lt in Hi as ->.
    destruct (short !! 1%nat); [|done].
    by rewrite (lookup_ge_None_2 short 7) by lia.
  - cbn [app readListRows]. apply Nat.ltb_lt in Hi as ->.
    rewrite H1, H7. apply IH. lia.
Qed.

Lemma readRatingRows_cut i good items short rest acc :
  (0 < i)%nat ->
  Forall2 rating_row good items ->
  (length short < 2)%nat \/
    ((length short < 6)%nat /\
     exists field1 rating field2 date,
       short !! 1%nat = Some field1 /\ Strconv.Atoi field1 = (rating, None) /\
       short !! 2%nat = Some field2 /\ Time.Parse_2006_01_02 field2 = (date, None)) ->
  readRatingRows i (good ++ short :: rest) acc = Panics index_out_of_range.
Proof.
  intros Hi Hgood Hshort. revert i acc Hi.
  induction Hgood as [|r it good items Hrow _ IH]; intros i acc Hi.
  - cbn [app readRatingRows]. apply Nat.ltb_lt in Hi as ->.
    destruct Hshort as [Hlen | (Hlen & f1 & n & f2 & d & H1 & Ha & H2 & Hp)].
    + by rewrite (lookup_ge_None_2 short 1) by lia.
    + rewrite H1, Ha, H2, Hp.
      destruct (short !! 0%nat); [|done].
      by rewrite (lookup_ge_None_2 short 5) by lia.
  - cbn [app readRatingRows]. apply Nat.ltb_lt in Hi as ->.
    destruct Hrow as (H0 & H5 & (f1 & n & H1 & Ha & Hr) & (f2 & d & H2 & Hp & Hd)).
    rewrite H1, Ha, H2, Hp, H0, H5. apply IH. lia.
Qed.

(** A data row that stops before a column the parser reads makes
    [readResponse] panic with an index out of range, whatever the
    Content-Disposition header: before column 7 in list mode; in rating
    mode before column 1, or before column 5 once its rating and date
    have parsed. *)
Theorem readResponse_cut_row (res : response BodyT) (csvData : list (list string))
    (good : list (list string)) (short : list string) (rest : list (list string)) :
  csv_ReadAll (Body res) = Ok csvData ->
  tail csvData = (good ++ short :: rest)%list ->
  (forall items,
     Forall2 list_row good items ->
     (length short < 8)%nat ->
     readResponse res resourceTypeList = Panics index_out_of_range)
  /\ (forall items,
        Forall2 rating_row good items ->
        (length short < 2)%nat \/
          ((length short < 6)%nat /\
           exists field1 rating field2 date,
             short !! 1%nat = Some field1 /\ Strconv.Atoi field1 = (rating, None) /\
             short !! 2%nat = Some field2 /\ Time.Parse_2006_01_02 field2 = (date, None)) ->
        readResponse res resourceTypeRating = Panics index_out_of_range).
Proof.
  intros Hcsv Htail. unfold readResponse. rewrite Hcsv. split.
  - intros items Hgood Hshort.
    rewrite readListRows_header, Htail.
    by rewrite (readListRows_cut 1 good items short rest []) by (done || lia).
  - intros items Hgood Hshort.
    rewrite readRatingRows_header, Htail.
    by rewrite (readRatingRows_cut 1 good items short rest []) by (done || lia).
Qed.

Lemma strings_Split_head s sep :
  exists x xs,
    strings_Split s sep = x :: xs
    /\ (sep ∉ list_ascii_of_string x)
    /\ ((xs = [] /\ s = x) \/ exists after, s = x ++ String sep after).
Proof.
  induction s as [|c s (x & xs & Hsplit & Hsep & Hrest)].
  - exists EmptyString, []. repeat split; [|by left]. cbn. apply not_elem_of_nil.
  - cbn [strings_Split]. destruct (Ascii.eqb c sep) eqn:Hc.
    + apply Ascii.eqb_eq in Hc as ->.
      exists EmptyString, (strings_Split s sep). repeat split.
      * cbn. apply not_elem_of_nil.
      * right. by exists s.
    + apply Ascii.eqb_neq in Hc. rewrite Hsplit.
      exists (String c x), xs. repeat split.
      * cbn. intros [->|Hin]%elem_of_cons; done.
      * destruct Hrest as [[-> ->] | (after & ->)]; [by left|].
        right. by exists after.
Qed.

(** In list mode the name of the list is the file name of the
    Content-Disposition header up to its first dot (all of it when it
    has none), and the empty string when the header has parameters but
    no file name. *)
Theorem readListName_filename (res : response BodyT) (mediatype : string)
    (params : gmap string string) :
  Header_Get (Header res) imdbHeaderKeyContentDisposition <> "" ->
  mime_ParseMediaType (Header_Get (Header res) imdbHeaderKeyContentDisposition)
    = (mediatype, params, None) ->
  size params <> 0%nat ->
  exists name,
    readListName res = Returns (Some name)
    /\ ("."%char ∉ list_ascii_of_string name)
    /\ (params !! "filename" = None -> name = "")
    /\ (forall filename, params !! "filename" = Some filename ->
          filename = name \/ exists after, filename = name ++ String "."%char after).
Proof.
  intros Hpresent Hparse Hsize. unfold readListName.
  apply String.eqb_neq in Hpresent. rewrite Hpresent, Hparse. cbn [is_err orb].
  apply Nat.eqb_neq in Hsize. rewrite Hsize.
  destruct (strings_Split_head (default "" (params !! "filename")) "."%char)
    as (name & others & -> & Hdot & Hrest).
  exists name. cbn. repeat split; [done| |].
  - intros Hnone. rewrite Hnone in Hrest. cbn in Hrest.
    destruct Hrest as [[_ <-] | (after & Hafter)]; [done|].
    by destruct name.
  - intros filename Hfile. rewrite Hfile in Hrest. cbn in Hrest.
    destruct Hrest as [[_ ->] | (after & ->)]; [by left|].
    right. by exists after.
Qed.

Lemma digit_bound c d : Strconv.digit c = Some d -> 0 <= d <= 9.
Proof.
  unfold Strconv.digit. cbv zeta.
  destruct (_ && _) eqn:Hc; [|done]. intros [= <-].
  apply andb_true_iff in Hc as [Hlo Hhi]. apply Z.leb_le in Hlo, Hhi. lia.
Qed.

Lemma Atoi_int64 s n : Strconv.Atoi s = (n, None) -> - 2 ^ 63 <= n <= 2 ^ 63 - 1.
Proof.
  unfold Strconv.Atoi. cbv zeta.
  destruct (match list_ascii_of_string s with [] => _ | _ => _ end) as [neg ds].
  destruct ds as [|c ds]; [done|].
  destruct (Strconv.digits 0 (c :: ds)) as [m|]; [|done].
  destruct (_ <? - 2 ^ 63) eqn:Hlo; [done|].
  destruct (2 ^ 63 - 1 <? _) eqn:Hhi; [done|].
  intros [= <-]. apply Z.ltb_ge in Hlo, Hhi. lia.
Qed.

Lemma daysIn_bound m y : 28 <= Time.daysIn m y <= 31.
Proof. unfold Time.daysIn. repeat case_match; lia. Qed.

Lemma Parse_calendar_date value date :
  Time.Parse_2006_01_02 value = (date, None) ->
  0 <= Time.Year date <= 9999
  /\ 1 <= Time.Month date <= 12
  /\ 1 <= Time.Day date <= Time.daysIn (Time.Month date) (Time.Year date)
  /\ length (list_ascii_of_string value) = 10%nat.
Proof.
  unfold Time.Parse_2006_01_02.
  destruct (list_ascii_of_string value) as [|y1 [|y2 [|y3 [|y4 rest]]]]; try done.
  cbn [Strconv.digits].
  destruct (Strconv.digit y1) as [a1|] eqn:E1; [|done].
  destruct (Strconv.digit y2) as [a2|] eqn:E2; [|done].
  destruct (Strconv.digit y3) as [a3|] eqn:E3; [|done].
  destruct (Strconv.digit y4) as [a4|] eqn:E4; [|done].
  apply digit_bound in E1, E2, E3, E4.
  destruct rest as [|dash1 [|m1 [|m2 rest]]]; try (by repeat case_match).
  destruct (Ascii.eqb dash1 "-") eqn:Hd1;
    [apply Ascii.eqb_eq in Hd1 as -> | by (apply Ascii.eqb_neq in Hd1; repeat case_match)].
  destruct (Strconv.digit m1) as [b1|] eqn:F1; [|done].
  destruct (Strconv.digit m2) as [b2|] eqn:F2; [|done].
  apply digit_bound in F1, F2.
  destruct (_ || _) eqn:Hmonth; [done|].
  apply orb_false_iff in Hmonth as [Hm1 Hm2]. apply Z.leb_gt in Hm1. apply Z.ltb_ge in Hm2.
  destruct rest as [|dash2 [|d1 [|d2 rest]]]; try (by repeat case_match).
  destruct (Ascii.eqb dash2 "-") eqn:Hd2;
    [apply Ascii.eqb_eq in Hd2 as -> | by (apply Ascii.eqb_neq in Hd2; repeat case_match)].
  destruct (Strconv.digit d1) as [c1|] eqn:G1; [|done].
  destruct (Strconv.digit d2) as [c2|] eqn:G2; [|done].
  apply digit_bound in G1, G2.
  destruct rest; [|done].
  destruct (_ || _) eqn:Hday; [done|].
  apply orb_false_iff in Hday as [Hday1 Hday2]. apply Z.ltb_ge in Hday1, Hday2.
  intros [= <-]. cbn. repeat split; lia.
Qed.

(** What a rated item holds: its rating is the value of an [int] (any:
    the parser does not restrict it to 1..10), and its date is a date of
    the calendar (a month from 1 to 12, a day that month has in that
    year, a year of four digits) written in ten characters. *)
Theorem rated_items_well_formed (res : response BodyT) (name : option string)
    (items : list ImdbItem) (csvData : list (list string)) :
  csv_ReadAll (Body res) = Ok csvData ->
  readResponse res resourceTypeRating = Returns (name, items) ->
  Forall2 (fun record item =>
             exists field rating date,
               record !! 2%nat = Some field
               /\ length (list_ascii_of_string field) = 10%nat
               /\ Rating item = Some rating
               /\ - 2 ^ 63 <= rating <= 2 ^ 63 - 1
               /\ RatingDate item = Some date
               /\ 0 <= Time.Year date <= 9999
               /\ 1 <= Time.Month date <= 12
               /\ 1 <= Time.Day date <= Time.daysIn (Time.Month date) (Time.Year date))
    (tail csvData) items.
Proof.
  intros Hcsv. unfold readResponse. rewrite Hcsv, readRatingRows_header.
  destruct (readRatingRows 1 (tail csvData) []) as [imdbList| |] eqn:Hrows; [|done..].
  intros [= <- <-].
  apply readRatingRows_data in Hrows as (new & -> & Hnew); [|lia]. cbn.
  eapply Forall2_impl; [exact Hnew|].
  intros record item (_ & _ & (f1 & n & _ & Ha & Hr) & (f2 & d & H2 & Hp & Hd)).
  apply Atoi_int64 in Ha. apply Parse_calendar_date in Hp as (Hy & Hm & Hday & Hlen).
  exists f2, n, d. done.
Qed.

End ParserEdges.

(** ** The operations: what they leave alone, how they fail *)

Section ClientEdges.

Context `{Platform}.

Lemma sends_refl st : sends_at_most 0 st st.
Proof. exists []. by rewrite app_nil_r. Qed.

Lemma sends_trans n k st st1 st2 :
  sends_at_most n st st1 -> sends_at_most k st1 st2 -> sends_at_most (n + k) st st2.
Proof.
  intros (l1 & H1 & Hn) (l2 & H2 & Hk). exists (l1 ++ l2)%list.
  rewrite H2, H1, <- app_assoc, length_app. split; [done | lia].
Qed.

Lemma sends_mono n k st st' : (n <= k)%nat -> sends_at_most n st st' -> sends_at_most k st st'.
Proof. intros Hnk (l & Hl & Hn). exists l. split; [done | lia]. Qed.

Lemma keeps_refl st : keeps 0 st st.
Proof. split; [done | apply sends_refl]. Qed.

Lemma keeps_trans n k st st1 st2 :
  keeps n st st1 -> keeps k st1 st2 -> keeps (n + k) st st2.
Proof.
  intros [Hc1 Hs1] [Hc2 Hs2]. split; [congruence | by eapply sends_trans].
Qed.

Lemma keeps_mono n k st st' : (n <= k)%nat -> keeps n st st' -> keeps k st st'.
Proof. intros Hnk [Hc Hs]. split; [done | by eapply sends_mono]. Qed.

Lemma keeps_bind {A B} n k (m : M A) (f : A -> M B) st :
  keeps n st (m st).2 ->
  (forall a st1, keeps k st1 (f a st1).2) ->
  keeps (n + k) st (bind m f st).2.
Proof.
  intros Hm Hf. unfold bind.
  destruct (m st) as [[a|fmt e|msg] st1]; cbn in *.
  - eapply keeps_trans; [exact Hm | apply Hf].
  - eapply keeps_mono; [|exact Hm]. lia.
  - eapply keeps_mono; [|exact Hm]. lia.
Qed.

Lemma keeps_DrainBody body st : keeps 0 st (DrainBody body st).2.
Proof.
  unfold DrainBody. destruct (body_Close body (st_world st)) as [[e|] w];
    (split; [done | exists []; by rewrite app_nil_r]).
Qed.

Lemma keeps_defer_DrainBody {A} n body (m : M A) st :
  keeps n st (m st).2 ->
  keeps n st (defer (DrainBody body) m st).2.
Proof.
  intros Hm. unfold defer.
  pose proof (keeps_DrainBody body (m st).2) as Hclose.
  destruct (m st) as [[a|fmt e|msg] st1]; cbn in *; [|done|];
    (eapply keeps_mono; [|eapply keeps_trans; [exact Hm|]]; [|
       destruct (DrainBody body st1) as [[[]|fmt e|msg'] st2]; exact Hclose]; lia).
Qed.

Lemma keeps_ret {A} (a : A) st : keeps 0 st (ret a st).2.
Proof. apply keeps_refl. Qed.

Lemma keeps_lift {A} (o : outcome A) st : keeps 0 st (lift o st).2.
Proof. apply keeps_refl. Qed.

Lemma doRequest_keeps (params : requestParams BodyObj) (st : state) :
  keeps 1 st (doRequest params st).2.
Proof.
  unfold keeps, doRequest, bind, get_client, Do, ret, panic. cbn.
  repeat case_match; simplify_eq; cbn; (split; [done|]);
    first [ exists []; rewrite app_nil_r; split; [reflexivity | cbn; lia]
          | eexists [_]; split; [reflexivity | cbn; lia] ].
Qed.

(** [doRequest] makes one attempt at most and leaves the client alone;
    it never exits the process; and when it returns, it returns either a
    response whose status is 200 or 404 and no error, or an error and no
    response. *)
Theorem doRequest_one_attempt (params : requestParams BodyObj) (st : state) :
  keeps 1 st (doRequest params st).2
  /\ (forall f e, (doRequest params st).1 <> Fatal f e)
  /\ (forall res err,
        (doRequest params st).1 = Returns (res, err) ->
        (exists r, res = Some r /\ err = None
                   /\ (StatusCode r = http_StatusOK \/ StatusCode r = http_StatusNotFound))
        \/ (res = None /\ is_Some err)).
Proof.
  split; [|split].
  - apply doRequest_keeps.
  - intros f e. unfold doRequest, bind, get_client, Do, ret, panic. cbn.
    repeat case_match; simplify_eq; by cbn.
  - intros res err. unfold doRequest, bind, get_client, Do, ret, panic. cbn.
    repeat case_match; simplify_eq; cbn; intros [= <- <-];
      first [ by (right; eauto)
            | left; eexists; repeat split;
              match goal with
              | E : (_ =? _) = true |- _ => apply Z.eqb_eq in E; by auto
              end ].
Qed.

Lemma keeps_get_client st : keeps 0 st (get_client st).2.
Proof. apply keeps_refl. Qed.

Lemma ListItemsGet_keeps listId st : keeps 1 st (ListItemsGet listId st).2.
Proof.
  unfold ListItemsGet. cbv zeta.
  apply (keeps_bind 1 0); [apply doRequest_keeps|].
  intros [res [err|]] st1; [apply keeps_ret|].
  destruct res as [res|]; [|apply keeps_refl].
  apply keeps_defer_DrainBody.
  destruct (StatusCode res =? http_StatusNotFound); [apply keeps_ret|].
  apply (keeps_bind 0 0); [apply keeps_lift|]. intros [n l] st2. apply keeps_ret.
Qed.

Lemma WatchlistGet_keeps st : keeps 1 st (WatchlistGet st).2.
Proof.
  unfold WatchlistGet.
  apply (keeps_bind 0 1); [apply keeps_get_client|]. intros c st0.
  apply (keeps_bind 1 0); [apply doRequest_keeps|].
  intros [res [err|]] st1; [apply keeps_ret|].
  destruct res as [res|]; [|apply keeps_refl].
  apply keeps_defer_DrainBody.
  destruct (StatusCode res =? http_StatusNotFound); [apply keeps_ret|].
  apply (keeps_bind 0 0); [apply keeps_lift|]. intros [n l] st2. apply keeps_ret.
Qed.

Lemma RatingsGet_keeps st : keeps 1 st (RatingsGet st).2.
Proof.
  unfold RatingsGet.
  apply (keeps_bind 0 1); [apply keeps_get_client|]. intros c st0.
  apply (keeps_bind 1 0); [apply doRequest_keeps|].
  intros [res [err|]] st1; [apply keeps_ret|].
  destruct res as [res|]; [|apply keeps_refl].
  apply keeps_defer_DrainBody.
  destruct (StatusCode res =? http_StatusNotFound); [apply keeps_ret|].
  apply (keeps_bind 0 0); [apply keeps_lift|]. intros [n l] st2. apply keeps_ret.
Qed.

Lemma ListsScrape_each_keeps selections dps st :
  keeps (length selections) st (ListsScrape_each selections dps st).2.
Proof.
  revert dps st. induction selections as [|selection rest IH]; intros dps st.
  - apply keeps_refl.
  - cbn [ListsScrape_each length].
    destruct (goquery_Attr selection "id") as [imdbListId|];
      [|eapply keeps_mono; [|apply IH]; lia].
    apply (keeps_bind 1 (length rest)); [apply ListItemsGet_keeps|].
    intros [[name items] err] st1.
    destruct (is_ResourceNotFound err); [apply IH|].
    destruct name; [apply IH|].
    eapply keeps_mono; [|apply keeps_refl]. lia.
Qed.

(** The operations that read the site leave the client as it was
    (identity, tokens, endpoint) and never ask twice: [ListItemsGet],
    [WatchlistGet] and [RatingsGet] send one request at most, the
    enumeration of [ListsScrape] one per element at most, and
    [ListsScrape] one more for the page of the lists. *)
Theorem reading_keeps_the_client (st : state) :
  (forall listId, keeps 1 st (ListItemsGet listId st).2)
  /\ keeps 1 st (WatchlistGet st).2
  /\ keeps 1 st (RatingsGet st).2
  /\ (forall selections dps,
        keeps (length selections) st (ListsScrape_each selections dps st).2)
  /\ st_client (ListsScrape st).2 = st_client st
  /\ (forall req res w' doc,
        answers (st_client st) (st_world st)
          (Sprintf_s imdbPathLists (UserId (config (st_client st)))) req res w' ->
        goquery_NewDocumentFromReader (Body res) = Ok doc ->
        keeps (1 + length (goquery_Find doc ".user-list")) st (ListsScrape st).2).
Proof.
  split; [intros listId; apply ListItemsGet_keeps|].
  split; [apply WatchlistGet_keeps|].
  split; [apply RatingsGet_keeps|].
  split; [intros selections dps; apply ListsScrape_each_keeps|].
  split.
  - unfold ListsScrape. unfold bind at 1, get_client. unfold bind at 1.
    pose proof (doRequest_keeps
                  {| Method := http_MethodGet;
                     Path := Sprintf_s imdbPathLists (UserId (config (st_client st)));
                     Body_ := None |} st) as [Hclient _].
    destruct (doRequest _ st) as [[[res [err|]]|f e|msg] st1]; cbn in *; try done.
    destruct res as [res|]; [|done].
    assert (forall n (m : M (list DataPair * option error)),
              keeps n st1 (m st1).2 -> st_client (defer (DrainBody (Body res)) m st1).2
                                       = st_client st) as Hdefer.
    { intros n m Hm. apply (keeps_defer_DrainBody n (Body res)) in Hm as [-> _]. done. }
    destruct (goquery_NewDocumentFromReader (Body res)) as [doc|e].
    + apply (Hdefer (length (goquery_Find doc ".user-list") + 0)%nat).
      apply keeps_bind; [apply ListsScrape_each_keeps|]. intros a st2. apply keeps_ret.
    + apply (Hdefer 0%nat). apply keeps_ret.
  - intros req res w' doc Hans Hdoc.
    unfold ListsScrape. unfold bind at 1, get_client. unfold bind at 1.
    pose proof (doRequest_keeps
                  {| Method := http_MethodGet;
                     Path := Sprintf_s imdbPathLists (UserId (config (st_client st)));
                     Body_ := None |} st) as Hfetch.
    rewrite (doRequest_answered _ _ _ _ _ Hans) in Hfetch |- *. cbn in Hfetch.
    assert (keeps (1 + length (goquery_Find doc ".user-list")) st
              (defer (DrainBody (Body res))
                 (match goquery_NewDocumentFromReader (Body res) with
                  | Ok doc =>
                    bind (ListsScrape_each (goquery_Find doc ".user-list") [])
                      (fun dps => ret (dps, None))
                  | Err err =>
                    ret ([], Some (Wrapf "failure creating goquery document from imdb response"
                                     err))
                  end) (after_Do st req w')).2) as Hpage.
    { eapply keeps_trans; [exact Hfetch|].
      apply keeps_defer_DrainBody. rewrite Hdoc.
      eapply keeps_mono;
        [|apply (keeps_bind (length (goquery_Find doc ".user-list")) 0);
          [apply ListsScrape_each_keeps | intros a st2; apply keeps_ret]].
      lia. }
    destruct (StatusCode res =? http_StatusOK); [exact Hpage|].
    destruct (StatusCode res =? http_StatusForbidden);
      [eapply keeps_mono; [|exact Hfetch]; lia|].
    destruct (StatusCode res =? http_StatusNotFound); [exact Hpage|].
    eapply keeps_mono; [|exact Hfetch]. lia.
Qed.

(** How [doRequest] classifies an answer: a 200 and a 404 are handed to
    the caller as they are, with no error; any status other than 200, 403
    and 404 gives no response and the ImdbError of that status, with the
    method and the URL of the request. *)
Theorem doRequest_classifies (st : state) (path : string) (req : request)
    (res : response BodyT) (w' : World) :
  answers (st_client st) (st_world st) path req res w' ->
  (StatusCode res = http_StatusOK \/ StatusCode res = http_StatusNotFound ->
   doRequest {| Method := http_MethodGet; Path := path; Body_ := None |} st
     = (Returns (Some res, None), after_Do st req w'))
  /\ (StatusCode res <> http_StatusOK ->
      StatusCode res <> http_StatusForbidden ->
      StatusCode res <> http_StatusNotFound ->
      doRequest {| Method := http_MethodGet; Path := path; Body_ := None |} st
        = (Returns (None, Some (ImdbError (req_Method req) (req_URL req) (StatusCode res)
                                  ("unexpected status code " ++ pretty (StatusCode res)))),
           after_Do st req w')).
Proof.
  intros Hans. rewrite (doRequest_answered _ _ _ _ _ Hans). split.
  - by intros [-> | ->].
  - intros H200 H403 H404. apply Z.eqb_neq in H200, H403, H404.
    by rewrite H200, H403, H404.
Qed.

(** A watchlist export that is not found is reported as the
    ResourceNotFoundError of kind watchlist with the watchlist id, a
    ratings export as the one of kind rating, with no id. *)
Theorem not_found_kinds (st : state) (req : request) (res : response BodyT)
    (w' w'' : World) :
  StatusCode res = http_StatusNotFound ->
  body_Close (Body res) w' = (None, w'') ->
  (answers (st_client st) (st_world st)
     (Sprintf_s imdbPathListExport (WatchlistId (config (st_client st)))) req res w' ->
   WatchlistGet st
     = (Returns (None, [],
                 Some (ResourceNotFoundError resourceTypeWatchlist
                         (Some (WatchlistId (config (st_client st)))))),
        after_Close (after_Do st req w') w''))
  /\ (answers (st_client st) (st_world st)
        (Sprintf_s imdbPathRatingsExport (UserId (config (st_client st)))) req res w' ->
      RatingsGet st
        = (Returns ([], Some (ResourceNotFoundError resourceTypeRating None)),
           after_Close (after_Do st req w') w'')).
Proof.
  intros Hstatus Hclose. split; intros Hans.
  - unfold WatchlistGet. unfold bind at 1, get_client. unfold bind at 1.
    rewrite (doRequest_answered _ _ _ _ _ Hans), Hstatus. cbn.
    apply defer_DrainBody_returns; [|done]. by rewrite Hstatus.
  - unfold RatingsGet. unfold bind at 1, get_client. unfold bind at 1.
    rewrite (doRequest_answered _ _ _ _ _ Hans), Hstatus. cbn.
    apply defer_DrainBody_returns; [|done]. by rewrite Hstatus.
Qed.

Lemma readResponse_list_named res name items :
  readResponse res resourceTypeList = Returns (name, items) -> is_Some name.
Proof.
  unfold readResponse. destruct (csv_ReadAll (Body res)); [|done].
  destruct (readListRows 0 _ []); [|done..].
  unfold readListName. repeat case_match; simplify_eq; try done.
  intros [= <- <-]. eauto.
Qed.

Lemma ListItemsGet_parsed st listId req res w' :
  answers (st_client st) (st_world st) (Sprintf_s imdbPathListExport listId) req res w' ->
  StatusCode res = http_StatusOK ->
  ListItemsGet listId st =
    defer (DrainBody (Body res))
      (fun st1 =>
         match readResponse res resourceTypeList with
         | Returns (name, items) => (Returns (name, items, None), st1)
         | Fatal f e => (Fatal f e, st1)
         | Panics msg => (Panics msg, st1)
         end) (after_Do st req w').
Proof.
  intros Hans Hstatus. unfold ListItemsGet. cbv zeta. unfold bind at 1.
  rewrite (doRequest_answered _ _ _ _ _ Hans), Hstatus.
  cbn [Z.eqb http_StatusOK Pos.eqb]. cbn beta iota. rewrite Hstatus.
  cbn [Z.eqb http_StatusOK http_StatusNotFound Pos.eqb].
  unfold defer, bind, lift.
  by destruct (readResponse res resourceTypeList) as [[n l]| |].
Qed.

(** A list whose export answers 200 and parses is returned by
    [ListItemsGet] with its name and items, the body closed; met in the
    enumeration it adds, after the pairs collected so far, the pair of
    its id, name, items and the slug of its name, and the enumeration
    goes on. *)
Theorem ListItemsGet_collected (st : state) (listId : string) (req : request)
    (res : response BodyT) (w' w'' : World) (name : option string) (items : list ImdbItem) :
  answers (st_client st) (st_world st) (Sprintf_s imdbPathListExport listId) req res w' ->
  StatusCode res = http_StatusOK ->
  readResponse res resourceTypeList = Returns (name, items) ->
  body_Close (Body res) w' = (None, w'') ->
  ListItemsGet listId st
    = (Returns (name, items, None), after_Close (after_Do st req w') w'')
  /\ exists imdbListName,
       name = Some imdbListName
       /\ forall selection rest dps,
            goquery_Attr selection "id" = Some listId ->
            ListsScrape_each (selection :: rest) dps st =
              ListsScrape_each rest
                (dps ++ [ {| ImdbList := items;
                             ImdbListId := listId;
                             ImdbListName := imdbListName;
                             TraktListId :=
                               FormatTraktListName unicode_LowerCase imdbListName |} ])
                (after_Close (after_Do st req w') w'').
Proof.
  intros Hans Hstatus Hread Hclose.
  assert (ListItemsGet listId st
          = (Returns (name, items, None), after_Close (after_Do st req w') w'')) as Hget.
  { rewrite (ListItemsGet_parsed _ _ _ _ _ Hans Hstatus).
    apply defer_DrainBody_returns; [by rewrite Hread | done]. }
  split; [done|].
  destruct (readResponse_list_named _ _ _ Hread) as [imdbListName ->].
  exists imdbListName. split; [done|].
  intros selection rest dps Hid. cbn [ListsScrape_each]. rewrite Hid.
  unfold bind at 1. by rewrite Hget.
Qed.

(** The body of a response is closed when the operation returns and when
    it panics, and a close that fails exits the process in both cases:
    for a list that is not found, for a list that parses, and for a list
    whose export makes the parser panic. When the parser exits the
    process the body is left open. *)
Theorem ListItemsGet_closes_body (st : state) (listId : string) (req : request)
    (res : response BodyT) (w' w'' : World) :
  answers (st_client st) (st_world st) (Sprintf_s imdbPathListExport listId) req res w' ->
  (forall cause,
     body_Close (Body res) w' = (Some cause, w'') ->
     StatusCode res = http_StatusNotFound
     \/ (StatusCode res = http_StatusOK
         /\ forall f e, readResponse res resourceTypeList <> Fatal f e) ->
     ListItemsGet listId st
       = (Fatal "error closing response body: %v" (Some cause),
          after_Close (after_Do st req w') w''))
  /\ (forall msg,
        body_Close (Body res) w' = (None, w'') ->
        StatusCode res = http_StatusOK ->
        readResponse res resourceTypeList = Panics msg ->
        ListItemsGet listId st = (Panics msg, after_Close (after_Do st req w') w''))
  /\ (forall f e,
        StatusCode res = http_StatusOK ->
        readResponse res resourceTypeList = Fatal f e ->
        ListItemsGet listId st = (Fatal f e, after_Do st req w')).
Proof.
  intros Hans. split; [|split].
  - intros cause Hclose [Hstatus | [Hstatus Hread]].
    + unfold ListItemsGet. cbv zeta. unfold bind at 1.
      rewrite (doRequest_answered _ _ _ _ _ Hans), Hstatus. cbn. rewrite Hstatus.
      unfold defer, DrainBody, ret. cbn. by rewrite Hclose.
    + rewrite (ListItemsGet_parsed _ _ _ _ _ Hans Hstatus).
      unfold defer, DrainBody.
      destruct (readResponse res resourceTypeList) as [[n l]|f e|msg] eqn:E;
        [| by destruct (Hread f e) |]; cbn; by rewrite Hclose.
  - intros msg Hclose Hstatus Hread.
    rewrite (ListItemsGet_parsed _ _ _ _ _ Hans Hstatus).
    unfold defer, DrainBody. rewrite Hread. cbn. by rewrite Hclose.
  - intros f e Hstatus Hread.
    rewrite (ListItemsGet_parsed _ _ _ _ _ Hans Hstatus).
    unfold defer. by rewrite Hread.
Qed.

Lemma ListsScrape_each_pairs selections dps st dps' st' :
  ListsScrape_each selections dps st = (Returns dps', st') ->
  exists new,
    dps' = (dps ++ new)%list
    /\ sublist (map ImdbListId new) (omap (fun n => goquery_Attr n "id") selections)
    /\ Forall (fun pair => TraktListId pair
                           = FormatTraktListName unicode_LowerCase (ImdbListName pair)) new.
Proof.
  revert dps st. induction selections as [|selection rest IH]; intros dps st.
  - intros [= <- <-]. exists []. rewrite app_nil_r. repeat split; constructor.
  - cbn [ListsScrape_each omap list_omap].
    destruct (goquery_Attr selection "id") as [imdbListId|]; [|apply IH].
    unfold bind at 1.
    destruct (ListItemsGet imdbListId st) as [[[[name items] err]|f e|msg] st1]; [|done..].
    destruct (is_ResourceNotFound err).
    { intros (new & -> & Hsub & Hslug)%IH. exists new.
      repeat split; [by apply sublist_cons | done]. }
    destruct name as [name|]; [|done].
    intros (new & -> & Hsub & Hslug)%IH. eexists (_ :: new).
    rewrite <- app_assoc. repeat split; [by apply sublist_skip|].
    by constructor.
Qed.

(** What [ListsScrape] returns: every pair carries the slug of its own
    name, a string over [a-z0-9-]; an error comes with no pair at all;
    and the ids of the pairs are ids of the elements of the page, in the
    order of the page, none twice for one element. *)
Theorem ListsScrape_pairs (st : state) (dps : list DataPair) (err : option error)
    (st' : state) :
  ListsScrape st = (Returns (dps, err), st') ->
  Forall (fun pair =>
            TraktListId pair = FormatTraktListName unicode_LowerCase (ImdbListName pair)
            /\ Forall slug_char (list_ascii_of_string (TraktListId pair))) dps
  /\ (is_Some err -> dps = [])
  /\ (forall req res w' doc,
        answers (st_client st) (st_world st)
          (Sprintf_s imdbPathLists (UserId (config (st_client st)))) req res w' ->
        goquery_NewDocumentFromReader (Body res) = Ok doc ->
        sublist (map ImdbListId dps)
          (omap (fun n => goquery_Attr n "id") (goquery_Find doc ".user-list"))).
Proof.
  intros Hrun.
  assert (forall new,
            Forall (fun pair => TraktListId pair
                      = FormatTraktListName unicode_LowerCase (ImdbListName pair)) new ->
            Forall (fun pair =>
                      TraktListId pair
                        = FormatTraktListName unicode_LowerCase (ImdbListName pair)
                      /\ Forall slug_char (list_ascii_of_string (TraktListId pair))) new)
    as Hslug.
  { intros new Hnew. eapply Forall_impl; [exact Hnew|]. intros pair Hpair.
    split; [done|]. rewrite Hpair. apply FormatTraktListName_slug_chars. }
  split; [|split].
  - revert Hrun. unfold ListsScrape. unfold bind at 1, get_client. unfold bind at 1.
    destruct (doRequest _ st) as [[[res e]|f e|msg] st1]; [|done..].
    destruct e as [e|]; [by intros [= <- <- <-]|].
    destruct res as [res|]; [|done].
    intros (st2 & Hrun)%defer_returns_inv. revert Hrun.
    destruct (goquery_NewDocumentFromReader (Body res)) as [doc|e]; [|by intros [= <- <- <-]].
    unfold bind at 1.
    destruct (ListsScrape_each _ [] st1) as [[dps'|f e|msg] st3] eqn:Heach; [|done..].
    intros [= <- <- <-].
    apply ListsScrape_each_pairs in Heach as (new & -> & _ & Hnew). by apply Hslug.
  - revert Hrun. unfold ListsScrape. unfold bind at 1, get_client. unfold bind at 1.
    destruct (doRequest _ st) as [[[res e]|f e|msg] st1]; [|done..].
    destruct e as [e|]; [by intros [= <- <- <-]|].
    destruct res as [res|]; [|done].
    intros (st2 & Hrun)%defer_returns_inv. revert Hrun.
    destruct (goquery_NewDocumentFromReader (Body res)) as [doc|e]; [|by intros [= <- <- <-]].
    unfold bind at 1.
    destruct (ListsScrape_each _ [] st1) as [[dps'|f e|msg] st3]; [|done..].
    intros [= <- <- <-] [? [=]].
  - intros req res w' doc Hans Hdoc. revert Hrun.
    unfold ListsScrape. unfold bind at 1, get_client. unfold bind at 1.
    rewrite (doRequest_answered _ _ _ _ _ Hans).
    assert (forall st1 a,
              defer (DrainBody (Body res))
                (match goquery_NewDocumentFromReader (Body res) with
                 | Ok doc =>
                   bind (ListsScrape_each (goquery_Find doc ".user-list") [])
                     (fun dps => ret (dps, None))
                 | Err err =>
                   ret ([], Some (Wrapf "failure creating goquery document from imdb response"
                                    err))
                 end) st1 = (Returns a, st') ->
              sublist (map ImdbListId a.1)
                (omap (fun n => goquery_Attr n "id") (goquery_Find doc ".user-list")))
      as Hpage.
    { intros st1 a (st2 & Hrun)%defer_returns_inv. revert Hrun. rewrite Hdoc.
      unfold bind at 1.
      destruct (ListsScrape_each _ [] st1) as [[dps'|f e|msg] st3] eqn:Heach; [|done..].
      intros [= <- <-].
      by apply ListsScrape_each_pairs in Heach as (new & -> & Hsub & _). }
    destruct (StatusCode res =? http_StatusOK); [apply (Hpage _ (dps, err))|].
    destruct (StatusCode res =? http_StatusForbidden);
      [intros [= <- <- <-]; apply sublist_nil_l|].
    destruct (StatusCode res =? http_StatusNotFound); [apply (Hpage _ (dps, err))|].
    intros [= <- <- <-]. apply sublist_nil_l.
Qed.



(** When the page of a scrape answers 200 or 404 but cannot be read as a
    document, or holds no element with the attribute looked for, the
    scrape returns an error that is not a ResourceNotFoundError, closes
    the body and leaves the identity of the client as it was. *)
Theorem scrape_failures (st : state) (req : request) (res : response BodyT)
    (w' w'' : World) :
  StatusCode res = http_StatusOK \/ StatusCode res = http_StatusNotFound ->
  body_Close (Body res) w' = (None, w'') ->
  (answers (st_client st) (st_world st) imdbPathProfile req res w' ->
   (forall cause,
      goquery_NewDocumentFromReader (Body res) = Err cause ->
      UserIdScrape st
        = (Returns (Some (Wrapf "failure creating goquery document from imdb response" cause)),
           after_Close (after_Do st req w') w''))
   /\ (forall doc,
         goquery_NewDocumentFromReader (Body res) = Ok doc ->
         Selection_Attr (goquery_Find doc ".user-profile.userId") "data-userid" = None ->
         UserIdScrape st
           = (Returns (Some (Errorf "failure scraping imdb profile: user id not found")),
              after_Close (after_Do st req w') w'')))
  /\ (answers (st_client st) (st_world st) imdbPathWatchlist req res w' ->
      (forall cause,
         goquery_NewDocumentFromReader (Body res) = Err cause ->
         WatchlistIdScrape st
           = (Returns (Some (Wrapf "failure creating goquery document from imdb response"
                               cause)),
              after_Close (after_Do st req w') w''))
      /\ (forall doc,
            goquery_NewDocumentFromReader (Body res) = Ok doc ->
            Selection_Attr (goquery_Find doc "meta[property='pageId']") "content" = None ->
            WatchlistIdScrape st
              = (Returns (Some (Errorf "failure scraping imdb profile: watchlist id not found")),
                 after_Close (after_Do st req w') w''))).
Proof.
  intros Hstatus Hclose.
  assert (forall path, answers (st_client st) (st_world st) path req res w' ->
            doRequest {| Method := http_MethodGet; Path := path; Body_ := None |} st
            = (Returns (Some res, None), after_Do st req w')) as Hfetch.
  { intros path Hans. rewrite (doRequest_answered _ _ _ _ _ Hans).
    by destruct Hstatus as [-> | ->]. }
  split; intros Hans; (split; [intros cause Hdoc | intros doc Hdoc Hattr]).
  - unfold UserIdScrape. unfold bind at 1. rewrite (Hfetch _ Hans). cbn beta iota.
    rewrite Hdoc. by apply defer_DrainBody_returns.
  - unfold UserIdScrape. unfold bind at 1. rewrite (Hfetch _ Hans). cbn beta iota.
    rewrite Hdoc, Hattr. by apply defer_DrainBody_returns.
  - unfold WatchlistIdScrape. unfold bind at 1. rewrite (Hfetch _ Hans). cbn beta iota.
    rewrite Hdoc. by apply defer_DrainBody_returns.
  - unfold WatchlistIdScrape. unfold bind at 1. rewrite (Hfetch _ Hans). cbn beta iota.
    rewrite Hdoc, Hattr. by apply defer_DrainBody_returns.
Qed.

(** *** Hydration and construction *)

Ltac run_op :=
  unfold UserIdScrape, WatchlistIdScrape, doRequest, bind, get_client, set_config, Do,
    ret, panic, defer, DrainBody;
  cbn.

Ltac split_pairs :=
  repeat match goal with
  | E : (let '(_, _) := ?x in _) = _ |- _ => destruct x as [[?|] ?]; simplify_eq
  | |- context [let '(_, _) := ?x in _] => destruct x as [[?|] ?]
  end.

Ltac close_sends :=
  first [ exists []; rewrite app_nil_r; split; [reflexivity | cbn; lia]
        | eexists [_]; split; [reflexivity | cbn; lia] ].

Lemma UserIdScrape_session st :
  keeps_session 1 st (UserIdScrape st).2
  /\ WatchlistId (config (st_client (UserIdScrape st).2)) = WatchlistId (config (st_client st))
  /\ (forall err, (UserIdScrape st).1 = Returns (Some err) ->
        st_client (UserIdScrape st).2 = st_client st).
Proof.
  unfold keeps_session, same_session. run_op.
  repeat case_match; simplify_eq; cbn; split_pairs; cbn;
    (split; [split; [done | close_sends] | split; [done | by intros err [=]]]).
Qed.

Lemma WatchlistIdScrape_session st :
  keeps_session 1 st (WatchlistIdScrape st).2
  /\ UserId (config (st_client (WatchlistIdScrape st).2)) = UserId (config (st_client st))
  /\ (forall err, (WatchlistIdScrape st).1 = Returns (Some err) ->
        st_client (WatchlistIdScrape st).2 = st_client st).
Proof.
  unfold keeps_session, same_session. run_op.
  repeat case_match; simplify_eq; cbn; split_pairs; cbn;
    (split; [split; [done | close_sends] | split; [done | by intros err [=]]]).
Qed.

Lemma keeps_session_trans n k st st1 st2 :
  keeps_session n st st1 -> keeps_session k st1 st2 -> keeps_session (n + k) st st2.
Proof.
  intros [(He1 & Hc1 & Ha1 & Hu1) Hs1] [(He2 & Hc2 & Ha2 & Hu2) Hs2].
  split; [|by eapply sends_trans].
  repeat split; congruence.
Qed.

Lemma keeps_session_mono n k st st' :
  (n <= k)%nat -> keeps_session n st st' -> keeps_session k st st'.
Proof. intros Hnk [Hc Hs]. split; [done | by eapply sends_mono]. Qed.

Lemma Hydrate_runs st :
  Hydrate st =
    if String.eqb (UserId (config (st_client st))) ""
       || String.eqb (UserId (config (st_client st))) "scrape"
    then
      match UserIdScrape st with
      | (Returns None, st1) =>
        match WatchlistIdScrape st1 with
        | (Returns (Some err), st2) =>
          (Returns (Some (Wrapf "failure scraping imdb watchlist id" err)), st2)
        | r => r
        end
      | (Returns (Some err), st1) =>
        (Returns (Some (Wrapf "failure scraping imdb user id" err)), st1)
      | r => r
      end
    else
      match WatchlistIdScrape st with
      | (Returns (Some err), st2) =>
        (Returns (Some (Wrapf "failure scraping imdb watchlist id" err)), st2)
      | r => r
      end.
Proof.
  unfold Hydrate. unfold bind at 1, get_client.
  destruct (_ || _); unfold bind, ret.
  - destruct (UserIdScrape st) as [[[e|]| |] st1]; try done.
    by destruct (WatchlistIdScrape st1) as [[[e|]| |] st2].
  - by destruct (WatchlistIdScrape st) as [[[e|]| |] st2].
Qed.

Lemma Hydrate_session st :
  keeps_session 2 st (Hydrate st).2
  /\ (forall err, (Hydrate st).1 = Returns (Some err) ->
        WatchlistId (config (st_client (Hydrate st).2)) = WatchlistId (config (st_client st))).
Proof.
  rewrite Hydrate_runs.
  destruct (UserIdScrape_session st) as (Hu & Huw & Huerr).
  destruct (WatchlistIdScrape_session st) as (Hw & Hwu & Hwerr).
  destruct (_ || _).
  - destruct (UserIdScrape st) as [[[e|]| |] st1] eqn:Hscrape; cbn in *;
      try (split; [eapply keeps_session_mono; [|exact Hu]; lia | by try intros err [=]]).
    destruct (WatchlistIdScrape_session st1) as (Hw1 & Hwu1 & Hwerr1).
    pose proof (keeps_session_trans _ _ _ _ _ Hu Hw1) as Hboth.
    destruct (WatchlistIdScrape st1) as [[[e|]| |] st2]; cbn in *;
      (split; [exact Hboth|]); try (by intros err [=]).
    intros err _. rewrite (Hwerr1 e eq_refl). done.
  - destruct (WatchlistIdScrape st) as [[[e|]| |] st2]; cbn in *;
      (split; [eapply keeps_session_mono; [|exact Hw]; lia|]); try (by intros err [=]).
    intros err _. by rewrite (Hwerr e eq_refl).
Qed.

(** Hydration keeps the session of the client (endpoint, transport,
    both tokens): the user id scrape changes at most the user id and the
    watchlist id scrape at most the watchlist id, each after one request
    at most and neither when it returns an error; [Hydrate] sends two
    requests at most and, when it returns an error, has not set the
    watchlist id. *)
Theorem hydration_keeps_the_session (st : state) :
  (keeps_session 1 st (UserIdScrape st).2
   /\ WatchlistId (config (st_client (UserIdScrape st).2))
      = WatchlistId (config (st_client st))
   /\ (forall err, (UserIdScrape st).1 = Returns (Some err) ->
         st_client (UserIdScrape st).2 = st_client st))
  /\ (keeps_session 1 st (WatchlistIdScrape st).2
      /\ UserId (config (st_client (WatchlistIdScrape st).2))
         = UserId (config (st_client st))
      /\ (forall err, (WatchlistIdScrape st).1 = Returns (Some err) ->
            st_client (WatchlistIdScrape st).2 = st_client st))
  /\ (keeps_session 2 st (Hydrate st).2
      /\ (forall err, (Hydrate st).1 = Returns (Some err) ->
            WatchlistId (config (st_client (Hydrate st).2))
            = WatchlistId (config (st_client st)))).
Proof.
  split; [apply UserIdScrape_session|].
  split; [apply WatchlistIdScrape_session | apply Hydrate_session].
Qed.

(** [NewImdbClient] returns a client or an error, never both and never
    neither. The client it returns is the one hydration left: it asks
    at imdbPathBase, with the jar [setupCookieJar] made and the two
    tokens of the configuration, after two requests at most; and a user
    id that is neither empty nor "scrape" is the user id of the client. *)
Theorem NewImdbClient_client_or_error (cfg : ImdbConfig) (w : World)
    (c : option (ImdbClient CookieJar)) (err : option error) (st : option state) :
  NewImdbClient cfg w = (Returns (c, err), st) ->
  (exists built st',
     c = Some built /\ err = None /\ st = Some st' /\ st_client st' = built
     /\ endpoint built = imdbPathBase
     /\ client built = {| Jar := (setupCookieJar cfg).1 |}
     /\ CookieAtMain (config built) = CookieAtMain cfg
     /\ CookieUbidMain (config built) = CookieUbidMain cfg
     /\ (length (st_sent st') <= 2)%nat
     /\ (UserId cfg <> "" -> UserId cfg <> "scrape" -> UserId (config built) = UserId cfg))
  \/ (c = None /\ is_Some err).
Proof.
  unfold NewImdbClient.
  destruct (setupCookieJar cfg) as [jar [e|]]; [intros [= <- <- <-]; right; eauto|].
  set (st0 := {| st_client := new_client jar cfg; st_world := w; st_sent := [] |}).
  pose proof (Hydrate_session st0) as [[(Hendpoint & Hclient & Hat & Hubid) Hsent] _].
  pose proof (Hydrate_concrete_id st0) as Hkept.
  pose proof (WatchlistIdScrape_session st0) as (_ & Huser & _).
  destruct (Hydrate st0) as [[[e|]| |] st1]; cbn in *; [| |done..].
  - intros [= <- <- <-]. right. eauto.
  - intros [= <- <- <-]. left. exists (st_client st1), st1.
    destruct Hsent as (reqs & Hreqs & Hlen). rewrite Hreqs.
    repeat split; try done.
    intros Hempty Hscrape. rewrite (Hkept Hempty Hscrape). exact Huser.
Qed.

Lemma UserIdScrape_forbidden st req res w' :
  answers (st_client st) (st_world st) imdbPathProfile req res w' ->
  StatusCode res = http_StatusForbidden ->
  UserIdScrape st =
    (Returns (Some (Wrapf "failure trying to scrape imdb user id"
                      (ImdbError (req_Method req) (req_URL req) http_StatusForbidden
                         "imdb authorization failure - update the imdb cookie values"))),
     after_Do st req w').
Proof.
  intros Hans Hstatus. unfold UserIdScrape. unfold bind at 1.
  by rewrite (doRequest_answered _ _ _ _ _ Hans), Hstatus.
Qed.

Lemma WatchlistIdScrape_forbidden st req res w' :
  answers (st_client st) (st_world st) imdbPathWatchlist req res w' ->
  StatusCode res = http_StatusForbidden ->
  WatchlistIdScrape st =
    (Returns (Some (Wrapf "failure trying to scrape imdb watchlist id"
                      (ImdbError (req_Method req) (req_URL req) http_StatusForbidden
                         "imdb authorization failure - update the imdb cookie values"))),
     after_Do st req w').
Proof.
  intros Hans Hstatus. unfold WatchlistIdScrape. unfold bind at 1.
  by rewrite (doRequest_answered _ _ _ _ _ Hans), Hstatus.
Qed.

Lemma UserIdScrape_signed_out st req res w' w'' doc :
  answers (st_client st) (st_world st) imdbPathProfile req res w' ->
  StatusCode res = http_StatusOK \/ StatusCode res = http_StatusNotFound ->
  goquery_NewDocumentFromReader (Body res) = Ok doc ->
  Selection_Attr (goquery_Find doc ".user-profile.userId") "data-userid" = None ->
  body_Close (Body res) w' = (None, w'') ->
  UserIdScrape st
    = (Returns (Some (Errorf "failure scraping imdb profile: user id not found")),
       after_Close (after_Do st req w') w'').
Proof.
  intros Hans Hstatus Hdoc Hattr Hclose.
  unfold UserIdScrape. unfold bind at 1. rewrite (doRequest_answered _ _ _ _ _ Hans).
  destruct Hstatus as [-> | ->]; cbn beta iota;
    cbn [Z.eqb http_StatusOK http_StatusForbidden http_StatusNotFound Pos.eqb];
    rewrite Hdoc, Hattr; by apply defer_DrainBody_returns.
Qed.

(** How construction fails, each time with an error and no client: when
    the cookie jar cannot be set up, before any request; when the first
    page asked for (the profile with no user id or "scrape", the
    watchlist otherwise) answers 403, with the authorization failure
    after that one request; and when the profile page holds no user id,
    with "user id not found", the watchlist page never asked for. *)
Theorem NewImdbClient_failures (cfg : ImdbConfig) (w : World) :
  (forall cause,
     url_Parse imdbPathBase = Err cause
     \/ (exists u, url_Parse imdbPathBase = Ok u /\ cookiejar_New = Err cause) ->
     exists err, NewImdbClient cfg w = (Returns (None, Some err), None)
                 /\ cause ∈ chain err)
  /\ (forall jar req res w',
        setupCookieJar cfg = (jar, None) ->
        StatusCode res = http_StatusForbidden ->
        ((UserId cfg = "" \/ UserId cfg = "scrape")
         /\ answers (new_client jar cfg) w imdbPathProfile req res w')
        \/ (UserId cfg <> "" /\ UserId cfg <> "scrape"
            /\ answers (new_client jar cfg) w imdbPathWatchlist req res w') ->
        exists err st,
          NewImdbClient cfg w = (Returns (None, Some err), Some st)
          /\ is_authorization_failure err
          /\ st_sent st = [req]
          /\ config (st_client st) = cfg)
  /\ (forall jar req res w' w'' doc,
        setupCookieJar cfg = (jar, None) ->
        UserId cfg = "" \/ UserId cfg = "scrape" ->
        answers (new_client jar cfg) w imdbPathProfile req res w' ->
        StatusCode res = http_StatusOK \/ StatusCode res = http_StatusNotFound ->
        goquery_NewDocumentFromReader (Body res) = Ok doc ->
        Selection_Attr (goquery_Find doc ".user-profile.userId") "data-userid" = None ->
        body_Close (Body res) w' = (None, w'') ->
        exists err st,
          NewImdbClient cfg w = (Returns (None, Some err), Some st)
          /\ Errorf "failure scraping imdb profile: user id not found" ∈ chain err
          /\ st_sent st = [req]
          /\ config (st_client st) = cfg).
Proof.
  split; [|split].
  - intros cause Hjar. unfold NewImdbClient, setupCookieJar.
    destruct Hjar as [-> | (u & -> & ->)];
      (eexists; split; [reflexivity | apply chain_Wrapf]).
  - intros jar req res w' Hjar Hstatus Hpage. unfold NewImdbClient. rewrite Hjar.
    set (st0 := {| st_client := new_client jar cfg; st_world := w; st_sent := [] |}).
    rewrite (Hydrate_runs st0).
    destruct Hpage as [[Hid Hans] | (Hempty & Hscrape & Hans)].
    + assert (String.eqb (UserId cfg) "" || String.eqb (UserId cfg) "scrape" = true) as Hcond
        by (destruct Hid as [-> | ->]; reflexivity).
      cbn [st0 st_client new_client config]. rewrite Hcond.
      rewrite (UserIdScrape_forbidden st0 req res w' Hans Hstatus).
      eexists _, _. split; [reflexivity|]. split; [by eexists _, _ | done].
    + apply String.eqb_neq in Hempty, Hscrape.
      cbn [st0 st_client new_client config]. rewrite Hempty, Hscrape. cbn [orb].
      rewrite (WatchlistIdScrape_forbidden st0 req res w' Hans Hstatus).
      eexists _, _. split; [reflexivity|]. split; [by eexists _, _ | done].
  - intros jar req res w' w'' doc Hjar Hid Hans Hstatus Hdoc Hattr Hclose.
    unfold NewImdbClient. rewrite Hjar.
    set (st0 := {| st_client := new_client jar cfg; st_world := w; st_sent := [] |}).
    rewrite (Hydrate_runs st0).
    assert (String.eqb (UserId cfg) "" || String.eqb (UserId cfg) "scrape" = true) as Hcond
      by (destruct Hid as [-> | ->]; reflexivity).
    cbn [st0 st_client new_client config]. rewrite Hcond.
    rewrite (UserIdScrape_signed_out st0 req res w' w'' doc Hans Hstatus Hdoc Hattr Hclose).
    eexists _, _. split; [reflexivity|]. split; [|done].
    cbn [chain]. apply list_elem_of_further, list_elem_of_further, list_elem_of_here.
Qed.

End ClientEdges.

(** ** The requests the operations make *)

Section Requests.

Context `{Platform}.

Lemma only_gets_refl st : only_gets st st.
Proof. split; [done|]. exists []. by rewrite app_nil_r. Qed.

Lemma only_gets_trans st st1 st2 :
  only_gets st st1 -> only_gets st1 st2 -> only_gets st st2.
Proof.
  intros (He1 & l1 & H1 & Hl1) (He2 & l2 & H2 & Hl2).
  split; [congruence|]. exists (l1 ++ l2)%list.
  rewrite H2, H1, <- app_assoc. split; [done|].
  apply Forall_app. split; [done|]. by rewrite He1 in Hl2.
Qed.

Lemma only_gets_bind {A B} (m : M A) (f : A -> M B) st :
  only_gets st (m st).2 ->
  (forall a st1, only_gets st1 (f a st1).2) ->
  only_gets st (bind m f st).2.
Proof.
  intros Hm Hf. unfold bind.
  destruct (m st) as [[a|fmt e|msg] st1]; cbn in *; [|done..].
  eapply only_gets_trans; [exact Hm | apply Hf].
Qed.

Lemma only_gets_defer_DrainBody {A} body (m : M A) st :
  only_gets st (m st).2 ->
  only_gets st (defer (DrainBody body) m st).2.
Proof.
  intros Hm. unfold defer.
  assert (forall st1, only_gets st1 (DrainBody body st1).2) as Hclose.
  { intros st1. unfold DrainBody.
    destruct (body_Close body (st_world st1)) as [[e|] w];
      (split; [done|]; exists []; cbn; by rewrite app_nil_r). }
  destruct (m st) as [[a|fmt e|msg] st1]; cbn in *; [|done|];
    specialize (Hclose st1);
    destruct (DrainBody body st1) as [[[]|fmt e|msg'] st2]; cbn in *;
    by eapply only_gets_trans.
Qed.

Lemma only_gets_set_config cfg st : only_gets st (set_config cfg st).2.
Proof. split; [done|]. exists []. by rewrite app_nil_r. Qed.

Lemma doRequest_only_gets path st :
  only_gets st (doRequest {| Method := http_MethodGet; Path := path; Body_ := None |} st).2.
Proof.
  unfold doRequest, bind, get_client, Do, ret, panic. cbn.
  destruct (http_NewRequest _ _) as [req|e] eqn:Hreq; cbn; [|apply only_gets_refl].
  assert (only_gets st (after_Do st req (client_Do (client (st_client st)) req (st_world st)).2))
    as Hsent.
  { split; [done|]. exists [req]. split; [done|]. constructor; [|done]. by exists path. }
  destruct (client_Do _ req _) as [[[res|] [err|]] w]; cbn in *; try done.
  by repeat case_match.
Qed.

Lemma ListItemsGet_only_gets listId st : only_gets st (ListItemsGet listId st).2.
Proof.
  unfold ListItemsGet. cbv zeta.
  apply only_gets_bind; [apply doRequest_only_gets|].
  intros [res [err|]] st1; [apply only_gets_refl|].
  destruct res as [res|]; [|apply only_gets_refl].
  apply only_gets_defer_DrainBody.
  destruct (StatusCode res =? http_StatusNotFound); [apply only_gets_refl|].
  apply only_gets_bind; [apply only_gets_refl|]. intros [n l] st2. apply only_gets_refl.
Qed.

Lemma ListsScrape_each_only_gets selections dps st :
  only_gets st (ListsScrape_each selections dps st).2.
Proof.
  revert dps st. induction selections as [|selection rest IH]; intros dps st.
  - apply only_gets_refl.
  - cbn [ListsScrape_each]. destruct (goquery_Attr selection "id") as [imdbListId|]; [|apply IH].
    apply only_gets_bind; [apply ListItemsGet_only_gets|].
    intros [[name items] err] st1.
    destruct (is_ResourceNotFound err); [apply IH|].
    destruct name; [apply IH | apply only_gets_refl].
Qed.

Lemma scrapes_only_get st :
  only_gets st (UserIdScrape st).2 /\ only_gets st (WatchlistIdScrape st).2.
Proof.
  split.
  - unfold UserIdScrape. apply only_gets_bind; [apply doRequest_only_gets|].
    intros [res [err|]] st1; [apply only_gets_refl|].
    destruct res as [res|]; [|apply only_gets_refl].
    apply only_gets_defer_DrainBody.
    destruct (goquery_NewDocumentFromReader (Body res)) as [doc|e]; [|apply only_gets_refl].
    destruct (Selection_Attr _ _); [|apply only_gets_refl].
    apply only_gets_bind; [apply only_gets_refl|]. intros c st2.
    apply only_gets_bind; [apply only_gets_set_config|]. intros [] st3. apply only_gets_refl.
  - unfold WatchlistIdScrape. apply only_gets_bind; [apply doRequest_only_gets|].
    intros [res [err|]] st1; [apply only_gets_refl|].
    destruct res as [res|]; [|apply only_gets_refl].
    apply only_gets_defer_DrainBody.
    destruct (goquery_NewDocumentFromReader (Body res)) as [doc|e]; [|apply only_gets_refl].
    destruct (Selection_Attr _ _); [|apply only_gets_refl].
    apply only_gets_bind; [apply only_gets_refl|]. intros c st2.
    apply only_gets_bind; [apply only_gets_set_config|]. intros [] st3. apply only_gets_refl.
Qed.

(** Whatever the site answers, every request an operation hands to the
    transport is the request [http.NewRequest] built for the method GET
    and a URL that starts with the endpoint of the client, with no body
    added, and the endpoint is never changed. *)
Theorem operations_only_get (st : state) :
  (forall listId, only_gets st (ListItemsGet listId st).2)
  /\ only_gets st (WatchlistGet st).2
  /\ only_gets st (RatingsGet st).2
  /\ only_gets st (ListsScrape st).2
  /\ only_gets st (UserIdScrape st).2
  /\ only_gets st (WatchlistIdScrape st).2
  /\ only_gets st (Hydrate st).2.
Proof.
  split; [intros listId; apply ListItemsGet_only_gets|].
  split.
  { unfold WatchlistGet. apply only_gets_bind; [apply only_gets_refl|]. intros c st0.
    apply only_gets_bind; [apply doRequest_only_gets|].
    intros [res [err|]] st1; [apply only_gets_refl|].
    destruct res as [res|]; [|apply only_gets_refl].
    apply only_gets_defer_DrainBody.
    destruct (StatusCode res =? http_StatusNotFound); [apply only_gets_refl|].
    apply only_gets_bind; [apply only_gets_refl|]. intros [n l] st2. apply only_gets_refl. }
  split.
  { unfold RatingsGet. apply only_gets_bind; [apply only_gets_refl|]. intros c st0.
    apply only_gets_bind; [apply doRequest_only_gets|].
    intros [res [err|]] st1; [apply only_gets_refl|].
    destruct res as [res|]; [|apply only_gets_refl].
    apply only_gets_defer_DrainBody.
    destruct (StatusCode res =? http_StatusNotFound); [apply only_gets_refl|].
    apply only_gets_bind; [apply only_gets_refl|]. intros [n l] st2. apply only_gets_refl. }
  split.
  { unfold ListsScrape. apply only_gets_bind; [apply only_gets_refl|]. intros c st0.
    apply only_gets_bind; [apply doRequest_only_gets|].
    intros [res [err|]] st1; [apply only_gets_refl|].
    destruct res as [res|]; [|apply only_gets_refl].
    apply only_gets_defer_DrainBody.
    destruct (goquery_NewDocumentFromReader (Body res)) as [doc|e]; [|apply only_gets_refl].
    apply only_gets_bind; [apply ListsScrape_each_only_gets|].
    intros dps st2. apply only_gets_refl. }
  split; [apply scrapes_only_get|].
  split; [apply scrapes_only_get|].
  unfold Hydrate. apply only_gets_bind; [apply only_gets_refl|]. intros c st0.
  apply only_gets_bind.
  - destruct (_ || _); [|apply only_gets_refl].
    apply only_gets_bind; [apply scrapes_only_get|].
    intros [err|] st1; apply only_gets_refl.
  - intros [err|] st1; [apply only_gets_refl|].
    apply only_gets_bind; [apply scrapes_only_get|].
    intros [err|] st2; apply only_gets_refl.
Qed.

End Requests.

(** ** The further properties on the scripted site *)

(** The export cut after the second column of its last row, and the
    ratings exports cut after the first and after the third, make the
    parser panic. *)
Lemma readResponse_cut_row_on_site :
  @readResponse Mock.platform Outage.cut_export resourceTypeList = Panics index_out_of_range
  /\ @readResponse Mock.platform Outage.cut_ratings_1 resourceTypeRating
     = Panics index_out_of_range
  /\ @readResponse Mock.platform Outage.cut_ratings_3 resourceTypeRating
     = Panics index_out_of_range.
Proof.
  split; [|split].
  - apply (proj1 (@readResponse_cut_row Mock.platform Outage.cut_export _
                    [Mock.shawshank] ["2"; "tt0944947"] [] eq_refl eq_refl)
             [Mock.shawshank_item]).
    + constructor; [by repeat split | constructor].
    + cbn. lia.
  - apply (proj2 (@readResponse_cut_row Mock.platform Outage.cut_ratings_1 _
                    [["tt0111161"; "9"; "2020-05-01"; ""; ""; "movie"]] ["tt0944947"] []
                    eq_refl eq_refl)
             [Mock.shawshank_rated]).
    + constructor; [|constructor]. repeat split; cbn; eauto.
    + left. cbn. lia.
  - apply (proj2 (@readResponse_cut_row Mock.platform Outage.cut_ratings_3 _
                    [] ["tt0944947"; "8"; "2020-05-02"] [] eq_refl eq_refl) []).
    + constructor.
    + right. split; [cbn; lia|].
      exists "8", 8%Z, "2020-05-02", (Time.Date 2020 5 2). by repeat split.
Defined.

(** The list export named "Sci-Fi Favourites!.csv" is the list
    "Sci-Fi Favourites!". *)
Lemma readListName_filename_on_site :
  exists name,
    @readListName Mock.platform Mock.list1_export = Returns (Some name)
    /\ ("."%char ∉ list_ascii_of_string name)
    /\ (({[ "filename" := "Sci-Fi Favourites!.csv" ]} : gmap string string) !! "filename"
         = None -> name = "")
    /\ (forall filename,
          ({[ "filename" := "Sci-Fi Favourites!.csv" ]} : gmap string string) !! "filename"
            = Some filename ->
          filename = name \/ exists after, filename = name ++ String "."%char after).
Proof.
  apply (@readListName_filename Mock.platform Mock.list1_export "attachment"
           {[ "filename" := "Sci-Fi Favourites!.csv" ]}).
  - discriminate.
  - reflexivity.
  - rewrite map_size_singleton. discriminate.
Defined.

(** The rated title of the ratings export holds a rating of an [int]
    and a date of the calendar. *)
Lemma rated_items_well_formed_on_site :
  Forall2 (fun record item =>
             exists field rating date,
               record !! 2%nat = Some field
               /\ length (list_ascii_of_string field) = 10%nat
               /\ Rating item = Some rating
               /\ - 2 ^ 63 <= rating <= 2 ^ 63 - 1
               /\ RatingDate item = Some date
               /\ 0 <= Time.Year date <= 9999
               /\ 1 <= Time.Month date <= 12
               /\ 1 <= Time.Day date <= Time.daysIn (Time.Month date) (Time.Year date))
    [["tt0111161"; "9"; "2020-05-01"; ""; ""; "movie"]] [Mock.shawshank_rated].
Proof.
  exact (@rated_items_well_formed Mock.platform Mock.ratings_export None
           [Mock.shawshank_rated] _ eq_refl eq_refl).
Defined.

(** A lists page that answers 500 gives the ImdbError of status 500. *)
Lemma doRequest_classifies_on_site :
  @doRequest Mock.platform {| Method := "GET"; Path := "/user/ur6/lists"; Body_ := None |}
    (Outage.start Outage.imdb "ur6" "")
  = (Returns (None, Some (ImdbError "GET" "https://www.imdb.com/user/ur6/lists" 500
                            "unexpected status code 500")),
     after_Do (Outage.start Outage.imdb "ur6" "")
       (Mock.get "https://www.imdb.com/user/ur6/lists") Outage.imdb).
Proof.
  apply (proj2 (@doRequest_classifies Mock.platform (Outage.start Outage.imdb "ur6" "")
                  "/user/ur6/lists" (Mock.get "https://www.imdb.com/user/ur6/lists")
                  (Outage.server_error "https://www.imdb.com/user/ur6/lists") Outage.imdb
                  (conj eq_refl eq_refl))); discriminate.
Defined.

(** With the watchlist id ls2 (a list that is gone) the watchlist is
    reported not found under that id; the ratings of a user the site
    does not know are reported not found with no id. *)
Lemma not_found_kinds_on_site :
  @WatchlistGet Mock.platform (Mock.start "ur12345" "ls2")
    = (Returns (None, [], Some (ResourceNotFoundError resourceTypeWatchlist (Some "ls2"))),
       after_Close
         (after_Do (Mock.start "ur12345" "ls2")
            (Mock.get "https://www.imdb.com/list/ls2/export") Mock.imdb) Mock.imdb)
  /\ @RatingsGet Mock.platform (Mock.start "ur9" "ls2")
     = (Returns ([], Some (ResourceNotFoundError resourceTypeRating None)),
        after_Close
          (after_Do (Mock.start "ur9" "ls2")
             (Mock.get "https://www.imdb.com/user/ur9/ratings/export") Mock.imdb) Mock.imdb).
Proof.
  split.
  - exact (proj1 (@not_found_kinds Mock.platform (Mock.start "ur12345" "ls2")
                    (Mock.get "https://www.imdb.com/list/ls2/export")
                    (Mock.not_found "https://www.imdb.com/list/ls2/export")
                    Mock.imdb Mock.imdb eq_refl eq_refl) (conj eq_refl eq_refl)).
  - exact (proj2 (@not_found_kinds Mock.platform (Mock.start "ur9" "ls2")
                    (Mock.get "https://www.imdb.com/user/ur9/ratings/export")
                    (Mock.not_found "https://www.imdb.com/user/ur9/ratings/export")
                    Mock.imdb Mock.imdb eq_refl eq_refl) (conj eq_refl eq_refl)).
Defined.

(** The list ls1 is returned with its name and two titles, and collected
    by the enumeration under the slug sci-fi-favourites. *)
Lemma ListItemsGet_collected_on_site :
  @ListItemsGet Mock.platform "ls1" (Mock.start "ur12345" "ls99999")
    = (Returns (Some "Sci-Fi Favourites!", [Mock.shawshank_item; Mock.thrones_item], None),
       after_Close
         (after_Do (Mock.start "ur12345" "ls99999")
            (Mock.get "https://www.imdb.com/list/ls1/export") Mock.imdb) Mock.imdb)
  /\ exists imdbListName,
       Some "Sci-Fi Favourites!" = Some imdbListName
       /\ forall selection rest dps,
            @goquery_Attr Mock.platform selection "id" = Some "ls1" ->
            @ListsScrape_each Mock.platform (selection :: rest) dps
              (Mock.start "ur12345" "ls99999")
            = @ListsScrape_each Mock.platform rest
                (dps ++ [ {| ImdbList := [Mock.shawshank_item; Mock.thrones_item];
                             ImdbListId := "ls1";
                             ImdbListName := imdbListName;
                             TraktListId :=
                               FormatTraktListName (@unicode_LowerCase Mock.platform)
                                 imdbListName |} ])
                (after_Close
                   (after_Do (Mock.start "ur12345" "ls99999")
                      (Mock.get "https://www.imdb.com/list/ls1/export") Mock.imdb)
                   Mock.imdb).
Proof.
  exact (@ListItemsGet_collected Mock.platform (Mock.start "ur12345" "ls99999") "ls1"
           (Mock.get "https://www.imdb.com/list/ls1/export") Mock.list1_export
           Mock.imdb Mock.imdb (Some "Sci-Fi Favourites!")
           [Mock.shawshank_item; Mock.thrones_item]
           (conj eq_refl eq_refl) eq_refl eq_refl eq_refl).
Defined.

(** Where the body of a page that is not found cannot be closed, asking
    for the list ls2 exits the process. *)
Lemma ListItemsGet_closes_body_on_site :
  @ListItemsGet Outage.flaky "ls2" (Outage.flaky_start "ur12345" "ls99999")
  = (Fatal "error closing response body: %v" (Some Outage.reset),
     after_Close
       (after_Do (Outage.flaky_start "ur12345" "ls99999")
          (Mock.get "https://www.imdb.com/list/ls2/export") Mock.imdb) Mock.imdb).
Proof.
  exact (proj1 (@ListItemsGet_closes_body Outage.flaky
                  (Outage.flaky_start "ur12345" "ls99999") "ls2"
                  (Mock.get "https://www.imdb.com/list/ls2/export")
                  (Mock.not_found "https://www.imdb.com/list/ls2/export")
                  Mock.imdb Mock.imdb (conj eq_refl eq_refl))
           Outage.reset eq_refl (or_introl eq_refl)).
Defined.

(** Collecting the two lists of ur12345 takes three requests at most and
    leaves the client as it was. *)
Lemma reading_keeps_the_client_on_site :
  @keeps Mock.platform 3 (Mock.start "ur12345" "ls99999")
    (@ListsScrape Mock.platform (Mock.start "ur12345" "ls99999")).2.
Proof.
  exact (proj2 (proj2 (proj2 (proj2 (proj2
           (@reading_keeps_the_client Mock.platform (Mock.start "ur12345" "ls99999"))))))
           (Mock.get "https://www.imdb.com/user/ur12345/lists") Mock.lists_page_ur12345
           Mock.imdb [Mock.user_list "ls2"; Mock.user_list "ls1"]
           (conj eq_refl eq_refl) eq_refl).
Defined.

(** The pair collected for ur12345 carries the slug of its name, and its
    id is one of the two ids of the page. *)
Lemma ListsScrape_pairs_on_site :
  Forall (fun pair =>
            TraktListId pair
              = FormatTraktListName (@unicode_LowerCase Mock.platform) (ImdbListName pair)
            /\ Forall slug_char (list_ascii_of_string (TraktListId pair)))
    [ {| ImdbList := [Mock.shawshank_item; Mock.thrones_item];
         ImdbListId := "ls1";
         ImdbListName := "Sci-Fi Favourites!";
         TraktListId := "sci-fi-favourites" |} ]
  /\ sublist ["ls1"] ["ls2"; "ls1"].
Proof.
  pose proof (@ListsScrape_pairs Mock.platform (Mock.start "ur12345" "ls99999")
                [ {| ImdbList := [Mock.shawshank_item; Mock.thrones_item];
                     ImdbListId := "ls1";
                     ImdbListName := "Sci-Fi Favourites!";
                     TraktListId := "sci-fi-favourites" |} ]
                None _ eq_refl) as (Hslug & _ & Hids).
  split; [exact Hslug|].
  exact (Hids (Mock.get "https://www.imdb.com/user/ur12345/lists") Mock.lists_page_ur12345
           Mock.imdb [Mock.user_list "ls2"; Mock.user_list "ls1"]
           (conj eq_refl eq_refl) eq_refl).
Defined.


(** A signed-out session finds no user id on its profile page, and no
    watchlist id on a watchlist page that is not found. *)
Lemma scrape_failures_on_site :
  @UserIdScrape Mock.platform (Outage.start Outage.imdb "scrape" "")
    = (Returns (Some (Errorf "failure scraping imdb profile: user id not found")),
       after_Close
         (after_Do (Outage.start Outage.imdb "scrape" "")
            (Mock.get "https://www.imdb.com/profile") Outage.imdb) Outage.imdb)
  /\ @WatchlistIdScrape Mock.platform (Outage.start [] "ur1" "")
     = (Returns (Some (Errorf "failure scraping imdb profile: watchlist id not found")),
        after_Close
          (after_Do (Outage.start [] "ur1" "")
             (Mock.get "https://www.imdb.com/watchlist") []) []).
Proof.
  split.
  - apply (proj2 (proj1 (@scrape_failures Mock.platform (Outage.start Outage.imdb "scrape" "")
                           (Mock.get "https://www.imdb.com/profile")
                           Outage.signed_out_profile Outage.imdb Outage.imdb
                           (or_introl eq_refl) eq_refl)
                    (conj eq_refl eq_refl))
             [ {| Mock.node_matches := ".sign-in"; Mock.node_attrs := [] |} ]);
      reflexivity.
  - apply (proj2 (proj2 (@scrape_failures Mock.platform (Outage.start [] "ur1" "")
                           (Mock.get "https://www.imdb.com/watchlist")
                           (Mock.not_found "https://www.imdb.com/watchlist") [] []
                           (or_intror eq_refl) eq_refl)
                    (conj eq_refl eq_refl)) []);
      reflexivity.
Defined.

(** The client built with "scrape" on the site asks at imdbPathBase with
    the tokens it was given, after two requests at most. *)
Lemma NewImdbClient_client_or_error_on_site :
  exists built st',
    @NewImdbClient Mock.platform (Mock.tokens "scrape") Mock.imdb
      = (Returns (Some built, None), Some st')
    /\ st_client st' = built
    /\ endpoint built = "https://www.imdb.com"
    /\ CookieAtMain (config built) = "at-token"
    /\ CookieUbidMain (config built) = "ubid-token"
    /\ (length (st_sent st') <= 2)%nat.
Proof.
  destruct (@NewImdbClient_client_or_error Mock.platform (Mock.tokens "scrape") Mock.imdb
              (Some (st_client (Mock.start "ur12345" "ls99999"))) None
              (@NewImdbClient Mock.platform (Mock.tokens "scrape") Mock.imdb).2 eq_refl)
    as [(built & st' & Hbuilt & _ & Hst & Hclient & Hendpoint & _ & Hat & Hubid & Hsent & _)
       | [Hnone _]]; [|discriminate Hnone].
  exists built, st'. injection Hbuilt as Hbuilt. injection Hst as Hst.
  rewrite <- Hbuilt, <- Hst. rewrite <- Hbuilt in Hendpoint, Hat, Hubid.
  rewrite <- Hst in Hsent.
  repeat split;
    first [exact Hendpoint | exact Hat | exact Hubid | exact Hsent | reflexivity].
Defined.

(** Construction fails where no cookie jar can be made, with stale
    tokens, and for a signed-out session. *)
Lemma NewImdbClient_failures_on_site :
  (exists err,
     @NewImdbClient Outage.flaky (Mock.tokens "scrape") Mock.imdb
       = (Returns (None, Some err), None)
     /\ LibError "cookiejar: no public suffix list" ∈ chain err)
  /\ (exists err st,
        @NewImdbClient Mock.platform (Mock.tokens "scrape") Outage.stale
          = (Returns (None, Some err), Some st)
        /\ is_authorization_failure err
        /\ st_sent st = [Mock.get "https://www.imdb.com/profile"]
        /\ config (st_client st) = Mock.tokens "scrape")
  /\ (exists err st,
        @NewImdbClient Mock.platform (Mock.tokens "ur1") Outage.stale
          = (Returns (None, Some err), Some st)
        /\ is_authorization_failure err
        /\ st_sent st = [Mock.get "https://www.imdb.com/watchlist"]
        /\ config (st_client st) = Mock.tokens "ur1")
  /\ (exists err st,
        @NewImdbClient Mock.platform (Mock.tokens "scrape") Outage.imdb
          = (Returns (None, Some err), Some st)
        /\ Errorf "failure scraping imdb profile: user id not found" ∈ chain err
        /\ st_sent st = [Mock.get "https://www.imdb.com/profile"]
        /\ config (st_client st) = Mock.tokens "scrape").
Proof.
  split; [|split; [|split]].
  - apply (proj1 (@NewImdbClient_failures Outage.flaky (Mock.tokens "scrape") Mock.imdb)).
    right. by exists "https://www.imdb.com".
  - apply (proj1 (proj2 (@NewImdbClient_failures Mock.platform (Mock.tokens "scrape")
                           Outage.stale))
             (Some (Mock.jar (Mock.tokens "scrape"))) (Mock.get "https://www.imdb.com/profile")
             (Mock.forbidden "https://www.imdb.com/profile") Outage.stale eq_refl eq_refl).
    left. split; [by right | by split].
  - apply (proj1 (proj2 (@NewImdbClient_failures Mock.platform (Mock.tokens "ur1")
                           Outage.stale))
             (Some (Mock.jar (Mock.tokens "ur1"))) (Mock.get "https://www.imdb.com/watchlist")
             (Mock.forbidden "https://www.imdb.com/watchlist") Outage.stale eq_refl eq_refl).
    right. repeat split; discriminate.
  - apply (proj2 (proj2 (@NewImdbClient_failures Mock.platform (Mock.tokens "scrape")
                           Outage.imdb))
             (Some (Mock.jar (Mock.tokens "scrape"))) (Mock.get "https://www.imdb.com/profile")
             Outage.signed_out_profile Outage.imdb Outage.imdb
             [ {| Mock.node_matches := ".sign-in"; Mock.node_attrs := [] |} ]
             eq_refl (or_intror eq_refl) (conj eq_refl eq_refl) (or_introl eq_refl)
             eq_refl eq_refl eq_refl).
Defined.
